(** * Trading Mind backend: check-in engine, settings and daily stores,
      verification codes and the auth gate.

    A shallow embedding of the Express/Mongoose handlers of the backend
    (routes/checkin.js, routes/settings.js, routes/daily.js, routes/user.js,
    utils/sms.js, middleware/auth.js) and of the models they persist,
    followed by the properties the specification states about them and by
    further properties of the handlers: what they store and read back, what
    they leave untouched, and the invariants the collections keep. *)

From Stdlib Require Import ZArith Lia List Bool Ascii String.
From Stdlib Require Import Permutation Sorted DecimalString.
From Stdlib Require DecimalPos.
From stdpp Require Import gmap strings.
Import ListNotations.

Local Open Scope string_scope.
Local Open Scope Z_scope.

(* ===================================================================== *)
(** ** JavaScript strings

    A JavaScript string is modelled by the bytes of its UTF-8 encoding
    ([string] is a list of [ascii] bytes). *)
(* ===================================================================== *)

Module JsString.

(** [String.prototype.padStart(targetLength, "0")] with a one-character
    filler. *)
Fixpoint repeatChar (c : ascii) (n : nat) : string :=
  match n with
  | O => EmptyString
  | S n' => String c (repeatChar c n')
  end.

Definition padStart (targetLength : nat) (c : ascii) (s : string) : string :=
  repeatChar c (targetLength - String.length s) ++ s.

(** [String(n)] for an integer [n] (decimal, with a minus sign). *)
Definition ofInteger (n : Z) : string :=
  NilZero.string_of_int (Z.to_int n).

(** [str.slice(0, n)]. *)
Definition slice0 (n : nat) (s : string) : string := substring 0 n s.

(** [str.startsWith(p)]. *)
Definition startsWith (p s : string) : bool := String.prefix p s.

(** *** [String.prototype.trim]

    [trim] removes the WhiteSpace and LineTerminator code points of
    ECMA-262 from both ends.  In UTF-8 these are the bytes 09-0D and 20
    (TAB, LF, VT, FF, CR, SP) and the sequences C2 A0 (U+00A0),
    E1 9A 80 (U+1680), E2 80 80 - E2 80 8A (U+2000 - U+200A),
    E2 80 A8, E2 80 A9 (U+2028, U+2029), E2 80 AF (U+202F),
    E2 81 9F (U+205F), E3 80 80 (U+3000) and EF BB BF (U+FEFF). *)

Definition whiteSpace1 (a : ascii) : bool :=
  let n := N_of_ascii a in
  ((9 <=? n) && (n <=? 13) || (n =? 32))%N.

Definition whiteSpace2 (a b : ascii) : bool :=
  ((N_of_ascii a =? 194) && (N_of_ascii b =? 160))%N.

Definition whiteSpace3 (a b c : ascii) : bool :=
  let x := N_of_ascii a in
  let y := N_of_ascii b in
  let z := N_of_ascii c in
  ((x =? 225) && (y =? 154) && (z =? 128) ||
   (x =? 226) && (y =? 128) &&
     ((128 <=? z) && (z <=? 138) || (z =? 168) || (z =? 169) || (z =? 175)) ||
   (x =? 226) && (y =? 129) && (z =? 159) ||
   (x =? 227) && (y =? 128) && (z =? 128) ||
   (x =? 239) && (y =? 187) && (z =? 191))%N.

(** Drops from the head of a byte list every run of one, two or three
    bytes that the predicates accept. *)
Fixpoint dropLeading (p1 : ascii -> bool) (p2 : ascii -> ascii -> bool)
    (p3 : ascii -> ascii -> ascii -> bool) (s : list ascii) : list ascii :=
  match s with
  | a :: s1 =>
      if p1 a then dropLeading p1 p2 p3 s1
      else
        match s1 with
        | b :: s2 =>
            if p2 a b then dropLeading p1 p2 p3 s2
            else
              match s2 with
              | c :: s3 => if p3 a b c then dropLeading p1 p2 p3 s3 else s
              | [] => s
              end
        | [] => s
        end
  | [] => s
  end.

(** No accepted run stands at the head of [s]: [dropLeading] leaves such a
    list as it is. *)
Definition headClear (p1 : ascii -> bool) (p2 : ascii -> ascii -> bool)
    (p3 : ascii -> ascii -> ascii -> bool) (s : list ascii) : bool :=
  match s with
  | a :: s1 =>
      negb (p1 a) &&
      match s1 with
      | b :: s2 =>
          negb (p2 a b) &&
          match s2 with
          | c :: _ => negb (p3 a b c)
          | [] => true
          end
      | [] => true
      end
  | [] => true
  end.

Definition trimStartBytes (s : list ascii) : list ascii :=
  dropLeading whiteSpace1 whiteSpace2 whiteSpace3 s.

(** The end is trimmed on the reversed bytes, with the sequences read
    backwards. *)
Definition trimEndBytes (s : list ascii) : list ascii :=
  List.rev
    (dropLeading whiteSpace1 (fun b a => whiteSpace2 a b)
       (fun c b a => whiteSpace3 a b c) (List.rev s)).

Definition trim (s : string) : string :=
  string_of_list_ascii (trimEndBytes (trimStartBytes (list_ascii_of_string s))).

(** A string in a condition: the empty string is falsy. *)
Definition nonEmpty (s : string) : bool := negb (String.eqb s "").

End JsString.

(* ===================================================================== *)
(** ** JavaScript numbers

    The numbers of the handlers are results of [parseInt] and of the getters
    of [Date]: NaN, an infinity ([parseInt] of a very long run of digits),
    or a double whose value is an integer, given here by that value (the
    zeros +0 and -0 are both [Integer 0]). *)
(* ===================================================================== *)

Module JsNumber.

Inductive Number :=
| NaN
| Infinite (negative : bool)
| Integer (n : Z).

(** [x || d]: NaN and the zeros are falsy. *)
Definition orNumber (x d : Number) : Number :=
  match x with
  | NaN => d
  | Integer 0 => d
  | _ => x
  end.

Section ToString.

(** [Number::toString] of an integer of magnitude 2^53 or more: the
    shortest digits that read back as the same double, followed by zeros
    or, from 1e21 on, in exponent form ("1e+21").  The digits are the
    engine's. *)
Variable largeToString : Z -> string.

(** [String(x)], also the conversion of [x] in a template literal: an
    integer below 2^53 in magnitude is printed by its decimal digits. *)
Definition toString (x : Number) : string :=
  match x with
  | NaN => "NaN"
  | Infinite false => "Infinity"
  | Infinite true => "-Infinity"
  | Integer n =>
      if Z.abs n <? 2 ^ 53 then JsString.ofInteger n else largeToString n
  end.

End ToString.

End JsNumber.

(* ===================================================================== *)
(** ** JavaScript [Date]

    Time values are integer milliseconds since 1970-01-01T00:00:00Z; the
    functions below are the abstract operations of ECMA-262, section
    "Time Values and Time Range", on which [new Date(s)], [getDate],
    [setDate] and [toISOString] are defined.  [None] stands for the time
    value NaN (an invalid date). *)
(* ===================================================================== *)

Module JsDate.

Definition msPerDay : Z := 86400000.
Definition msPerHour : Z := 3600000.
Definition msPerMinute : Z := 60000.
Definition msPerSecond : Z := 1000.

Definition Day (t : Z) : Z := t / msPerDay.
Definition TimeWithinDay (t : Z) : Z := t mod msPerDay.

Definition DaysInYear (y : Z) : Z :=
  if negb (y mod 4 =? 0) then 365
  else if negb (y mod 100 =? 0) then 366
  else if negb (y mod 400 =? 0) then 365
  else 366.

Definition DayFromYear (y : Z) : Z :=
  365 * (y - 1970) + (y - 1969) / 4 - (y - 1901) / 100 + (y - 1601) / 400.

Definition TimeFromYear (y : Z) : Z := msPerDay * DayFromYear y.

(** ECMA-262 defines [YearFromTime t] as the largest integer [y] with
    [TimeFromYear y <= t].  It is computed from the mean length of a
    Gregorian year (146097 days in 400 years), which is off by at most one
    year; [YearFromTime_spec] proves the defining property. *)
Definition YearFromTime (t : Z) : Z :=
  let y := 1970 + (400 * Day t) / 146097 in
  if DayFromYear (y + 1) <=? Day t then y + 1
  else if DayFromYear y <=? Day t then y
  else y - 1.

Definition InLeapYear (t : Z) : Z :=
  if DaysInYear (YearFromTime t) =? 366 then 1 else 0.

Definition DayWithinYear (t : Z) : Z := Day t - DayFromYear (YearFromTime t).

(** Months are numbered 0 (January) to 11 (December). *)
Definition MonthFromTime (t : Z) : Z :=
  let d := DayWithinYear t in
  let l := InLeapYear t in
  if d <? 31 then 0
  else if d <? 59 + l then 1
  else if d <? 90 + l then 2
  else if d <? 120 + l then 3
  else if d <? 151 + l then 4
  else if d <? 181 + l then 5
  else if d <? 212 + l then 6
  else if d <? 243 + l then 7
  else if d <? 273 + l then 8
  else if d <? 304 + l then 9
  else if d <? 334 + l then 10
  else 11.

Definition DateFromTime (t : Z) : Z :=
  let d := DayWithinYear t in
  let l := InLeapYear t in
  match MonthFromTime t with
  | 0 => d + 1
  | 1 => d - 30
  | 2 => d - 58 - l
  | 3 => d - 89 - l
  | 4 => d - 119 - l
  | 5 => d - 150 - l
  | 6 => d - 180 - l
  | 7 => d - 211 - l
  | 8 => d - 242 - l
  | 9 => d - 272 - l
  | 10 => d - 303 - l
  | _ => d - 333 - l
  end.

Definition HourFromTime (t : Z) : Z := (t / msPerHour) mod 24.
Definition MinFromTime (t : Z) : Z := (t / msPerMinute) mod 60.
Definition SecFromTime (t : Z) : Z := (t / msPerSecond) mod 60.
Definition msFromTime (t : Z) : Z := t mod msPerSecond.

(** Number of days of the year that precede the first day of month [mn]
    (0 to 11) in a year of [diy] days. *)
Definition daysBeforeMonth (diy mn : Z) : Z :=
  let l := if diy =? 366 then 1 else 0 in
  match mn with
  | 0 => 0
  | 1 => 31
  | 2 => 59 + l
  | 3 => 90 + l
  | 4 => 120 + l
  | 5 => 151 + l
  | 6 => 181 + l
  | 7 => 212 + l
  | 8 => 243 + l
  | 9 => 273 + l
  | 10 => 304 + l
  | _ => 334 + l
  end.

(** [MakeDay(year, month, date)]: the day number of the first day of month
    [month mod 12] of year [year + floor(month / 12)], plus [date - 1]. *)
Definition MakeDay (year month date : Z) : Z :=
  let ym := year + month / 12 in
  let mn := month mod 12 in
  DayFromYear ym + daysBeforeMonth (DaysInYear ym) mn + date - 1.

Definition MakeDate (day time : Z) : Z := day * msPerDay + time.

(** [TimeClip]: time values beyond 8.64e15 ms are NaN. *)
Definition TimeClip (time : Z) : option Z :=
  if Z.abs time <=? 8640000000000000 then Some time else None.

Section LocalTime.

(** [LocalTZA(t, isUTC)]: the offset of the server's local time zone from
    UTC, in milliseconds, in force at the time value [t] ([isUTC] true) or
    at the local time [t] ([isUTC] false); it is what the zone of the
    server ([TZ]) makes it. *)
Variable LocalTZA : Z -> bool -> Z.

Definition LocalTime (t : Z) : Z := t + LocalTZA t true.
Definition UTC (t : Z) : Z := t - LocalTZA t false.

(** [Date.prototype.getFullYear], [getMonth] and [getDate] read the local
    time. *)
Definition getFullYear (tv : Z) : Z := YearFromTime (LocalTime tv).
Definition getMonth (tv : Z) : Z := MonthFromTime (LocalTime tv).
Definition getDate (tv : Z) : Z := DateFromTime (LocalTime tv).

(** [Date.prototype.setDate(date)]: replaces the day of the month of the
    local time and converts back to UTC. *)
Definition setDate (tv : Z) (dt : Z) : option Z :=
  let t := LocalTime tv in
  let newDate :=
    MakeDate (MakeDay (YearFromTime t) (MonthFromTime t) dt) (TimeWithinDay t) in
  TimeClip (UTC newDate).

End LocalTime.

(** A zone with one offset all year (UTC, or UTC+8 of Asia/Shanghai). *)
Definition fixedOffset (offset : Z) : Z -> bool -> Z := fun _ _ => offset.

(** America/New_York in 2024: UTC-5, and UTC-4 (daylight saving time) from
    2024-03-10T07:00Z to 2024-11-03T06:00Z.  A local time that the change of
    the clocks skips or repeats is read with the offset in force before the
    change. *)
Definition newYork2024 (t : Z) (isUTC : bool) : Z :=
  let standard := -5 * msPerHour in
  let daylight := -4 * msPerHour in
  let starts := 1710054000000 in
  let ends := 1730613600000 in
  if isUTC then
    if (starts <=? t) && (t <? ends) then daylight else standard
  else
    if (starts + daylight <=? t) && (t <? ends + daylight) then daylight else standard.

(** [ToZeroPaddedDecimalString(n, minLength)]. *)
Definition ToZeroPaddedDecimalString (n : Z) (minLength : nat) : string :=
  JsString.padStart minLength "0" (JsString.ofInteger n).

(** [Date.prototype.toISOString]: "YYYY-MM-DDTHH:mm:ss.sssZ", the year
    written with a sign and six digits outside 0..9999. *)
Definition isoYear (yv : Z) : string :=
  if (0 <=? yv) && (yv <=? 9999) then ToZeroPaddedDecimalString yv 4
  else (if 0 <? yv then "+" else "-") ++ ToZeroPaddedDecimalString (Z.abs yv) 6.

Definition toISOString (tv : Z) : string :=
  isoYear (YearFromTime tv) ++ "-" ++
  ToZeroPaddedDecimalString (MonthFromTime tv + 1) 2 ++ "-" ++
  ToZeroPaddedDecimalString (DateFromTime tv) 2 ++ "T" ++
  ToZeroPaddedDecimalString (HourFromTime tv) 2 ++ ":" ++
  ToZeroPaddedDecimalString (MinFromTime tv) 2 ++ ":" ++
  ToZeroPaddedDecimalString (SecFromTime tv) 2 ++ "." ++
  ToZeroPaddedDecimalString (msFromTime tv) 3 ++ "Z".

(** Decimal value of a string of ASCII digits. *)
Definition digitValue (c : ascii) : option Z :=
  let n := Z.of_N (N_of_ascii c) in
  if (48 <=? n) && (n <=? 57) then Some (n - 48) else None.

Fixpoint digitsValue (acc : Z) (s : string) : option Z :=
  match s with
  | EmptyString => Some acc
  | String c s' =>
      match digitValue c with
      | Some d => digitsValue (10 * acc + d) s'
      | None => None
      end
  end.

(** [new Date(s)] for the date-only form "YYYY-MM-DD" of the date-time
    string format, which is read as UTC midnight.  The handlers apply it to
    strings of that form only ([toISOString().slice(0, 10)] of a year
    0..9999); every other string is given the invalid date here. *)
Definition parseDateOnly (s : string) : option Z :=
  if (String.length s =? 10)%nat then
    match digitsValue 0 (substring 0 4 s), substring 4 1 s,
          digitsValue 0 (substring 5 2 s), substring 7 1 s,
          digitsValue 0 (substring 8 2 s) with
    | Some y, "-", Some m, "-", Some d =>
        if (1 <=? m) && (m <=? 12) && (1 <=? d) && (d <=? 31)
        then TimeClip (MakeDate (MakeDay y (m - 1) d) 0)
        else None
    | _, _, _, _, _ => None
    end
  else None.

End JsDate.


(* ===================================================================== *)
(** ** HTTP envelope and JavaScript truthiness *)
(* ===================================================================== *)

(** Mongo ObjectIds are opaque identifiers. *)
Definition ObjectId := nat.

(** Every handler answers [res.json({ code, message, data })]. *)
Record Response (D : Type) := mkResponse {
  code : Z;
  message : string;
  data : option D
}.
Arguments mkResponse {D}.
Arguments code {D}.
Arguments message {D}.
Arguments data {D}.

(** A request field that is absent ([undefined]) is [None]. *)
Definition truthy (v : option string) : bool :=
  match v with
  | Some s => negb (String.eqb s "")
  | None => false
  end.

(** [v || d] for a string field. *)
Definition orString (v : option string) (d : string) : string :=
  match v with
  | Some s => if String.eqb s "" then d else s
  | None => d
  end.

(** [v || d] for an array field (an array is always truthy). *)
Definition orArray {A : Type} (v : option (list A)) (d : list A) : list A :=
  match v with
  | Some l => l
  | None => d
  end.

(** [arr.includes(x)] on an array of strings. *)
Definition includes (arr : list string) (x : string) : bool :=
  existsb (String.eqb x) arr.

(** Insertion sort by a boolean order; [find(...).sort({ date: 1 })] orders
    a result by the byte order of the date strings, which is the order
    [$gte] and [$lte] compare with. *)
Fixpoint insertBy {A : Type} (le : A -> A -> bool) (x : A) (l : list A) : list A :=
  match l with
  | [] => [x]
  | y :: l' => if le x y then x :: y :: l' else y :: insertBy le x l'
  end.

Fixpoint sortBy {A : Type} (le : A -> A -> bool) (l : list A) : list A :=
  match l with
  | [] => []
  | x :: l' => insertBy le x (sortBy le l')
  end.

(* ===================================================================== *)
(** ** models/CheckIn.js *)
(* ===================================================================== *)

Module CheckInModel.

Record Task := mkTask {
  title : string;
  content : string
}.

Record CheckIn := mkCheckIn {
  _id : ObjectId;
  userId : ObjectId;
  date : string;            (* "2024-01-15" *)
  type : string;            (* enum: 'completed', 'incomplete' *)
  isCompleted : bool;
  incompleteTasks : list Task;
  note : string;
  createdAt : Z
}.

(** The collection: its documents in insertion order, and the source of
    fresh ObjectIds. *)
Record Collection := mkCollection {
  docs : list CheckIn;
  nextId : ObjectId
}.

Definition empty : Collection := mkCollection [] 0%nat.

Definition sameKey (u : ObjectId) (d : string) (r : CheckIn) : bool :=
  Nat.eqb (userId r) u && String.eqb (date r) d.

(** [CheckIn.findOne({ userId, date })]. *)
Definition findOne (u : ObjectId) (d : string) (c : Collection) : option CheckIn :=
  List.find (sameKey u d) (docs c).

(** [CheckIn.find({ userId })]. *)
Definition findByUser (u : ObjectId) (c : Collection) : list CheckIn :=
  List.filter (fun r => Nat.eqb (userId r) u) (docs c).

(** [CheckIn.find({ userId, date: { $gte: lo, $lte: hi } })]. *)
Definition findInRange (u : ObjectId) (lo hi : string) (c : Collection) : list CheckIn :=
  List.filter
    (fun r => Nat.eqb (userId r) u && String.leb lo (date r) && String.leb (date r) hi)
    (docs c).

(** Schema validation of [type]: [enum: ['completed', 'incomplete']]. *)
Definition validType (t : string) : bool :=
  String.eqb t "completed" || String.eqb t "incomplete".

Inductive SaveError := ValidationError | DuplicateKey (* error.code === 11000 *).

(** [doc.save()] of a new document: the schema is validated, then the
    unique index [{ userId: 1, date: 1 }] is checked on insertion. *)
Definition save (doc : CheckIn) (c : Collection) : SaveError + Collection :=
  if negb (validType (type doc)) || String.eqb (date doc) "" then inl ValidationError
  else if existsb (sameKey (userId doc) (date doc)) (docs c) then inl DuplicateKey
  else inr (mkCollection (docs c ++ [doc]) (S (nextId c))).

End CheckInModel.

(* ===================================================================== *)
(** ** routes/checkin.js *)
(* ===================================================================== *)

Module CheckInRoutes.
Import CheckInModel.

(** The [checkIn] / [record] object of a response. *)
Record CheckInView := mkView {
  view_id : ObjectId;
  view_date : string;
  view_type : string;
  view_isCompleted : bool;
  view_incompleteTasks : list Task;
  view_note : string
}.

Definition viewOf (r : CheckIn) : CheckInView :=
  mkView (_id r) (date r) (type r) (isCompleted r) (incompleteTasks r) (note r).

(** [new Date().toISOString().slice(0, 10)]. *)
Definition isoDate (now : Z) : string := JsString.slice0 10 (JsDate.toISOString now).

(** *** POST /api/checkin *)

Inductive PostData :=
| ExistingRecord (id : ObjectId) (date : string) (type : string)
| Created (checkIn : CheckInView).

Definition postCheckIn (now : Z) (user : ObjectId)
    (type : option string) (incompleteTasks : option (list Task))
    (note : option string) (date : option string)
    (db : Collection) : Response PostData * Collection :=
  if negb (truthy type) then
    (mkResponse 400 "签到类型不能为空（completed 或 incomplete）" None, db)
  else
    let type := orString type "" in
    if negb (String.eqb type "completed" || String.eqb type "incomplete") then
      (mkResponse 400 "签到类型必须是 completed（完成）或 incomplete（手欠）" None,
       db)
    else
      let checkInDate := orString date (isoDate now) in
      match findOne user checkInDate db with
      | Some existingCheckIn =>
          (mkResponse 400 "今天已经签到过了，不能重复签到"
             (Some (ExistingRecord (_id existingCheckIn) (CheckInModel.date existingCheckIn)
                      (CheckInModel.type existingCheckIn))), db)
      | None =>
          let checkIn :=
            mkCheckIn (nextId db) user checkInDate type (String.eqb type "completed")
              (orArray incompleteTasks []) (orString note "") now in
          match save checkIn db with
          | inr db' =>
              (mkResponse 200
                 (if String.eqb type "completed" then "签到成功！继续保持交易纪律！"
                  else "已记录手欠行为，下次注意！")
                 (Some (Created (viewOf checkIn))), db')
          (* the [catch]: a duplicate key error of the unique index, or
             any other error (here, a validation error), whose message is
             appended to the answer's *)
          | inl DuplicateKey => (mkResponse 400 "该日期已有签到记录" None, db)
          | inl ValidationError => (mkResponse 500 "签到失败: " None, db)
          end
      end.

(** *** GET /api/checkin?year&month *)

Record MonthData := mkMonthData {
  year : JsNumber.Number;
  month : JsNumber.Number;
  total : nat;
  completedCount : nat;
  incompleteCount : nat;
  records : list CheckInView
}.

Definition byDateAsc (a b : CheckIn) : bool := String.leb (date a) (date b).
Definition byDateDesc (a b : CheckIn) : bool := String.leb (date b) (date a).

(** [a] is dated no later than [b], in the byte order of the date strings. *)
Definition dateLe (a b : CheckIn) : Prop := String.leb (date a) (date b) = true.

Section Months.
Import JsNumber.

Variable largeToString : Z -> string.

(** The first and last date strings of the queried month:
    [monthStr = String(month).padStart(2, '0')], [`${year}-${monthStr}-01`]
    and [`${year}-${monthStr}-31`]. *)
Definition monthStr (month : Number) : string :=
  JsString.padStart 2 "0" (toString largeToString month).
Definition startDate (year month : Number) : string :=
  toString largeToString year ++ "-" ++ monthStr month ++ "-01".
Definition endDate (year month : Number) : string :=
  toString largeToString year ++ "-" ++ monthStr month ++ "-31".

(** The records the query of [listMonth] selects, in the order it returns
    them. *)
Definition monthRecords (user : ObjectId) (year month : Number) (db : Collection)
    : list CheckIn :=
  sortBy byDateAsc (findInRange user (startDate year month) (endDate year month) db).

(** [queryYear] and [queryMonth] are [parseInt(req.query.year)] and
    [parseInt(req.query.month)]. *)
Definition listMonth (LocalTZA : Z -> bool -> Z) (now : Z) (user : ObjectId)
    (queryYear queryMonth : Number) (db : Collection) : Response MonthData :=
  let year := orNumber queryYear (Integer (JsDate.getFullYear LocalTZA now)) in
  let month := orNumber queryMonth (Integer (JsDate.getMonth LocalTZA now + 1)) in
  let records := monthRecords user year month db in
  let completedCount := List.length (List.filter (fun r => isCompleted r) records) in
  let incompleteCount := List.length (List.filter (fun r => negb (isCompleted r)) records) in
  mkResponse 200 "获取成功"
    (Some (mkMonthData year month (List.length records) completedCount incompleteCount
             (List.map viewOf records))).

End Months.

(** *** GET /api/checkin/today *)

Record TodayData := mkTodayData {
  hasCheckedIn : bool;
  record : option CheckInView
}.

Definition todayStatus (now : Z) (user : ObjectId) (db : Collection) : Response TodayData :=
  match findOne user (isoDate now) db with
  | Some r => mkResponse 200 "今天已签到" (Some (mkTodayData true (Some (viewOf r))))
  | None => mkResponse 200 "今天还未签到" (Some (mkTodayData false None))
  end.

(** *** GET /api/checkin/stats *)

Record Counts := mkCounts {
  count_total : nat;
  count_completed : nat;
  count_incomplete : nat
}.

Record StatsData := mkStatsData {
  monthly : Counts;
  overall : Counts;
  streak : nat
}.

Definition countsOf (rs : list CheckIn) : Counts :=
  mkCounts (List.length rs)
    (List.length (List.filter (fun r => isCompleted r) rs))
    (List.length (List.filter (fun r => negb (isCompleted r)) rs)).

(** What running a piece of the handler yields: a value, an exception
    (caught by the handler's [catch]), or no answer within the fuel given to
    the [while] loop. *)
Inductive Outcome (A : Type) :=
| Returned (a : A)
| Threw
| OutOfFuel.
Arguments Returned {A}.
Arguments Threw {A}.
Arguments OutOfFuel {A}.

Section Stats.

Variable largeToString : Z -> string.
Variable LocalTZA : Z -> bool -> Z.

(** The body of the loop after [streak++]:
    [prevDate = new Date(checkDate); prevDate.setDate(prevDate.getDate() - 1);
     checkDate = prevDate.toISOString().slice(0, 10)].
    [toISOString] throws a RangeError on an invalid date. *)
Definition previousDate (checkDate : string) : option string :=
  match JsDate.parseDateOnly checkDate with
  | None => None
  | Some prevDate =>
      match JsDate.setDate LocalTZA prevDate (JsDate.getDate LocalTZA prevDate - 1) with
      | None => None
      | Some prevDate' => Some (isoDate prevDate')
      end
  end.

(** [while (checkInDates.includes(checkDate)) { streak++; ... }]. *)
Fixpoint streakLoop (fuel : nat) (checkInDates : list string)
    (checkDate : string) (streak : nat) : Outcome nat :=
  match fuel with
  | O => OutOfFuel
  | S fuel' =>
      if includes checkInDates checkDate then
        match previousDate checkDate with
        | Some checkDate' => streakLoop fuel' checkInDates checkDate' (S streak)
        | None => Threw
        end
      else Returned streak
  end.

Definition computeStreak (fuel : nat) (now : Z) (allRecords : list CheckIn) : Outcome nat :=
  let today := isoDate now in
  let yesterday := isoDate (now - 24 * 60 * 60 * 1000) in
  let checkInDates := List.map date allRecords in
  if includes checkInDates today || includes checkInDates yesterday then
    let checkDate := if includes checkInDates today then today else yesterday in
    streakLoop fuel checkInDates checkDate 0
  else Returned 0%nat.

(** [None]: the loop was not given fuel enough to finish. *)
Definition computeStats (fuel : nat) (now : Z) (user : ObjectId) (db : Collection)
    : option (Response StatsData) :=
  let year := JsNumber.Integer (JsDate.getFullYear LocalTZA now) in
  let month := JsNumber.Integer (JsDate.getMonth LocalTZA now + 1) in
  let monthlyRecords :=
    findInRange user (startDate largeToString year month)
      (endDate largeToString year month) db in
  let allRecords := sortBy byDateDesc (findByUser user db) in
  match computeStreak fuel now allRecords with
  | Returned streak =>
      Some (mkResponse 200 "获取成功"
              (Some (mkStatsData (countsOf monthlyRecords) (countsOf allRecords) streak)))
  | Threw => Some (mkResponse 500 "获取统计数据失败" None)
  | OutOfFuel => None
  end.

End Stats.

(** *** The router: the four endpoints and the effect of a request on the
    collection.  Only POST writes; the three GET handlers read. *)

Inductive Request :=
| PostCheckIn (now : Z) (user : ObjectId) (type : option string)
    (incompleteTasks : option (list Task)) (note : option string) (date : option string)
| GetList (LocalTZA : Z -> bool -> Z) (now : Z) (user : ObjectId)
    (queryYear queryMonth : JsNumber.Number)
| GetToday (now : Z) (user : ObjectId)
| GetStats (LocalTZA : Z -> bool -> Z) (fuel : nat) (now : Z) (user : ObjectId).

Definition step (req : Request) (db : Collection) : Collection :=
  match req with
  | PostCheckIn now user type incompleteTasks note date =>
      snd (postCheckIn now user type incompleteTasks note date db)
  | GetList _ _ _ _ _ => db
  | GetToday _ _ => db
  | GetStats _ _ _ _ => db
  end.

Definition run (reqs : list Request) (db : Collection) : Collection :=
  List.fold_left (fun db req => step req db) reqs db.

(** The answer to a repeated check-in. *)
Definition duplicateCheckIn (existing : CheckIn) : Response PostData :=
  mkResponse 400 "今天已经签到过了，不能重复签到"
    (Some (ExistingRecord (_id existing) (CheckInModel.date existing)
             (CheckInModel.type existing))).

(** The record invariant of the data model: [isCompleted] is true exactly
    when [type] is 'completed'. *)
Definition completedIffKind (r : CheckIn) : Prop :=
  isCompleted r = String.eqb (CheckInModel.type r) "completed".

End CheckInRoutes.

(* ===================================================================== *)
(** ** The reference streak of the specification

    The backward walk over calendar dates as the specification words it:
    start at today if today has a record, else at yesterday; count the
    consecutive calendar days that have a record. *)
(* ===================================================================== *)

Module StreakReference.

Record CalendarDate := mkDate {
  year : Z;
  month : Z;    (* 1 to 12 *)
  day : Z       (* 1 to 31 *)
}.

Definition isLeapYear (y : Z) : bool :=
  (y mod 4 =? 0) && (negb (y mod 100 =? 0) || (y mod 400 =? 0)).

Definition daysInMonth (y m : Z) : Z :=
  match m with
  | 2 => if isLeapYear y then 29 else 28
  | 4 | 6 | 9 | 11 => 30
  | _ => 31
  end.

(** One calendar day back, with month and year rollover. *)
Definition prevCalendarDay (c : CalendarDate) : CalendarDate :=
  if 1 <? day c then mkDate (year c) (month c) (day c - 1)
  else if 1 <? month c then mkDate (year c) (month c - 1) (daysInMonth (year c) (month c - 1))
  else mkDate (year c - 1) 12 31.

Fixpoint daysBack (n : nat) (c : CalendarDate) : CalendarDate :=
  match n with
  | O => c
  | S n' => daysBack n' (prevCalendarDay c)
  end.

(** "YYYY-MM-DD". *)
Definition dateString (c : CalendarDate) : string :=
  JsString.padStart 4 "0" (JsString.ofInteger (year c)) ++ "-" ++
  JsString.padStart 2 "0" (JsString.ofInteger (month c)) ++ "-" ++
  JsString.padStart 2 "0" (JsString.ofInteger (day c)).

(** The user has a record (of either kind) dated [c]. *)
Definition hasRecord (history : list CheckInModel.CheckIn) (c : CalendarDate) : bool :=
  existsb (fun r => String.eqb (CheckInModel.date r) (dateString c)) history.

(** [n] consecutive days from [start] backwards have a record, and the day
    before them has none. *)
Definition consecutiveRun (history : list CheckInModel.CheckIn)
    (start : CalendarDate) (n : nat) : Prop :=
  (forall i : nat, (i < n)%nat -> hasRecord history (daysBack i start) = true) /\
  hasRecord history (daysBack n start) = false.

Definition referenceStreak (history : list CheckInModel.CheckIn)
    (today : CalendarDate) (n : nat) : Prop :=
  let yesterday := prevCalendarDay today in
  if hasRecord history today then consecutiveRun history today n
  else if hasRecord history yesterday then consecutiveRun history yesterday n
  else n = 0%nat.

(** The calendar date (UTC) of a time value. *)
Definition calendarDateOf (now : Z) : CalendarDate :=
  mkDate (JsDate.YearFromTime now) (JsDate.MonthFromTime now + 1) (JsDate.DateFromTime now).

(** The clock reads a day after 0000-01-01 and before 10000-01-01: today and
    yesterday are dates of the four-digit calendar "YYYY-MM-DD". *)
Definition clockInRange (now : Z) : Prop :=
  JsDate.TimeFromYear 0 + JsDate.msPerDay <= now < JsDate.TimeFromYear 10000.

(** The streak scenario of the specification: user 1 with records on
    2024-01-10, 2024-01-11 and 2024-01-12 (of both kinds), the same history
    without the record of 2024-01-11, and a clock on 2024-01-12 (noon UTC). *)
Definition scenarioRecord (id : ObjectId) (date type : string) : CheckInModel.CheckIn :=
  CheckInModel.mkCheckIn id 1%nat date type (String.eqb type "completed") [] "" 0.

Definition threeDays : CheckInModel.Collection :=
  CheckInModel.mkCollection
    [ scenarioRecord 0%nat "2024-01-10" "completed";
      scenarioRecord 1%nat "2024-01-11" "incomplete";
      scenarioRecord 2%nat "2024-01-12" "completed" ] 3%nat.

Definition withGap : CheckInModel.Collection :=
  CheckInModel.mkCollection
    [ scenarioRecord 0%nat "2024-01-10" "completed";
      scenarioRecord 2%nat "2024-01-12" "completed" ] 3%nat.

Definition noon_2024_01_12 : Z := 1705060800000.

(** A history across the end of daylight saving time in New York
    (2024-11-03): records on 2024-11-01, 2024-11-02 and 2024-11-04, none
    on 2024-11-03, and a clock on 2024-11-04 (noon UTC). *)
Definition acrossClockChange : CheckInModel.Collection :=
  CheckInModel.mkCollection
    [ scenarioRecord 0%nat "2024-11-01" "completed";
      scenarioRecord 1%nat "2024-11-02" "incomplete";
      scenarioRecord 2%nat "2024-11-04" "completed" ] 3%nat.

Definition noon_2024_11_04 : Z := 1730721600000.

End StreakReference.

(* ===================================================================== *)
(** ** models/UserSettings.js *)
(* ===================================================================== *)

Module UserSettingsModel.

(** [presetPrincipleSchema] (no [_id]). *)
Record PresetPrinciple := mkPreset {
  index : Z;
  isSelected : bool
}.

(** [tradingItemSchema]: [title] is required, [title] and [content] are
    trimmed when they are set; every item has an [_id]. *)
Record TradingItem := mkItem {
  _id : ObjectId;
  title : string;
  content : string
}.

Record UserSettings := mkSettings {
  userId : ObjectId;
  presetPrinciples : list PresetPrinciple;
  customPrinciples : list string;
  tradingHomework : list TradingItem;
  tradingPlans : list TradingItem;
  createdAt : Z;
  updatedAt : Z
}.

(** A plain object [{ title, content }] as a handler builds it. *)
Record PlainItem := mkPlain {
  plainTitle : string;
  plainContent : string
}.

(** Casting a plain object to a subdocument: the setters trim both fields
    and the subdocument gets the ObjectId [id]. *)
Definition castItem (id : ObjectId) (p : PlainItem) : TradingItem :=
  mkItem id (JsString.trim (plainTitle p)) (JsString.trim (plainContent p)).

(** Casting an array: the items take consecutive fresh ObjectIds. *)
Fixpoint castItems (next : ObjectId) (ps : list PlainItem) : list TradingItem :=
  match ps with
  | [] => []
  | p :: ps' => castItem next p :: castItems (S next) ps'
  end.

(** [array.id(id)]: the subdocument with that [_id], if any. *)
Definition findItem (id : ObjectId) (items : list TradingItem) : option TradingItem :=
  List.find (fun i => Nat.eqb (_id i) id) items.

(** [array.pull(id)]: removes the subdocuments with that [_id]. *)
Definition pullItem (id : ObjectId) (items : list TradingItem) : list TradingItem :=
  List.filter (fun i => negb (Nat.eqb (_id i) id)) items.

(** [item.title = t; item.content = c] on the subdocument with [_id = id]. *)
Definition setItem (id : ObjectId) (t c : string) (items : list TradingItem)
    : list TradingItem :=
  List.map
    (fun i => if Nat.eqb (_id i) id then mkItem (_id i) (JsString.trim t) (JsString.trim c)
              else i)
    items.

(** Validation before a save: [title] is [required] (a string that is not
    empty). *)
Definition validItem (i : TradingItem) : bool := JsString.nonEmpty (title i).

Definition validSettings (s : UserSettings) : bool :=
  List.forallb validItem (tradingHomework s) && List.forallb validItem (tradingPlans s).

(** The collection, with its unique index on [userId], and the source of
    fresh ObjectIds. *)
Record Store := mkStore {
  docs : gmap ObjectId UserSettings;
  nextId : ObjectId
}.

Definition empty : Store := mkStore ∅ 0%nat.

(** [UserSettings.findOne({ userId })]. *)
Definition findOne (user : ObjectId) (st : Store) : option UserSettings :=
  docs st !! user.

(** The pre-save hook: [this.updatedAt = new Date()]. *)
Definition stamped (now : Z) (s : UserSettings) : UserSettings :=
  mkSettings (userId s) (presetPrinciples s) (customPrinciples s)
    (tradingHomework s) (tradingPlans s) (createdAt s) now.

(** [settings.save()]: validates, stamps [updatedAt] (the pre-save hook)
    and writes the document; [next] is the ObjectId counter after the
    subdocuments the handler created.  [None]: the validation failed, the
    save threw and nothing was written. *)
Definition save (now : Z) (s : UserSettings) (next : ObjectId) (st : Store)
    : option (UserSettings * Store) :=
  if validSettings s then
    Some (stamped now s, mkStore (<[userId s := stamped now s]> (docs st)) next)
  else None.

End UserSettingsModel.

(* ===================================================================== *)
(** ** routes/settings.js *)
(* ===================================================================== *)

Module SettingsRoutes.
Import UserSettingsModel.

Definition DEFAULT_HOMEWORK : list PlainItem :=
  [ mkPlain "判断情绪周期" "最高连扳数量，涨停个股数量，跌停个股数量";
    mkPlain "判断政策面" "";
    mkPlain "判断板块" "" ].

Definition DEFAULT_PLANS : list PlainItem :=
  [ mkPlain "候选股票" "";
    mkPlain "买点计划" "";
    mkPlain "卖出计划" "" ].

(** [new UserSettings({ userId, tradingHomework: DEFAULT_HOMEWORK,
    tradingPlans: DEFAULT_PLANS })], with the schema defaults of the other
    fields.  The document and the ObjectId counter after its six items. *)
Definition newUserSettings (now : Z) (user : ObjectId) (next : ObjectId)
    : UserSettings * ObjectId :=
  let homework := castItems next DEFAULT_HOMEWORK in
  let next := (next + List.length DEFAULT_HOMEWORK)%nat in
  let plans := castItems next DEFAULT_PLANS in
  let next := (next + List.length DEFAULT_PLANS)%nat in
  (mkSettings user [mkPreset 0 true] [] homework plans now now, next).

(** The homework list and the plan list have handlers that differ in the
    field and in the words of the messages only. *)
Inductive Field := Homework | Plans.

Definition getField (f : Field) (s : UserSettings) : list TradingItem :=
  match f with
  | Homework => tradingHomework s
  | Plans => tradingPlans s
  end.

Definition setField (f : Field) (items : list TradingItem) (s : UserSettings)
    : UserSettings :=
  match f with
  | Homework =>
      mkSettings (userId s) (presetPrinciples s) (customPrinciples s) items
        (tradingPlans s) (createdAt s) (updatedAt s)
  | Plans =>
      mkSettings (userId s) (presetPrinciples s) (customPrinciples s)
        (tradingHomework s) items (createdAt s) (updatedAt s)
  end.

Definition fieldName (f : Field) : string :=
  match f with
  | Homework => "交易功课"
  | Plans => "交易计划"
  end.

Definition itemName (f : Field) : string :=
  match f with
  | Homework => "功课"
  | Plans => "计划"
  end.

Inductive Data :=
| AllSettings (presetPrinciples : list PresetPrinciple) (customPrinciples : list string)
    (tradingHomework tradingPlans : list TradingItem)
| Principles (presetPrinciples : list PresetPrinciple) (customPrinciples : list string)
| ItemList (field : Field) (items : list TradingItem)
| ItemAndList (field : Field) (item : option TradingItem) (items : list TradingItem).

Definition serverError : Response Data := mkResponse 500 "服务器错误" None.

(** [req.body] item of a list write: [title] and [content] may be absent. *)
Record BodyItem := mkBodyItem {
  bodyTitle : option string;
  bodyContent : option string
}.

(** *** 1. GET /api/settings *)
Definition getSettings (now : Z) (user : ObjectId) (st : Store) : Response Data * Store :=
  let respond (settings : UserSettings) :=
    mkResponse 200 "获取成功"
      (Some (AllSettings (presetPrinciples settings) (customPrinciples settings)
               (tradingHomework settings) (tradingPlans settings))) in
  match findOne user st with
  | None =>
      let (settings, next) := newUserSettings now user (nextId st) in
      match save now settings next st with
      | Some (settings, st') => (respond settings, st')
      | None => (serverError, st)
      end
  | Some settings =>
      let homeworkEmpty := Nat.eqb (List.length (tradingHomework settings)) 0 in
      let plansEmpty := Nat.eqb (List.length (tradingPlans settings)) 0 in
      let next := nextId st in
      let settings1 :=
        if homeworkEmpty then setField Homework (castItems next DEFAULT_HOMEWORK) settings
        else settings in
      let next1 := if homeworkEmpty then (next + List.length DEFAULT_HOMEWORK)%nat else next in
      let settings2 :=
        if plansEmpty then setField Plans (castItems next1 DEFAULT_PLANS) settings1
        else settings1 in
      let next2 := if plansEmpty then (next1 + List.length DEFAULT_PLANS)%nat else next1 in
      let needSave := homeworkEmpty || plansEmpty in
      if needSave then
        match save now settings2 next2 st with
        | Some (settings, st') => (respond settings, st')
        | None => (serverError, st)
        end
      else (respond settings2, st)
  end.

(** The document a writing handler works on: the stored one, or a new one
    with the defaults. *)
Definition findOrNew (now : Z) (user : ObjectId) (st : Store) : UserSettings * ObjectId :=
  match findOne user st with
  | Some settings => (settings, nextId st)
  | None => newUserSettings now user (nextId st)
  end.

(** *** 2. PUT /api/settings/principles
    Absent or non-array fields are [None]. *)
Definition putPrinciples (now : Z) (user : ObjectId)
    (preset : option (list PresetPrinciple)) (custom : option (list string))
    (st : Store) : Response Data * Store :=
  let (settings, next) := findOrNew now user st in
  let settings :=
    match preset with
    | Some ps =>
        mkSettings (userId settings) ps (customPrinciples settings)
          (tradingHomework settings) (tradingPlans settings)
          (createdAt settings) (updatedAt settings)
    | None => settings
    end in
  let settings :=
    match custom with
    | Some cs =>
        mkSettings (userId settings) (presetPrinciples settings)
          (List.filter (fun p => JsString.nonEmpty p && JsString.nonEmpty (JsString.trim p)) cs)
          (tradingHomework settings) (tradingPlans settings)
          (createdAt settings) (updatedAt settings)
    | None => settings
    end in
  match save now settings next st with
  | Some (settings, st') =>
      (mkResponse 200 "交易原则保存成功"
         (Some (Principles (presetPrinciples settings) (customPrinciples settings))), st')
  | None => (serverError, st)
  end.

(** [items.map(item => ({ title: item.title || '', content: item.content || '' }))
          .filter(item => item.title.trim())]. *)
Definition plainItems (items : list BodyItem) : list PlainItem :=
  List.filter (fun item => JsString.nonEmpty (JsString.trim (plainTitle item)))
    (List.map (fun item => mkPlain (orString (bodyTitle item) "") (orString (bodyContent item) ""))
       items).

(** *** 3, 4. PUT /api/settings/homework, PUT /api/settings/plans *)
Definition putList (f : Field) (now : Z) (user : ObjectId)
    (items : option (list BodyItem)) (st : Store) : Response Data * Store :=
  match items with
  | None => (mkResponse 400 "参数格式错误" None, st)
  | Some items =>
      let (settings, next) := findOrNew now user st in
      let plain := plainItems items in
      let settings := setField f (castItems next plain) settings in
      match save now settings (next + List.length plain)%nat st with
      | Some (settings, st') =>
          (mkResponse 200 (fieldName f ++ "保存成功") (Some (ItemList f (getField f settings))),
           st')
      | None => (serverError, st)
      end
  end.

(** [!title || !title.trim()]. *)
Definition blankTitle (title : option string) : bool :=
  negb (truthy title) || negb (JsString.nonEmpty (JsString.trim (orString title ""))).

(** *** 5, 6. POST /api/settings/homework, POST /api/settings/plans *)
Definition postItem (f : Field) (now : Z) (user : ObjectId)
    (title content : option string) (st : Store) : Response Data * Store :=
  if blankTitle title then (mkResponse 400 "标题不能为空" None, st)
  else
    let (settings, next) := findOrNew now user st in
    let newItem := castItem next (mkPlain (JsString.trim (orString title ""))
                                    (orString content "")) in
    let settings := setField f (getField f settings ++ [newItem])%list settings in
    match save now settings (S next) st with
    | Some (settings, st') =>
        (mkResponse 200 (fieldName f ++ "添加成功")
           (Some (ItemAndList f (List.last (List.map Some (getField f settings)) None)
                    (getField f settings))),
         st')
    | None => (serverError, st)
    end.

(** *** 7, 8. PUT /api/settings/homework/:id, PUT /api/settings/plans/:id *)
Definition putItem (f : Field) (now : Z) (user : ObjectId) (id : ObjectId)
    (title content : option string) (st : Store) : Response Data * Store :=
  if blankTitle title then (mkResponse 400 "标题不能为空" None, st)
  else
    match findOne user st with
    | None => (mkResponse 404 "设置不存在" None, st)
    | Some settings =>
        match findItem id (getField f settings) with
        | None => (mkResponse 404 (itemName f ++ "不存在") None, st)
        | Some _ =>
            let items :=
              setItem id (JsString.trim (orString title "")) (orString content "")
                (getField f settings) in
            let settings := setField f items settings in
            match save now settings (nextId st) st with
            | Some (settings, st') =>
                (mkResponse 200 (fieldName f ++ "更新成功")
                   (Some (ItemAndList f (findItem id (getField f settings))
                            (getField f settings))),
                 st')
            | None => (serverError, st)
            end
        end
    end.

(** *** 9, 10. DELETE /api/settings/homework/:id, DELETE /api/settings/plans/:id *)
Definition deleteItem (f : Field) (now : Z) (user : ObjectId) (id : ObjectId)
    (st : Store) : Response Data * Store :=
  match findOne user st with
  | None => (mkResponse 404 "设置不存在" None, st)
  | Some settings =>
      match findItem id (getField f settings) with
      | None => (mkResponse 404 (itemName f ++ "不存在") None, st)
      | Some _ =>
          let settings := setField f (pullItem id (getField f settings)) settings in
          match save now settings (nextId st) st with
          | Some (settings, st') =>
              (mkResponse 200 (fieldName f ++ "删除成功")
                 (Some (ItemList f (getField f settings))), st')
          | None => (serverError, st)
          end
      end
  end.

(** *** The router *)
Inductive Request :=
| GetSettings (now : Z) (user : ObjectId)
| PutPrinciples (now : Z) (user : ObjectId)
    (preset : option (list PresetPrinciple)) (custom : option (list string))
| PutList (f : Field) (now : Z) (user : ObjectId) (items : option (list BodyItem))
| PostItem (f : Field) (now : Z) (user : ObjectId) (title content : option string)
| PutItem (f : Field) (now : Z) (user id : ObjectId) (title content : option string)
| DeleteItem (f : Field) (now : Z) (user id : ObjectId).

Definition handle (req : Request) (st : Store) : Response Data * Store :=
  match req with
  | GetSettings now user => getSettings now user st
  | PutPrinciples now user preset custom => putPrinciples now user preset custom st
  | PutList f now user items => putList f now user items st
  | PostItem f now user title content => postItem f now user title content st
  | PutItem f now user id title content => putItem f now user id title content st
  | DeleteItem f now user id => deleteItem f now user id st
  end.

Definition run (reqs : list Request) (st : Store) : Store :=
  List.fold_left (fun st req => snd (handle req st)) reqs st.

End SettingsRoutes.

(* ===================================================================== *)
(** ** models/DailyRecord.js *)
(* ===================================================================== *)

Module DailyRecordModel.
Import UserSettingsModel.

(** [planItemSchema] has the fields and options of [tradingItemSchema]:
    a required, trimmed [title], a trimmed [content] and an [_id]. *)
Definition PlanItem := TradingItem.

Record DailyRecord := mkDaily {
  userId : ObjectId;
  date : string;              (* YYYY-MM-DD *)
  tradingPlans : list PlanItem;
  reflection : string;
  createdAt : Z;
  updatedAt : Z
}.

(** The collection, with its unique index on [(userId, date)]. *)
Record Store := mkStore {
  docs : gmap (ObjectId * string) DailyRecord;
  nextId : ObjectId
}.

Definition empty : Store := mkStore ∅ 0%nat.

(** [DailyRecord.findOne({ userId, date })]. *)
Definition findOne (user : ObjectId) (d : string) (st : Store) : option DailyRecord :=
  docs st !! (user, d).

(** [new DailyRecord({ userId, date })]. *)
Definition newDailyRecord (now : Z) (user : ObjectId) (d : string) : DailyRecord :=
  mkDaily user d [] "" now now.

Definition validRecord (r : DailyRecord) : bool :=
  JsString.nonEmpty (date r) && List.forallb validItem (tradingPlans r).

(** The pre-save hook: [this.updatedAt = new Date()]. *)
Definition stamped (now : Z) (r : DailyRecord) : DailyRecord :=
  mkDaily (userId r) (date r) (tradingPlans r) (reflection r) (createdAt r) now.

(** [record.save()]: validates, stamps [updatedAt] and writes. *)
Definition save (now : Z) (r : DailyRecord) (next : ObjectId) (st : Store)
    : option (DailyRecord * Store) :=
  if validRecord r then
    Some (stamped now r, mkStore (<[(userId r, date r) := stamped now r]> (docs st)) next)
  else None.

Definition setPlans (items : list PlanItem) (r : DailyRecord) : DailyRecord :=
  mkDaily (userId r) (date r) items (reflection r) (createdAt r) (updatedAt r).

(** [record.reflection = s]: the setter trims. *)
Definition setReflection (s : string) (r : DailyRecord) : DailyRecord :=
  mkDaily (userId r) (date r) (tradingPlans r) (JsString.trim s) (createdAt r) (updatedAt r).

End DailyRecordModel.

(* ===================================================================== *)
(** ** routes/daily.js *)
(* ===================================================================== *)

Module DailyRoutes.
Import UserSettingsModel DailyRecordModel.

Definition isDigit (c : ascii) : bool :=
  let n := N_of_ascii c in ((48 <=? n) && (n <=? 57))%N.

(** [/^\d{4}-\d{2}-\d{2}$/.test(date)]. *)
Definition isDateFormat (date : string) : bool :=
  match list_ascii_of_string date with
  | [y1; y2; y3; y4; d1; m1; m2; d2; a1; a2] =>
      isDigit y1 && isDigit y2 && isDigit y3 && isDigit y4 &&
      Ascii.eqb d1 "-" && isDigit m1 && isDigit m2 &&
      Ascii.eqb d2 "-" && isDigit a1 && isDigit a2
  | _ => false
  end.

Inductive Data :=
| DayRecord (date : string) (tradingPlans : list PlanItem) (reflection : string)
    (recordExists : option bool)
| ItemAndList (item : option PlanItem) (tradingPlans : list PlanItem)
| ItemList (tradingPlans : list PlanItem)
| Reflection (reflection : string).

Definition serverError : Response Data := mkResponse 500 "服务器错误" None.
Definition badDate : Response Data := mkResponse 400 "日期格式错误，应为 YYYY-MM-DD" None.

Definition findOrNew (now : Z) (user : ObjectId) (date : string) (st : Store) : DailyRecord :=
  match findOne user date st with
  | Some record => record
  | None => newDailyRecord now user date
  end.

(** *** 1. GET /api/daily/:date *)
Definition getDaily (user : ObjectId) (date : string) (st : Store) : Response Data :=
  if negb (isDateFormat date) then badDate
  else
    match findOne user date st with
    | None => mkResponse 200 "获取成功" (Some (DayRecord date [] "" (Some false)))
    | Some record =>
        mkResponse 200 "获取成功"
          (Some (DayRecord (DailyRecordModel.date record) (tradingPlans record)
                   (reflection record) (Some true)))
    end.

(** *** 2. PUT /api/daily/:date
    [tradingPlans] is [None] unless it is an array, [reflection] is [None]
    unless it is a string. *)
Definition putDaily (now : Z) (user : ObjectId) (date : string)
    (tradingPlans : option (list SettingsRoutes.BodyItem)) (reflection : option string)
    (st : Store) : Response Data * Store :=
  if negb (isDateFormat date) then (badDate, st)
  else
    let record := findOrNew now user date st in
    let next := nextId st in
    let plain := match tradingPlans with
                 | Some items => SettingsRoutes.plainItems items
                 | None => []
                 end in
    let record := match tradingPlans with
                  | Some _ => setPlans (castItems next plain) record
                  | None => record
                  end in
    let record := match reflection with
                  | Some s => setReflection (JsString.trim s) record
                  | None => record
                  end in
    match save now record (next + List.length plain)%nat st with
    | Some (record, st') =>
        (mkResponse 200 "保存成功"
           (Some (DayRecord (DailyRecordModel.date record) (DailyRecordModel.tradingPlans record)
                    (DailyRecordModel.reflection record) None)), st')
    | None => (serverError, st)
    end.

(** *** 3. POST /api/daily/:date/plan *)
Definition postPlan (now : Z) (user : ObjectId) (date : string)
    (title content : option string) (st : Store) : Response Data * Store :=
  if negb (isDateFormat date) then (badDate, st)
  else if SettingsRoutes.blankTitle title then (mkResponse 400 "标题不能为空" None, st)
  else
    let record := findOrNew now user date st in
    let newItem := castItem (nextId st)
                     (mkPlain (JsString.trim (orString title "")) (orString content "")) in
    let record := setPlans (tradingPlans record ++ [newItem])%list record in
    match save now record (S (nextId st)) st with
    | Some (record, st') =>
        (mkResponse 200 "添加成功"
           (Some (ItemAndList (List.last (List.map Some (tradingPlans record)) None)
                    (tradingPlans record))), st')
    | None => (serverError, st)
    end.

(** *** 4. PUT /api/daily/:date/plan/:id *)
Definition putPlan (now : Z) (user : ObjectId) (date : string) (id : ObjectId)
    (title content : option string) (st : Store) : Response Data * Store :=
  if SettingsRoutes.blankTitle title then (mkResponse 400 "标题不能为空" None, st)
  else
    match findOne user date st with
    | None => (mkResponse 404 "记录不存在" None, st)
    | Some record =>
        match findItem id (tradingPlans record) with
        | None => (mkResponse 404 "计划不存在" None, st)
        | Some _ =>
            let items :=
              setItem id (JsString.trim (orString title "")) (orString content "")
                (tradingPlans record) in
            let record := setPlans items record in
            match save now record (nextId st) st with
            | Some (record, st') =>
                (mkResponse 200 "更新成功"
                   (Some (ItemAndList (findItem id (tradingPlans record))
                            (tradingPlans record))), st')
            | None => (serverError, st)
            end
        end
    end.

(** *** 5. DELETE /api/daily/:date/plan/:id *)
Definition deletePlan (now : Z) (user : ObjectId) (date : string) (id : ObjectId)
    (st : Store) : Response Data * Store :=
  match findOne user date st with
  | None => (mkResponse 404 "记录不存在" None, st)
  | Some record =>
      match findItem id (tradingPlans record) with
      | None => (mkResponse 404 "计划不存在" None, st)
      | Some _ =>
          let record := setPlans (pullItem id (tradingPlans record)) record in
          match save now record (nextId st) st with
          | Some (record, st') =>
              (mkResponse 200 "删除成功" (Some (ItemList (tradingPlans record))), st')
          | None => (serverError, st)
          end
      end
  end.

(** *** 6. PUT /api/daily/:date/reflection *)
Definition putReflection (now : Z) (user : ObjectId) (date : string)
    (reflection : option string) (st : Store) : Response Data * Store :=
  if negb (isDateFormat date) then (badDate, st)
  else
    let record := findOrNew now user date st in
    let record := setReflection (JsString.trim (orString reflection "")) record in
    match save now record (nextId st) st with
    | Some (record, st') =>
        (mkResponse 200 "保存成功" (Some (Reflection (DailyRecordModel.reflection record))),
         st')
    | None => (serverError, st)
    end.

(** *** The router *)
Inductive Request :=
| GetDaily (user : ObjectId) (date : string)
| PutDaily (now : Z) (user : ObjectId) (date : string)
    (tradingPlans : option (list SettingsRoutes.BodyItem)) (reflection : option string)
| PostPlan (now : Z) (user : ObjectId) (date : string) (title content : option string)
| PutPlan (now : Z) (user : ObjectId) (date : string) (id : ObjectId)
    (title content : option string)
| DeletePlan (now : Z) (user : ObjectId) (date : string) (id : ObjectId)
| PutReflection (now : Z) (user : ObjectId) (date : string) (reflection : option string).

Definition handle (req : Request) (st : Store) : Response Data * Store :=
  match req with
  | GetDaily user date => (getDaily user date st, st)
  | PutDaily now user date tradingPlans reflection =>
      putDaily now user date tradingPlans reflection st
  | PostPlan now user date title content => postPlan now user date title content st
  | PutPlan now user date id title content => putPlan now user date id title content st
  | DeletePlan now user date id => deletePlan now user date id st
  | PutReflection now user date reflection => putReflection now user date reflection st
  end.

Definition run (reqs : list Request) (st : Store) : Store :=
  List.fold_left (fun st req => snd (handle req st)) reqs st.

End DailyRoutes.

(* ===================================================================== *)
(** ** utils/sms.js: verification codes *)
(* ===================================================================== *)

Module Sms.

(** An entry of [verificationCodes], the [Map] from phone number to
    [{ code, expireAt }]. *)
Record StoredCode := mkStored {
  code : string;
  expireAt : Z
}.

Record Result := mkResult {
  success : bool;
  message : string
}.

(** [verificationCodes.set(phone, { code, expireAt: Date.now() + 5 * 60 * 1000 })]. *)
Definition storeCode (phone code : string) (now : Z) (verificationCodes : gmap string StoredCode)
    : gmap string StoredCode :=
  <[phone := mkStored code (now + 5 * 60 * 1000)]> verificationCodes.

(** What the SMS provider answered to the request of [sendSmsCode]. *)
Inductive ProviderReply :=
| ReplyOK                               (* result.Code === 'OK' *)
| ReplyRefused (message : option string) (* another Code, with result.Message *)
| ReplyUnparsable                        (* JSON.parse threw *)
| NetworkError.                          (* req.on('error') *)

(** [sendSmsCode(phone)].  [mockMode] is [USE_MOCK_MODE], [configured] says
    that the access key, secret, sign name and template code are set,
    [generated] is the value of [generateCode()] and [reply] the provider's
    answer, received at time [now]. *)
Definition sendSmsCode (mockMode configured : bool) (generated : string)
    (reply : ProviderReply) (phone : string) (now : Z)
    (verificationCodes : gmap string StoredCode) : Result * gmap string StoredCode :=
  if mockMode then
    (mkResult true "验证码已发送（测试模式：123456）",
     storeCode phone "123456" now verificationCodes)
  else if negb configured then (mkResult false "短信服务未配置", verificationCodes)
  else
    match reply with
    | ReplyOK =>
        (mkResult true "验证码已发送", storeCode phone generated now verificationCodes)
    | ReplyRefused m => (mkResult false (orString m "发送失败"), verificationCodes)
    | ReplyUnparsable => (mkResult false "解析响应失败", verificationCodes)
    | NetworkError => (mkResult false "网络错误", verificationCodes)
    end.

(** [verifySmsCode(phone, code)] at time [now = Date.now()]. *)
Definition verifySmsCode (phone code : string) (now : Z)
    (verificationCodes : gmap string StoredCode) : Result * gmap string StoredCode :=
  match verificationCodes !! phone with
  | None => (mkResult false "请先获取验证码", verificationCodes)
  | Some stored =>
      if expireAt stored <? now then
        (mkResult false "验证码已过期，请重新获取", delete phone verificationCodes)
      else if negb (String.eqb (Sms.code stored) code) then
        (mkResult false "验证码错误", verificationCodes)
      else (mkResult true "验证成功", delete phone verificationCodes)
  end.

End Sms.

(* ===================================================================== *)
(** ** models/User.js, routes/user.js: login *)
(* ===================================================================== *)

Module UserModel.

Record User := mkUser {
  _id : ObjectId;
  username : string;
  phone : string;
  password : string;     (* the bcrypt hash *)
  createdAt : Z
}.

(** [User.findOne({ phone })]: Mongoose casts the value of the filter with
    the setters of the schema ([trim: true] on [phone]), so the user is
    looked up by the trimmed phone. *)
Definition findOne (phone : string) (users : list User) : option User :=
  List.find (fun u => String.eqb (UserModel.phone u) (JsString.trim phone)) users.

End UserModel.

Module UserRoutes.
Import UserModel.

Record UserView := mkUserView {
  id : ObjectId;
  view_username : string;
  view_phone : string
}.

Record LoginData := mkLoginData {
  user : UserView;
  token : string
}.

Section Login.

(** [bcrypt.compare(inputPassword, hash)] and
    [jwt.sign({ userId }, secret, { expiresIn: '7d' })] at time [now]. *)
Variable bcryptCompare : string -> string -> bool.
Variable jwtSign : ObjectId -> string -> Z -> string.

(** [user.comparePassword(inputPassword)]. *)
Definition comparePassword (u : User) (inputPassword : string) : bool :=
  bcryptCompare inputPassword (password u).

(** POST /api/user/login *)
Definition login (JWT_SECRET : string) (now : Z) (phone password : option string)
    (users : list User) : Response LoginData :=
  if negb (truthy phone) || negb (truthy password) then
    mkResponse 400 "手机号和密码都是必填项" None
  else
    match findOne (orString phone "") users with
    | None => mkResponse 401 "手机号或密码错误" None
    | Some u =>
        if negb (comparePassword u (orString password "")) then
          mkResponse 401 "手机号或密码错误" None
        else
          let token := jwtSign (_id u) JWT_SECRET now in
          mkResponse 200 "登录成功"
            (Some (mkLoginData (mkUserView (_id u) (username u) (UserModel.phone u)) token))
    end.

End Login.

End UserRoutes.

(* ===================================================================== *)
(** ** middleware/auth.js *)
(* ===================================================================== *)

Module AuthMiddleware.

(** The outcome of [jwt.verify(token, secret)]: the decoded payload (whose
    [userId] may be absent) or the error thrown. *)
Inductive Verified :=
| Decoded (userId : option ObjectId)
| TokenExpiredError
| JsonWebTokenError
| OtherError (message : string).

(** The middleware calls [next()] with [req.user = { userId }] or answers. *)
Inductive Outcome :=
| Next (userId : option ObjectId)
| Reply (res : Response unit).

(** [authHeader.slice(7)]. *)
Definition slice7 (s : string) : string := substring 7 (String.length s - 7) s.

Section Auth.

Variable jwtVerify : string -> string -> Z -> Verified.

(** [authHeader] is [req.header('Authorization')], [None] when the header
    is absent. *)
Definition authMiddleware (JWT_SECRET : string) (now : Z) (authHeader : option string)
    : Outcome :=
  if negb (truthy authHeader) then Reply (mkResponse 401 "请先登录（未提供 token）" None)
  else
    let authHeader := orString authHeader "" in
    let token :=
      if JsString.startsWith "Bearer " authHeader then slice7 authHeader
      else authHeader in
    match jwtVerify token JWT_SECRET now with
    | Decoded userId => Next userId
    | TokenExpiredError => Reply (mkResponse 401 "登录已过期，请重新登录" None)
    | JsonWebTokenError => Reply (mkResponse 401 "token 无效，请重新登录" None)
    | OtherError m => Reply (mkResponse 500 ("认证失败: " ++ m) None)
    end.

End Auth.

End AuthMiddleware.

(* ===================================================================== *)
(** ** models/User.js: the schema, its validation and the pre-save hook *)
(* ===================================================================== *)

Module UserSchema.
Import UserModel.

(** The number of UTF-16 code units of a character, counted at the first
    byte of its UTF-8 encoding: none for a continuation byte, two (a
    surrogate pair) for the first byte of a four-byte sequence. *)
Definition utf16Units (c : ascii) : nat :=
  let n := N_of_ascii c in
  if (n <? 128)%N then 1%nat
  else if (n <? 192)%N then 0%nat
  else if (n <? 240)%N then 1%nat
  else 2%nat.

(** [str.length]. *)
Fixpoint length16 (s : string) : nat :=
  match s with
  | EmptyString => 0%nat
  | String c s' => (utf16Units c + length16 s')%nat
  end.

(** [/^1[3-9]\d{9}$/.test(phone)]. *)
Definition phoneRegex (phone : string) : bool :=
  match list_ascii_of_string phone with
  | [c0; c1; c2; c3; c4; c5; c6; c7; c8; c9; c10] =>
      Ascii.eqb c0 "1" &&
      (let n := N_of_ascii c1 in (51 <=? n) && (n <=? 57))%N &&
      forallb DailyRoutes.isDigit [c2; c3; c4; c5; c6; c7; c8; c9; c10]
  | _ => false
  end.

(** The validators of the schema, on the values as the setters left them:
    [username] required, 2 to 20 characters; [phone] required, matching the
    pattern; [password] required, at least 6 characters. *)
Definition validUser (username phone password : string) : bool :=
  JsString.nonEmpty username &&
  (2 <=? length16 username)%nat && (length16 username <=? 20)%nat &&
  JsString.nonEmpty phone && phoneRegex phone &&
  JsString.nonEmpty password && (6 <=? length16 password)%nat.

(** The collection, with the source of fresh ObjectIds. *)
Record Users := mkUsers {
  docs : list User;
  nextId : ObjectId
}.

Definition empty : Users := mkUsers [] 0%nat.

(** [User.findById(id)]; the id is absent when the token carries none. *)
Definition findById (id : option ObjectId) (st : Users) : option User :=
  match id with
  | Some i => List.find (fun u => Nat.eqb (_id u) i) (docs st)
  | None => None
  end.

(** [User.findOne({ username })]: Mongoose casts the value of a query with
    the setters of the schema, here [trim]. *)
Definition findByUsername (username : string) (st : Users) : option User :=
  List.find (fun u => String.eqb (UserModel.username u) (JsString.trim username)) (docs st).

(** A write fails on the validators or on a unique index
    ([error.code === 11000]). *)
Inductive SaveError := ValidationError | DuplicateKey.

Section Hash.

(** [bcrypt.hash(password, salt)]. *)
Variable bcryptHash : string -> string -> string.

(** [new User({ username, phone, password }).save()] at time [now], with
    [salt = await bcrypt.genSalt(10)]: the setters trim [username] and
    [phone], the document is validated, the pre-save hook replaces the
    password by its hash, and the insertion checks the unique indexes on
    [username] and [phone]. *)
Definition create (now : Z) (salt : string) (username phone password : string) (st : Users)
    : SaveError + (User * Users) :=
  let username := JsString.trim username in
  let phone := JsString.trim phone in
  if negb (validUser username phone password) then inl ValidationError
  else
    let user := mkUser (nextId st) username phone (bcryptHash password salt) now in
    if existsb (fun v => String.eqb (UserModel.username v) username ||
                         String.eqb (UserModel.phone v) phone) (docs st)
    then inl DuplicateKey
    else inr (user, mkUsers (docs st ++ [user])%list (S (nextId st))).

(** [user.password = newPassword; await user.save()] on a document read
    from the collection: the path is modified when the value differs from
    the stored one, every path is validated, and the pre-save hook hashes a
    modified password. *)
Definition savePassword (salt : string) (user : User) (newPassword : string) (st : Users)
    : SaveError + Users :=
  let modified := negb (String.eqb newPassword (password user)) in
  if negb (validUser (username user) (phone user) newPassword) then inl ValidationError
  else if modified then
    let user' := mkUser (_id user) (username user) (phone user)
                   (bcryptHash newPassword salt) (createdAt user) in
    inr (mkUsers
           (List.map (fun v => if Nat.eqb (_id v) (_id user) then user' else v) (docs st))
           (nextId st))
  else inr st.

End Hash.

End UserSchema.

(* ===================================================================== *)
(** ** routes/user.js: registration, verification codes, account data *)
(* ===================================================================== *)

Module AccountRoutes.
Import UserModel UserSchema UserRoutes.

(** The [user] object of [GET /info]. *)
Record InfoView := mkInfoView {
  info_id : ObjectId;
  info_username : string;
  info_phone : string;
  info_createdAt : Z
}.

(** [generateRandomUsername()], where [randomNum] is the value of
    [Math.floor(10000000 + Math.random() * 90000000)]. *)
Definition generateRandomUsername (randomNum : Z) : string :=
  "用户" ++ JsString.ofInteger randomNum.

(** [let username = generateRandomUsername();
     while (await User.findOne({ username })) username = generateRandomUsername();]
    on the successive values of [randomNum]; [None] when the values given
    are all taken (the loop is still running). *)
Fixpoint freshUsername (draws : list Z) (st : Users) : option string :=
  match draws with
  | [] => None
  | randomNum :: draws' =>
      let username := generateRandomUsername randomNum in
      match findByUsername username st with
      | Some _ => freshUsername draws' st
      | None => Some username
      end
  end.

Section Routes.

Variable bcryptHash : string -> string -> string.
Variable bcryptCompare : string -> string -> bool.
Variable jwtSign : ObjectId -> string -> Z -> string.
(** [error.message] of a failed save. *)
Variable errorMessage : SaveError -> string.

Definition registered (JWT_SECRET : string) (now : Z) (user : User) : Response LoginData :=
  mkResponse 200 "注册成功"
    (Some (mkLoginData (mkUserView (_id user) (username user) (phone user))
             (jwtSign (_id user) JWT_SECRET now))).

(** POST /api/user/register with a username, a phone and a password. *)
Definition register (JWT_SECRET : string) (now : Z) (salt : string)
    (username phone password : option string) (st : Users) : Response LoginData * Users :=
  if negb (truthy username) || negb (truthy phone) || negb (truthy password) then
    (mkResponse 400 "用户名、手机号和密码都是必填项" None, st)
  else
    let username := orString username "" in
    let phone := orString phone "" in
    let password := orString password "" in
    if negb (phoneRegex phone) then (mkResponse 400 "请输入正确的手机号" None, st)
    else
      match findByUsername username st with
      | Some _ => (mkResponse 400 "用户名已被使用，请换一个" None, st)
      | None =>
          match findOne phone (docs st) with
          | Some _ => (mkResponse 400 "该手机号已注册，请直接登录" None, st)
          | None =>
              match create bcryptHash now salt username phone password st with
              | inr (user, st') => (registered JWT_SECRET now user, st')
              | inl e => (mkResponse 500 ("注册失败: " ++ errorMessage e) None, st)
              end
          end
      end.

(** POST /api/user/send-code. *)
Definition sendCode (mockMode configured : bool) (generated : string)
    (reply : Sms.ProviderReply) (now : Z) (phone : option string)
    (codes : gmap string Sms.StoredCode) : Response unit * gmap string Sms.StoredCode :=
  if negb (truthy phone) then (mkResponse 400 "请输入手机号" None, codes)
  else
    let phone := orString phone "" in
    if negb (phoneRegex phone) then (mkResponse 400 "请输入正确的手机号" None, codes)
    else
      let (result, codes') :=
        Sms.sendSmsCode mockMode configured generated reply phone now codes in
      (mkResponse (if Sms.success result then 200 else 400) (Sms.message result) None, codes').

(** POST /api/user/register with a phone and a verification code: the
    username is generated and the password is '123456'.  [None]: the loop
    that looks for a free username has not ended on the [draws] given. *)
Definition registerWithCode (JWT_SECRET : string) (now : Z) (salt : string) (draws : list Z)
    (phone code : option string) (codes : gmap string Sms.StoredCode) (st : Users)
    : option (Response LoginData * gmap string Sms.StoredCode * Users) :=
  if negb (truthy phone) || negb (truthy code) then
    Some (mkResponse 400 "手机号和验证码都是必填项" None, codes, st)
  else
    let phone := orString phone "" in
    let code := orString code "" in
    if negb (phoneRegex phone) then Some (mkResponse 400 "请输入正确的手机号" None, codes, st)
    else
      let (verifyResult, codes') := Sms.verifySmsCode phone code now codes in
      if negb (Sms.success verifyResult) then
        Some (mkResponse 400 (Sms.message verifyResult) None, codes', st)
      else
        match findOne phone (docs st) with
        | Some _ => Some (mkResponse 400 "该手机号已注册，请直接登录" None, codes', st)
        | None =>
            match freshUsername draws st with
            | None => None
            | Some username =>
                match create bcryptHash now salt username phone "123456" st with
                | inr (user, st') => Some (registered JWT_SECRET now user, codes', st')
                | inl e =>
                    Some (mkResponse 500 ("注册失败: " ++ errorMessage e) None, codes', st)
                end
            end
        end.

(** POST /api/user/register with a username, a phone, a password and a
    verification code (the later version of routes/user.js). *)
Definition registerVerified (JWT_SECRET : string) (now : Z) (salt : string)
    (username phone password code : option string)
    (codes : gmap string Sms.StoredCode) (st : Users)
    : Response LoginData * gmap string Sms.StoredCode * Users :=
  if negb (truthy username) || negb (truthy phone) || negb (truthy password) ||
     negb (truthy code) then
    (mkResponse 400 "用户名、手机号、密码和验证码都是必填项" None, codes, st)
  else
    let username := orString username "" in
    let phone := orString phone "" in
    let password := orString password "" in
    let code := orString code "" in
    if negb (phoneRegex phone) then (mkResponse 400 "请输入正确的手机号" None, codes, st)
    else
      let (verifyResult, codes') := Sms.verifySmsCode phone code now codes in
      if negb (Sms.success verifyResult) then
        (mkResponse 400 (Sms.message verifyResult) None, codes', st)
      else
        match findByUsername username st with
        | Some _ => (mkResponse 400 "用户名已被使用，请换一个" None, codes', st)
        | None =>
            match findOne phone (docs st) with
            | Some _ => (mkResponse 400 "该手机号已注册，请直接登录" None, codes', st)
            | None =>
                match create bcryptHash now salt username phone password st with
                | inr (user, st') => (registered JWT_SECRET now user, codes', st')
                | inl e => (mkResponse 500 ("注册失败: " ++ errorMessage e) None, codes', st)
                end
            end
        end.

(** GET /api/user/info, behind the auth middleware. *)
Definition info (userId : option ObjectId) (st : Users) : Response InfoView :=
  match findById userId st with
  | None => mkResponse 404 "用户不存在" None
  | Some user =>
      mkResponse 200 "获取成功"
        (Some (mkInfoView (_id user) (username user) (phone user) (createdAt user)))
  end.

(** PUT /api/user/password, behind the auth middleware. *)
Definition changePassword (salt : string) (userId : option ObjectId)
    (oldPassword newPassword : option string) (st : Users) : Response unit * Users :=
  if negb (truthy oldPassword) || negb (truthy newPassword) then
    (mkResponse 400 "请输入旧密码和新密码" None, st)
  else
    let oldPassword := orString oldPassword "" in
    let newPassword := orString newPassword "" in
    if (length16 newPassword <? 6)%nat then (mkResponse 400 "新密码至少需要6个字符" None, st)
    else
      match findById userId st with
      | None => (mkResponse 404 "用户不存在" None, st)
      | Some user =>
          if negb (comparePassword bcryptCompare user oldPassword) then
            (mkResponse 400 "旧密码错误" None, st)
          else
            match savePassword bcryptHash salt user newPassword st with
            | inr st' => (mkResponse 200 "密码修改成功" None, st')
            | inl e => (mkResponse 500 ("修改失败: " ++ errorMessage e) None, st)
            end
      end.

(** PUT /api/user/username, behind the auth middleware.  The length is
    checked on the submitted name; the query and the update are cast by the
    schema, which trims the name ([findByIdAndUpdate] runs no validator).
    When no user has the id of the token, [user] is null and reading
    [user._id] throws. *)
Definition changeUsername (nullMessage : string) (userId : option ObjectId)
    (username : option string) (st : Users) : Response UserView * Users :=
  if negb (truthy username) then (mkResponse 400 "请输入新用户名" None, st)
  else
    let username := orString username "" in
    if (length16 username <? 2)%nat || (20 <? length16 username)%nat then
      (mkResponse 400 "用户名长度需要在2-20个字符之间" None, st)
    else
      let isRequester (v : User) :=
        match userId with
        | Some i => Nat.eqb (_id v) i
        | None => false
        end in
      match List.find (fun v => String.eqb (UserModel.username v) (JsString.trim username) &&
                                negb (isRequester v)) (docs st) with
      | Some _ => (mkResponse 400 "该用户名已被使用" None, st)
      | None =>
          match findById userId st with
          | None => (mkResponse 500 ("修改失败: " ++ nullMessage) None, st)
          | Some user =>
              let user' := mkUser (_id user) (JsString.trim username) (phone user)
                             (password user) (createdAt user) in
              (mkResponse 200 "用户名修改成功"
                 (Some (mkUserView (_id user') (UserModel.username user') (phone user'))),
               mkUsers
                 (List.map (fun v => if Nat.eqb (_id v) (_id user) then user' else v) (docs st))
                 (nextId st))
          end
      end.

(** The registrations by name and password and by verification code, and
    the password change, with their effect on the collection of users. *)
Inductive Request :=
| Register (JWT_SECRET : string) (now : Z) (salt : string)
    (username phone password : option string)
| RegisterWithCode (JWT_SECRET : string) (now : Z) (salt : string) (draws : list Z)
    (phone code : option string) (codes : gmap string Sms.StoredCode)
| ChangePassword (salt : string) (userId : option ObjectId)
    (oldPassword newPassword : option string).

Definition step (req : Request) (st : Users) : Users :=
  match req with
  | Register JWT_SECRET now salt username phone password =>
      snd (register JWT_SECRET now salt username phone password st)
  | RegisterWithCode JWT_SECRET now salt draws phone code codes =>
      match registerWithCode JWT_SECRET now salt draws phone code codes st with
      | Some (_, _, st') => st'
      | None => st
      end
  | ChangePassword salt userId oldPassword newPassword =>
      snd (changePassword salt userId oldPassword newPassword st)
  end.

Definition run (reqs : list Request) (st : Users) : Users :=
  List.fold_left (fun st req => step req st) reqs st.

(** Every request that writes the collection of users, in any version of
    routes/user.js: the three above, the registration with a name, a
    password and a verification code, and the name change. *)
Inductive Write :=
| Earlier (req : Request)
| RegisterVerified (JWT_SECRET : string) (now : Z) (salt : string)
    (username phone password code : option string) (codes : gmap string Sms.StoredCode)
| ChangeUsername (nullMessage : string) (userId : option ObjectId)
    (username : option string).

Definition write (req : Write) (st : Users) : Users :=
  match req with
  | Earlier req => step req st
  | RegisterVerified JWT_SECRET now salt username phone password code codes =>
      snd (registerVerified JWT_SECRET now salt username phone password code codes st)
  | ChangeUsername nullMessage userId username =>
      snd (changeUsername nullMessage userId username st)
  end.

Definition writes (reqs : list Write) (st : Users) : Users :=
  List.fold_left (fun st req => write req st) reqs st.

End Routes.

End AccountRoutes.

(* ===================================================================== *)
(** ** Invariants of the stored documents *)
(* ===================================================================== *)

Module Invariants.
Import JsString UserSettingsModel.

(** An item as the schema leaves it: a title that is not empty, title and
    content trimmed. *)
Definition goodItem (i : TradingItem) : Prop :=
  title i <> "" /\ trim (title i) = title i /\ trim (content i) = content i.

Definition goodSettings (s : UserSettings) : Prop :=
  Forall goodItem (tradingHomework s) /\ Forall goodItem (tradingPlans s).

Definition goodStore (st : Store) : Prop :=
  forall (u : ObjectId) (s : UserSettings),
    docs st !! u = Some s -> userId s = u /\ goodSettings s.

(** A plain item whose title is not blank. *)
Definition nonBlank (p : PlainItem) : Prop := trim (plainTitle p) <> "".

(** The title and content of a stored item. *)
Definition plainOf (i : TradingItem) : PlainItem := mkPlain (title i) (content i).

(** The stored form of a submitted list: the items with an empty or blank
    title dropped, then title and content trimmed. *)
Definition submitted (items : list SettingsRoutes.BodyItem) : list PlainItem :=
  List.map
    (fun b => mkPlain (trim (orString (SettingsRoutes.bodyTitle b) ""))
                (trim (orString (SettingsRoutes.bodyContent b) "")))
    (List.filter (fun b => nonEmpty (trim (orString (SettingsRoutes.bodyTitle b) ""))) items).

Definition goodRecord (r : DailyRecordModel.DailyRecord) : Prop :=
  DailyRecordModel.date r <> "" /\ Forall goodItem (DailyRecordModel.tradingPlans r).

Definition goodDaily (st : DailyRecordModel.Store) : Prop :=
  forall (k : ObjectId * string) (r : DailyRecordModel.DailyRecord),
    DailyRecordModel.docs st !! k = Some r ->
    (DailyRecordModel.userId r, DailyRecordModel.date r) = k /\ goodRecord r.

End Invariants.

(* ===================================================================== *)
(** ** Auxiliary definitions of the proofs *)
(* ===================================================================== *)

Module StreakAux.
Import JsDate StreakReference CheckInModel.

(** Checking a boolean property of all integers of an initial segment. *)
Fixpoint allBelow (n : nat) (P : Z -> bool) : bool :=
  match n with
  | O => true
  | S k => P (Z.of_nat k) && allBelow k P
  end.

(** [n] is written with [width] digits, which read back as [n]. *)
Definition paddedOk (width : nat) (n : Z) : bool :=
  let s := JsString.padStart width "0" (JsString.ofInteger n) in
  Nat.eqb (String.length s) width &&
  match digitsValue 0 s with Some v => v =? n | None => false end.

(** The days of the years 0000 to 9999. *)
Definition dayInRange (d : Z) : Prop := DayFromYear 0 <= d < DayFromYear 10000.

(** The calendar date of a day number. *)
Definition dateOfDay (d : Z) : CalendarDate := calendarDateOf (d * msPerDay).

(** A boolean check of the reference streak, for concrete histories. *)
Definition referenceStreakCheck (h : list CheckIn) (c : CalendarDate) (n : nat) : bool :=
  let run (start : CalendarDate) :=
    forallb (fun i : nat => hasRecord h (daysBack i start)) (seq 0 n) &&
    negb (hasRecord h (daysBack n start)) in
  if hasRecord h c then run c
  else if hasRecord h (prevCalendarDay c) then run (prevCalendarDay c)
  else Nat.eqb n 0.

End StreakAux.

(* ===================================================================== *)
(** ** Invariants of the collections *)
(* ===================================================================== *)

Module CheckInInvariants.
Import CheckInModel.

(** The unique index [{ userId: 1, date: 1 }] holds, the ObjectIds are
    distinct and below the next one to be given. *)
Definition wellKeyed (db : Collection) : Prop :=
  List.NoDup (map (fun r => (userId r, date r)) (docs db)) /\
  List.NoDup (map _id (docs db)) /\
  forall r, In r (docs db) -> (_id r < nextId db)%nat.

(** The offset of the zone varies by less than a day, between the offset
    in force at a time value and the offset in force at a local time: so it
    is in a zone with one offset, and in the zones with daylight saving
    time. *)
Definition steadyZone (LocalTZA : Z -> bool -> Z) : Prop :=
  forall t t' : Z, Z.abs (LocalTZA t true - LocalTZA t' false) < JsDate.msPerDay.

(** The date strings of [dates] that [new Date(s)] reads as a day up to the
    day number [d]. *)
Definition datedUpTo (d : Z) (dates : list string) : list string :=
  List.filter
    (fun s => match JsDate.parseDateOnly s with
              | Some t => JsDate.Day t <=? d
              | None => false
              end)
    dates.

End CheckInInvariants.

Module SettingsInvariants.
Import UserSettingsModel SettingsRoutes.

(** The other one of the two item lists of a settings document. *)
Definition otherField (f : Field) : Field :=
  match f with
  | Homework => Plans
  | Plans => Homework
  end.

(** The user a request is made for ([req.user.userId]). *)
Definition requestUser (req : Request) : ObjectId :=
  match req with
  | GetSettings _ user => user
  | PutPrinciples _ user _ _ => user
  | PutList _ _ user _ => user
  | PostItem _ _ user _ _ => user
  | PutItem _ _ user _ _ _ => user
  | DeleteItem _ _ user _ => user
  end.

(** What a request may do to the documents: nothing, or one write under
    [user]. *)
Definition writesOnly (user : ObjectId) (st st' : Store) : Prop :=
  st' = st \/ exists s : UserSettings, docs st' = <[user := s]> (docs st).

End SettingsInvariants.

Module DailyInvariants.
Import DailyRecordModel DailyRoutes.

(** The user and the date ([req.user.userId], [req.params.date]) a request
    is made for. *)
Definition requestKey (req : Request) : ObjectId * string :=
  match req with
  | GetDaily user date => (user, date)
  | PutDaily _ user date _ _ => (user, date)
  | PostPlan _ user date _ _ => (user, date)
  | PutPlan _ user date _ _ _ => (user, date)
  | DeletePlan _ user date _ => (user, date)
  | PutReflection _ user date _ => (user, date)
  end.

(** Every stored record is filed under its own user and date, and the date
    has the form YYYY-MM-DD. *)
Definition datedStore (st : Store) : Prop :=
  forall (k : ObjectId * string) (r : DailyRecord),
    docs st !! k = Some r -> (userId r, date r) = k /\ isDateFormat (date r) = true.

(** What a request may do to the records: nothing, or one write under the
    key [k]. *)
Definition writesOnly (k : ObjectId * string) (st st' : Store) : Prop :=
  st' = st \/ exists r : DailyRecord, docs st' = <[k := r]> (docs st).

End DailyInvariants.

Module UserInvariants.
Import UserModel UserSchema.

(** A name as the schema accepts it: trimmed, 2 to 20 characters. *)
Definition validName (name : string) : Prop :=
  JsString.trim name = name /\ (2 <= length16 name <= 20)%nat.

(** The unique indexes on [phone] and [username] hold, the ObjectIds are
    distinct and below the next one, and every stored phone and name passed
    the validators. *)
Definition wellFormed (st : Users) : Prop :=
  List.NoDup (map phone (docs st)) /\
  List.NoDup (map username (docs st)) /\
  List.NoDup (map _id (docs st)) /\
  forall u : User,
    In u (docs st) ->
    (_id u < nextId st)%nat /\ phoneRegex (phone u) = true /\ validName (username u).

(** A name as the name change may leave it: trimmed, of at most 20
    characters (the lower bound is checked before the name is trimmed). *)
Definition storedName (name : string) : Prop :=
  JsString.trim name = name /\ (length16 name <= 20)%nat.

(** The unique indexes hold, the ObjectIds are distinct and below the next
    one, every stored phone matches the pattern and every stored name
    satisfies [nameOk]. *)
Definition keyedBy (nameOk : string -> Prop) (st : Users) : Prop :=
  List.NoDup (map phone (docs st)) /\
  List.NoDup (map username (docs st)) /\
  List.NoDup (map _id (docs st)) /\
  forall u : User,
    In u (docs st) ->
    (_id u < nextId st)%nat /\ phoneRegex (phone u) = true /\ nameOk (username u).

(** What every write keeps, the name change included. *)
Definition consistent (st : Users) : Prop := keyedBy storedName st.

End UserInvariants.
(* ===================================================================== *)
(** * Properties *)
(* ===================================================================== *)

(** ** Sanity checks of the JavaScript primitives *)

Example padStart_1 : JsString.padStart 2 "0" (JsString.ofInteger 1) = "01".
Proof. reflexivity. Qed.
Example padStart_12 : JsString.padStart 2 "0" (JsString.ofInteger 12) = "12".
Proof. reflexivity. Qed.
Example padStart_neg : JsString.padStart 2 "0" (JsString.ofInteger (-3)) = "-3".
Proof. reflexivity. Qed.
Example ofInteger_0 : JsString.ofInteger 0 = "0".
Proof. reflexivity. Qed.

Example toISOString_epoch : JsDate.toISOString 0 = "1970-01-01T00:00:00.000Z".
Proof. reflexivity. Qed.
Example toISOString_2024 :
  JsDate.toISOString 1705060800123 = "2024-01-12T12:00:00.123Z".
Proof. vm_compute. reflexivity. Qed.
Example toISOString_leap :
  JsString.slice0 10 (JsDate.toISOString (1709164800000 + 86399999)) = "2024-02-29".
Proof. vm_compute. reflexivity. Qed.
Example toISOString_before_epoch :
  JsString.slice0 10 (JsDate.toISOString (-1)) = "1969-12-31".
Proof. vm_compute. reflexivity. Qed.
Example parseDateOnly_2024 : JsDate.parseDateOnly "2024-01-12" = Some 1705017600000.
Proof. vm_compute. reflexivity. Qed.
Example parseDateOnly_year0 : JsDate.parseDateOnly "0000-01-01" = Some (-62167219200000).
Proof. vm_compute. reflexivity. Qed.
Example setDate_month_rollover :
  JsDate.setDate (JsDate.fixedOffset 28800000) 1709251200000
    (JsDate.getDate (JsDate.fixedOffset 28800000) 1709251200000 - 1)
  = Some 1709164800000.
Proof. vm_compute. reflexivity. Qed.
(** In New York, the midnight (UTC) of 2024-11-04 is 19:00 of 2024-11-03,
    standard time; the day before at 19:00 is daylight time, 23:00 (UTC)
    of 2024-11-02. *)
Example getDate_newYork : JsDate.getDate JsDate.newYork2024 1730678400000 = 3.
Proof. vm_compute. reflexivity. Qed.
Example setDate_newYork :
  JsDate.setDate JsDate.newYork2024 1730678400000 2 = Some 1730588400000.
Proof. vm_compute. reflexivity. Qed.
Example toISOString_newYork :
  JsDate.toISOString 1730588400000 = "2024-11-02T23:00:00.000Z".
Proof. vm_compute. reflexivity. Qed.

Example toString_2024 : forall f, JsNumber.toString f (JsNumber.Integer 2024) = "2024".
Proof. reflexivity. Qed.
Example toString_safe :
  forall f, JsNumber.toString f (JsNumber.Integer (2 ^ 53 - 1)) = "9007199254740991".
Proof. intros f. vm_compute. reflexivity. Qed.
Example toString_1e21 :
  forall f, JsNumber.toString f (JsNumber.Integer (10 ^ 21)) = f (10 ^ 21).
Proof. reflexivity. Qed.

Example trim_ascii : JsString.trim "  buy plan 	
" = "buy plan".
Proof. vm_compute. reflexivity. Qed.
Example trim_ideographic_space : JsString.trim "　候选股票　 " = "候选股票".
Proof. vm_compute. reflexivity. Qed.
Example trim_blank : JsString.trim " 　	 " = "".
Proof. vm_compute. reflexivity. Qed.
Example trim_inner : JsString.trim "买点 计划" = "买点 计划".
Proof. vm_compute. reflexivity. Qed.

(* ===================================================================== *)
(** ** Sorting and string order *)
(* ===================================================================== *)

Module SortFacts.

Lemma insertBy_Permutation {A : Type} (le : A -> A -> bool) (x : A) (l : list A) :
  Permutation (insertBy le x l) (x :: l).
Proof.
  induction l as [| y l IH]; cbn; [reflexivity |].
  destruct (le x y); [reflexivity |].
  rewrite IH. apply perm_swap.
Qed.

Lemma sortBy_Permutation {A : Type} (le : A -> A -> bool) (l : list A) :
  Permutation (sortBy le l) l.
Proof.
  induction l as [| x l IH]; cbn; [reflexivity |].
  rewrite insertBy_Permutation. now constructor.
Qed.

Lemma String_leb_refl (a : string) : String.leb a a = true.
Proof. destruct (String.leb_total a a); assumption. Qed.

Lemma Ascii_compare_refl (c : ascii) : Ascii.compare c c = Eq.
Proof. unfold Ascii.compare. apply N.compare_refl. Qed.

Lemma String_leb_trans (a b c : string) :
  String.leb a b = true -> String.leb b c = true -> String.leb a c = true.
Proof.
  revert b c. induction a as [| x a IH]; intros [| y b] [| z c]; try reflexivity;
    try discriminate.
  unfold String.leb in *. cbn [String.compare]. unfold Ascii.compare.
  destruct (N.compare_spec (N_of_ascii x) (N_of_ascii y)) as [Exy | Lxy | Gxy];
    destruct (N.compare_spec (N_of_ascii y) (N_of_ascii z)) as [Eyz | Lyz | Gyz];
    try discriminate; intros H1 H2.
  - rewrite Exy, Eyz, N.compare_refl. now apply (IH b c).
  - rewrite Exy. apply N.compare_lt_iff in Lyz. now rewrite Lyz.
  - rewrite <- Eyz. apply N.compare_lt_iff in Lxy. now rewrite Lxy.
  - assert (L : (N_of_ascii x < N_of_ascii z)%N) by lia.
    apply N.compare_lt_iff in L. now rewrite L.
Qed.

(** A string between two strings that share a prefix has that prefix. *)
Lemma between_prefix (p x y s : string) :
  String.leb (p ++ x) s = true -> String.leb s (p ++ y) = true ->
  String.prefix p s = true.
Proof.
  revert s. induction p as [| c p IH]; intros s.
  - intros _ _. destruct s; reflexivity.
  - destruct s as [| d s]; [discriminate |].
    change (String c p ++ x) with (String c (p ++ x)).
    change (String c p ++ y) with (String c (p ++ y)).
    unfold String.leb. cbn [String.compare String.prefix].
    rewrite (Ascii.compare_antisym d c).
    destruct (Ascii.compare c d) eqn:E; cbn [CompOpp]; try discriminate.
    apply Ascii.compare_eq_iff in E. subst d.
    destruct (Ascii.ascii_dec c c) as [_ | NE]; [| contradiction].
    apply IH.
Qed.

Lemma string_app_assoc (a b c : string) : (a ++ b) ++ c = a ++ (b ++ c).
Proof.
  induction a as [| x a IH]; [reflexivity |].
  change ((String x a ++ b) ++ c) with (String x ((a ++ b) ++ c)).
  change (String x a ++ (b ++ c)) with (String x (a ++ (b ++ c))).
  now rewrite IH.
Qed.


End SortFacts.

(* ===================================================================== *)
(** ** The Gregorian calendar of [JsDate] *)
(* ===================================================================== *)

Module JsDateFacts.
Import JsDate.

Lemma DaysInYear_cases (y : Z) : DaysInYear y = 365 \/ DaysInYear y = 366.
Proof.
  unfold DaysInYear.
  destruct (y mod 4 =? 0), (y mod 100 =? 0), (y mod 400 =? 0); simpl; auto.
Qed.

Lemma DayFromYear_succ (y : Z) : DayFromYear (y + 1) = DayFromYear y + DaysInYear y.
Proof.
  unfold DayFromYear, DaysInYear.
  destruct (Z.eqb_spec (y mod 4) 0), (Z.eqb_spec (y mod 100) 0),
    (Z.eqb_spec (y mod 400) 0); simpl; Z.div_mod_to_equations; lia.
Qed.

Lemma DayFromYear_lt (y : Z) : DayFromYear y < DayFromYear (y + 1).
Proof. rewrite DayFromYear_succ. destruct (DaysInYear_cases y); lia. Qed.

Lemma DayFromYear_mono (y1 y2 : Z) : y1 <= y2 -> DayFromYear y1 <= DayFromYear y2.
Proof.
  intros H. unfold DayFromYear. Z.div_mod_to_equations. lia.
Qed.

(** The defining property of [YearFromTime]. *)
Lemma YearFromTime_spec (t : Z) :
  DayFromYear (YearFromTime t) <= Day t < DayFromYear (YearFromTime t + 1).
Proof.
  unfold YearFromTime.
  set (d := Day t). set (y := 1970 + 400 * d / 146097).
  assert (Hlo : DayFromYear (y - 1) <= d).
  { subst y. unfold DayFromYear. Z.div_mod_to_equations. lia. }
  assert (Hhi : d < DayFromYear (y + 2)).
  { subst y. unfold DayFromYear. Z.div_mod_to_equations. lia. }
  destruct (Z.leb_spec (DayFromYear (y + 1)) d).
  - replace (y + 1 + 1) with (y + 2) by lia. lia.
  - destruct (Z.leb_spec (DayFromYear y) d).
    + lia.
    + replace (y - 1 + 1) with y by lia. lia.
Qed.

Lemma YearFromTime_unique (t y : Z) :
  DayFromYear y <= Day t < DayFromYear (y + 1) -> YearFromTime t = y.
Proof.
  intros H. pose proof (YearFromTime_spec t) as S.
  destruct (Z.lt_trichotomy (YearFromTime t) y) as [L | [E | G]]; [| exact E |].
  - pose proof (DayFromYear_mono (YearFromTime t + 1) y ltac:(lia)). lia.
  - pose proof (DayFromYear_mono (y + 1) (YearFromTime t) ltac:(lia)). lia.
Qed.

Lemma DayWithinYear_range (t : Z) :
  0 <= DayWithinYear t < DaysInYear (YearFromTime t).
Proof.
  unfold DayWithinYear. pose proof (YearFromTime_spec t) as S.
  rewrite DayFromYear_succ in S. lia.
Qed.


Lemma InLeapYear_cases (t : Z) :
  (InLeapYear t = 0 /\ DaysInYear (YearFromTime t) = 365) \/
  (InLeapYear t = 1 /\ DaysInYear (YearFromTime t) = 366).
Proof.
  unfold InLeapYear. destruct (DaysInYear_cases (YearFromTime t)) as [E | E];
    rewrite E; simpl; auto.
Qed.

(** The month table, as ranges of the day within the year. *)
Lemma MonthFromTime_cases (t : Z) :
  let d := DayWithinYear t in
  let l := InLeapYear t in
  let m := MonthFromTime t in
  (m = 0 /\ d < 31) \/
  (m = 1 /\ 31 <= d < 59 + l) \/
  (m = 2 /\ 59 + l <= d < 90 + l) \/
  (m = 3 /\ 90 + l <= d < 120 + l) \/
  (m = 4 /\ 120 + l <= d < 151 + l) \/
  (m = 5 /\ 151 + l <= d < 181 + l) \/
  (m = 6 /\ 181 + l <= d < 212 + l) \/
  (m = 7 /\ 212 + l <= d < 243 + l) \/
  (m = 8 /\ 243 + l <= d < 273 + l) \/
  (m = 9 /\ 273 + l <= d < 304 + l) \/
  (m = 10 /\ 304 + l <= d < 334 + l) \/
  (m = 11 /\ 334 + l <= d).
Proof.
  cbv zeta. unfold MonthFromTime.
  repeat match goal with
         | |- context [?a <? ?b] => destruct (Z.ltb_spec a b)
         end; lia.
Qed.

Lemma MonthFromTime_range (t : Z) : 0 <= MonthFromTime t <= 11.
Proof. pose proof (MonthFromTime_cases t) as H. cbv zeta in H. lia. Qed.

Ltac month_split t :=
  let H := fresh "Hm" in
  let E := fresh "Em" in
  pose proof (MonthFromTime_cases t) as H; cbv zeta in H;
  destruct H as [[E H] | [[E H] | [[E H] | [[E H] | [[E H] | [[E H] |
                [[E H] | [[E H] | [[E H] | [[E H] | [[E H] | [E H]]]]]]]]]]]].

(** [MakeDay] inverts the decomposition of a time into year, month and
    day of the month. *)
Lemma MakeDay_of_time (t : Z) :
  MakeDay (YearFromTime t) (MonthFromTime t) (DateFromTime t) = Day t.
Proof.
  pose proof (MonthFromTime_range t) as R.
  unfold MakeDay.
  rewrite Z.div_small, Z.mod_small, Z.add_0_r by lia.
  assert (daysBeforeMonth (DaysInYear (YearFromTime t)) (MonthFromTime t)
          + DateFromTime t - 1 = DayWithinYear t) as E.
  { unfold DateFromTime, daysBeforeMonth.
    fold (InLeapYear t).
    month_split t; rewrite Em; lia. }
  unfold DayWithinYear in E. lia.
Qed.

Lemma DateFromTime_range (t : Z) : 1 <= DateFromTime t <= 31.
Proof.
  pose proof (DayWithinYear_range t) as R.
  unfold DateFromTime.
  destruct (InLeapYear_cases t) as [[L D] | [L D]]; rewrite L in *; rewrite D in R;
    month_split t; rewrite Em; rewrite ?L in *; lia.
Qed.

Lemma Day_prev (t : Z) : Day (t - msPerDay) = Day t - 1.
Proof. unfold Day, msPerDay. Z.div_mod_to_equations. lia. Qed.

Lemma MakeDay_pred (y m d : Z) : MakeDay y m (d - 1) = MakeDay y m d - 1.
Proof. unfold MakeDay. lia. Qed.

Lemma MakeDate_prev (t : Z) : MakeDate (Day t - 1) (TimeWithinDay t) = t - msPerDay.
Proof.
  unfold MakeDate, Day, TimeWithinDay.
  generalize msPerDay (eq_refl : (0 <? msPerDay) = true). intros k Hk.
  apply Z.ltb_lt in Hk. pose proof (Z.div_mod t k ltac:(lia)). lia.
Qed.

Section LocalZone.

Variable LocalTZA : Z -> bool -> Z.

(** [d.setDate(d.getDate() - 1)] moves the local time back by one day; the
    time value moves by one day and by the difference of the offsets in
    force at the two local times. *)
Lemma setDate_previous_local (tv : Z) :
  setDate LocalTZA tv (getDate LocalTZA tv - 1)
  = TimeClip (tv - msPerDay + LocalTZA tv true
              - LocalTZA (tv + LocalTZA tv true - msPerDay) false).
Proof.
  unfold setDate, getDate.
  rewrite MakeDay_pred, MakeDay_of_time, MakeDate_prev.
  unfold UTC, LocalTime. f_equal. lia.
Qed.

(** With a fixed offset, the time value moves back by exactly one day. *)
Lemma setDate_previous (offset tv : Z) :
  (forall (t : Z) (isUTC : bool), LocalTZA t isUTC = offset) ->
  setDate LocalTZA tv (getDate LocalTZA tv - 1) = TimeClip (tv - msPerDay).
Proof.
  intros H. rewrite setDate_previous_local, !H. f_equal. lia.
Qed.

End LocalZone.

End JsDateFacts.

(* ===================================================================== *)
(** ** [trim] *)
(* ===================================================================== *)

Module TrimFacts.
Import JsString.

Section DropLeading.

Variable p1 : ascii -> bool.
Variable p2 : ascii -> ascii -> bool.
Variable p3 : ascii -> ascii -> ascii -> bool.

Local Abbreviation headClear := (JsString.headClear p1 p2 p3).

Lemma dropLeading_length_ind (P : list ascii -> Prop) :
  (forall s, (forall s', (List.length s' < List.length s)%nat -> P s') -> P s) ->
  forall s, P s.
Proof.
  intros H s. remember (List.length s) as n eqn:E. revert s E.
  induction n as [n IH] using lt_wf_ind. intros s ->. apply H.
  intros s' L. now apply (IH (List.length s')).
Qed.

(** One step of [dropLeading]: the head is clear and nothing is dropped,
    or a non-empty run is dropped and the rest is treated alike. *)
Lemma dropLeading_cases (s : list ascii) :
  (headClear s = true /\ dropLeading p1 p2 p3 s = s) \/
  (exists pre rest : list ascii,
      s = (pre ++ rest)%list /\ (List.length rest < List.length s)%nat /\
      dropLeading p1 p2 p3 s = dropLeading p1 p2 p3 rest).
Proof.
  destruct s as [| a s1]; [now left |]. simpl.
  destruct (p1 a).
  { right. exists [a], s1. repeat split. cbn. lia. }
  destruct s1 as [| b s2]; [now left |].
  destruct (p2 a b).
  { right. exists [a; b], s2. repeat split. cbn. lia. }
  destruct s2 as [| c s3]; [now left |].
  destruct (p3 a b c).
  { right. exists [a; b; c], s3. repeat split. cbn. lia. }
  now left.
Qed.

Lemma dropLeading_suffix (s : list ascii) :
  exists pre : list ascii, s = (pre ++ dropLeading p1 p2 p3 s)%list.
Proof.
  induction s as [s IH] using dropLeading_length_ind.
  destruct (dropLeading_cases s) as [[_ E] | (pre & rest & E & L & D)].
  - exists []. now rewrite E.
  - destruct (IH rest L) as (pre' & E'). exists (pre ++ pre')%list.
    rewrite D, <- app_assoc, <- E'. exact E.
Qed.

Lemma dropLeading_headClear (s : list ascii) :
  headClear (dropLeading p1 p2 p3 s) = true.
Proof.
  induction s as [s IH] using dropLeading_length_ind.
  destruct (dropLeading_cases s) as [[H E] | (pre & rest & E & L & D)].
  - now rewrite E.
  - rewrite D. now apply IH.
Qed.

Lemma headClear_dropLeading (s : list ascii) :
  headClear s = true -> dropLeading p1 p2 p3 s = s.
Proof.
  destruct s as [| a [| b [| c s3]]]; cbn; try reflexivity.
  - destruct (p1 a); [discriminate | reflexivity].
  - destruct (p1 a); [discriminate |]. destruct (p2 a b); [discriminate | reflexivity].
  - destruct (p1 a); [discriminate |]. destruct (p2 a b); [discriminate |].
    destruct (p3 a b c); [discriminate | reflexivity].
Qed.

Lemma headClear_prefix (y z : list ascii) :
  headClear (y ++ z)%list = true -> headClear y = true.
Proof.
  destruct y as [| a [| b [| c y3]]]; cbn; try reflexivity.
  - destruct (p1 a); [| reflexivity]. now destruct z.
  - destruct (p1 a); cbn; [now destruct z |].
    destruct (p2 a b); [| reflexivity]. now destruct z.
  - auto.
Qed.

Lemma dropLeading_idempotent (s : list ascii) :
  dropLeading p1 p2 p3 (dropLeading p1 p2 p3 s) = dropLeading p1 p2 p3 s.
Proof. apply headClear_dropLeading, dropLeading_headClear. Qed.

End DropLeading.

Lemma trimEndBytes_prefix (s : list ascii) :
  exists post : list ascii, s = (trimEndBytes s ++ post)%list.
Proof.
  unfold trimEndBytes.
  destruct (dropLeading_suffix whiteSpace1 (fun b a => whiteSpace2 a b)
              (fun c b a => whiteSpace3 a b c) (List.rev s)) as (pre & E).
  exists (List.rev pre).
  rewrite <- rev_app_distr, <- E. now rewrite rev_involutive.
Qed.

Lemma trimEndBytes_idempotent (s : list ascii) :
  trimEndBytes (trimEndBytes s) = trimEndBytes s.
Proof.
  unfold trimEndBytes. rewrite rev_involutive. now rewrite dropLeading_idempotent.
Qed.

Lemma trimStartBytes_trimEndBytes (s : list ascii) :
  trimStartBytes (trimEndBytes (trimStartBytes s)) = trimEndBytes (trimStartBytes s).
Proof.
  unfold trimStartBytes at 1. apply headClear_dropLeading.
  destruct (trimEndBytes_prefix (trimStartBytes s)) as (post & E).
  apply (headClear_prefix _ _ _ _ post). rewrite <- E.
  apply dropLeading_headClear.
Qed.

(** Trimming a trimmed string changes nothing. *)
Lemma trim_idempotent (s : string) : trim (trim s) = trim s.
Proof.
  unfold trim. rewrite list_ascii_of_string_of_list_ascii.
  now rewrite trimStartBytes_trimEndBytes, trimEndBytes_idempotent.
Qed.

Lemma nonEmpty_true (s : string) : nonEmpty s = true <-> s <> "".
Proof.
  unfold nonEmpty. rewrite negb_true_iff. destruct (String.eqb_spec s ""); split; congruence.
Qed.

End TrimFacts.

(* ===================================================================== *)
(** ** Calendar dates of time values *)
(* ===================================================================== *)

Module CalendarFacts.
Import JsDate JsDateFacts StreakReference.

Lemma isLeapYear_DaysInYear (y : Z) : isLeapYear y = (DaysInYear y =? 366).
Proof.
  unfold isLeapYear, DaysInYear.
  destruct (y mod 4 =? 0), (y mod 100 =? 0), (y mod 400 =? 0); reflexivity.
Qed.

Lemma InLeapYear_isLeapYear (t : Z) :
  InLeapYear t = if isLeapYear (YearFromTime t) then 1 else 0.
Proof. unfold InLeapYear. now rewrite isLeapYear_DaysInYear. Qed.

Lemma previous_day_same_year (t t' : Z) :
  YearFromTime t' = YearFromTime t ->
  DayWithinYear t' = DayWithinYear t - 1 ->
  calendarDateOf t' = prevCalendarDay (calendarDateOf t).
Proof.
  intros HY HD.
  assert (HL : InLeapYear t' = InLeapYear t) by (unfold InLeapYear; now rewrite HY).
  pose proof (DayWithinYear_range t') as R'.
  pose proof (InLeapYear_isLeapYear t) as LY.
  unfold calendarDateOf, prevCalendarDay, daysInMonth; cbn [year month day].
  unfold DateFromTime. rewrite HY, HL, HD.
  destruct (isLeapYear (YearFromTime t)); rewrite LY in *;
    month_split t; month_split t'; rewrite ?HL, ?HD in *; try lia.
  all: rewrite Em, Em0.
  all: match goal with
       | |- context [if ?a <? ?b then _ else _] => destruct (Z.ltb_spec a b)
       end; [ f_equal; lia | try lia; simpl; f_equal; lia ].
Qed.

Lemma previous_day_year_start (t t' : Z) :
  YearFromTime t' = YearFromTime t - 1 ->
  DayWithinYear t = 0 ->
  DayWithinYear t' = DaysInYear (YearFromTime t') - 1 ->
  calendarDateOf t' = prevCalendarDay (calendarDateOf t).
Proof.
  intros HY HD HD'.
  unfold calendarDateOf, prevCalendarDay; cbn [year month day].
  unfold DateFromTime. rewrite HY, HD, HD'.
  pose proof (InLeapYear_cases t) as Lt.
  month_split t; rewrite HD in Hm; try lia. rewrite Em.
  destruct (InLeapYear_cases t') as [[L' D'] | [L' D']];
    rewrite ?L', ?D'; month_split t'; rewrite ?L', ?HD', ?D' in Hm0; try lia;
    rewrite Em0; reflexivity.
Qed.

Lemma calendarDateOf_previous (t : Z) :
  calendarDateOf (t - msPerDay) = prevCalendarDay (calendarDateOf t).
Proof.
  pose proof (YearFromTime_spec t) as S.
  pose proof (Day_prev t) as P.
  destruct (Z.eq_dec (DayWithinYear t) 0) as [E | NE].
  - assert (HY : YearFromTime (t - msPerDay) = YearFromTime t - 1).
    { apply YearFromTime_unique. rewrite P.
      replace (YearFromTime t - 1 + 1) with (YearFromTime t) by lia.
      pose proof (DayFromYear_lt (YearFromTime t - 1)) as L.
      replace (YearFromTime t - 1 + 1) with (YearFromTime t) in L by lia.
      unfold DayWithinYear in E. lia. }
    apply previous_day_year_start; auto.
    unfold DayWithinYear. rewrite HY, P.
    pose proof (DayFromYear_succ (YearFromTime t - 1)) as L.
    replace (YearFromTime t - 1 + 1) with (YearFromTime t) in L by lia.
    unfold DayWithinYear in E. lia.
  - pose proof (DayWithinYear_range t) as R.
    assert (HY : YearFromTime (t - msPerDay) = YearFromTime t).
    { apply YearFromTime_unique. rewrite P. unfold DayWithinYear in *. lia. }
    apply previous_day_same_year; auto.
    unfold DayWithinYear. rewrite HY, P. lia.
Qed.


End CalendarFacts.

(* ===================================================================== *)
(** ** "YYYY-MM-DD" strings and the streak loop *)
(* ===================================================================== *)

Module StreakFacts.
Import JsDate JsDateFacts StreakReference StreakAux CalendarFacts CheckInModel CheckInRoutes
  SortFacts.

Lemma allBelow_spec (n : nat) (P : Z -> bool) :
  allBelow n P = true -> forall z, 0 <= z < Z.of_nat n -> P z = true.
Proof.
  induction n as [| k IH]; intros H z Hz; [lia |].
  cbn [allBelow] in H. apply andb_true_iff in H as [H1 H2].
  destruct (Z.eq_dec z (Z.of_nat k)) as [-> | NE]; [exact H1 |].
  apply IH; [exact H2 | lia].
Qed.

Lemma padded4_all : allBelow (Z.to_nat 10000) (paddedOk 4) = true.
Proof. vm_compute. reflexivity. Qed.

Lemma padded2_all : allBelow (Z.to_nat 100) (paddedOk 2) = true.
Proof. vm_compute. reflexivity. Qed.

Lemma paddedOk_spec (width : nat) (n : Z) :
  paddedOk width n = true ->
  String.length (JsString.padStart width "0" (JsString.ofInteger n)) = width /\
  digitsValue 0 (JsString.padStart width "0" (JsString.ofInteger n)) = Some n.
Proof.
  unfold paddedOk. intros H. apply andb_true_iff in H as [H1 H2].
  apply Nat.eqb_eq in H1. split; [exact H1 |].
  destruct (digitsValue 0 _) as [v |]; [| discriminate].
  apply Z.eqb_eq in H2. now subst.
Qed.

Lemma padded4 (y : Z) : 0 <= y <= 9999 ->
  String.length (JsString.padStart 4 "0" (JsString.ofInteger y)) = 4%nat /\
  digitsValue 0 (JsString.padStart 4 "0" (JsString.ofInteger y)) = Some y.
Proof.
  intros H. apply paddedOk_spec. apply (allBelow_spec _ _ padded4_all). rewrite Z2Nat.id; lia.
Qed.

Lemma padded2 (n : Z) : 0 <= n <= 99 ->
  String.length (JsString.padStart 2 "0" (JsString.ofInteger n)) = 2%nat /\
  digitsValue 0 (JsString.padStart 2 "0" (JsString.ofInteger n)) = Some n.
Proof.
  intros H. apply paddedOk_spec. apply (allBelow_spec _ _ padded2_all). rewrite Z2Nat.id; lia.
Qed.

Lemma length4_inv (s : string) : String.length s = 4%nat ->
  exists a b c d, s = String a (String b (String c (String d ""))).
Proof.
  destruct s as [| a [| b [| c [| d [| e s]]]]]; cbn; try discriminate.
  intros _. now exists a, b, c, d.
Qed.

Lemma length2_inv (s : string) : String.length s = 2%nat ->
  exists a b, s = String a (String b "").
Proof.
  destruct s as [| a [| b [| c s]]]; cbn; try discriminate.
  intros _. now exists a, b.
Qed.

Lemma substring_prefix (s r : string) : substring 0 (String.length s) (s ++ r) = s.
Proof.
  induction s as [| c s IH]; simpl.
  - destruct r; reflexivity.
  - f_equal. exact IH.
Qed.

(** A string of the shape "YYYY-MM-DD" is read back field by field. *)
Lemma parseDateOnly_fields (Y M D : string) (y m d : Z) :
  String.length Y = 4%nat -> String.length M = 2%nat -> String.length D = 2%nat ->
  digitsValue 0 Y = Some y -> digitsValue 0 M = Some m -> digitsValue 0 D = Some d ->
  1 <= m <= 12 -> 1 <= d <= 31 ->
  parseDateOnly (Y ++ "-" ++ M ++ "-" ++ D) = TimeClip (MakeDate (MakeDay y (m - 1) d) 0).
Proof.
  intros LY LM LD HY HM HD Rm Rd.
  destruct (length4_inv Y LY) as (a & b & c & e & ->).
  destruct (length2_inv M LM) as (f & g & ->).
  destruct (length2_inv D LD) as (h & i & ->).
  unfold parseDateOnly.
  simpl in HY, HM, HD |- *.
  rewrite HY, HM, HD.
  replace ((1 <=? m) && (m <=? 12) && (1 <=? d) && (d <=? 31)) with true; [reflexivity |].
  symmetry. repeat (apply andb_true_iff; split); apply Z.leb_le; lia.
Qed.

Lemma dayInRange_year (t : Z) : dayInRange (Day t) -> 0 <= YearFromTime t <= 9999.
Proof.
  unfold dayInRange. intros H. pose proof (YearFromTime_spec t) as S.
  destruct (Z_lt_le_dec (YearFromTime t) 0) as [L | L].
  - pose proof (DayFromYear_mono (YearFromTime t + 1) 0 ltac:(lia)). lia.
  - destruct (Z_lt_le_dec 9999 (YearFromTime t)) as [G | G]; [| lia].
    pose proof (DayFromYear_mono 10000 (YearFromTime t) ltac:(lia)). lia.
Qed.

Lemma calendarDateOf_Day (t : Z) : calendarDateOf (Day t * msPerDay) = calendarDateOf t.
Proof.
  assert (E : Day (Day t * msPerDay) = Day t).
  { unfold Day at 1. apply Z.div_mul. discriminate. }
  unfold calendarDateOf, DateFromTime, MonthFromTime, InLeapYear, DayWithinYear, YearFromTime.
  now rewrite E.
Qed.

(** Inside the four-digit calendar, the date part of [toISOString] is the
    "YYYY-MM-DD" rendering of the calendar date. *)
Lemma isoDate_dateString (t : Z) :
  dayInRange (Day t) -> isoDate t = dateString (calendarDateOf t).
Proof.
  intros R. pose proof (dayInRange_year t R) as RY.
  pose proof (MonthFromTime_range t) as RM. pose proof (DateFromTime_range t) as RD.
  unfold isoDate, JsString.slice0, toISOString, dateString, calendarDateOf, isoYear,
    ToZeroPaddedDecimalString; cbn [StreakReference.year StreakReference.month StreakReference.day].
  replace ((0 <=? YearFromTime t) && (YearFromTime t <=? 9999)) with true
    by (symmetry; apply andb_true_iff; split; apply Z.leb_le; lia).
  destruct (padded4 (YearFromTime t) RY) as [LY _].
  destruct (padded2 (MonthFromTime t + 1) ltac:(lia)) as [LM _].
  destruct (padded2 (DateFromTime t) ltac:(lia)) as [LD _].
  set (Y := JsString.padStart 4 "0" (JsString.ofInteger (YearFromTime t))) in *.
  set (M := JsString.padStart 2 "0" (JsString.ofInteger (MonthFromTime t + 1))) in *.
  set (D := JsString.padStart 2 "0" (JsString.ofInteger (DateFromTime t))) in *.
  match goal with |- substring 0 10 (Y ++ "-" ++ M ++ "-" ++ D ++ ?r) = _ =>
    generalize r; intros rest end.
  destruct (length4_inv Y LY) as (a & b & c & e & ->).
  destruct (length2_inv M LM) as (f & g & ->).
  destruct (length2_inv D LD) as (h & i & ->).
  destruct rest; reflexivity.
Qed.

Lemma dayInRange_TimeClip (d : Z) :
  dayInRange d -> TimeClip (d * msPerDay) = Some (d * msPerDay).
Proof.
  unfold dayInRange, TimeClip. intros H.
  change (DayFromYear 0) with (-719528) in H.
  change (DayFromYear 10000) with 2932897 in H.
  replace (Z.abs (d * msPerDay) <=? 8640000000000000) with true; [reflexivity |].
  symmetry. apply Z.leb_le. unfold msPerDay. lia.
Qed.

Lemma parseDateOnly_dateString (t : Z) :
  dayInRange (Day t) ->
  parseDateOnly (dateString (calendarDateOf t)) = Some (Day t * msPerDay).
Proof.
  intros R. pose proof (dayInRange_year t R) as RY.
  pose proof (MonthFromTime_range t) as RM. pose proof (DateFromTime_range t) as RD.
  destruct (padded4 (YearFromTime t) RY) as [LY VY].
  destruct (padded2 (MonthFromTime t + 1) ltac:(lia)) as [LM VM].
  destruct (padded2 (DateFromTime t) ltac:(lia)) as [LD VD].
  unfold dateString, calendarDateOf.
  cbn [StreakReference.year StreakReference.month StreakReference.day].
  rewrite (parseDateOnly_fields _ _ _ _ _ _ LY LM LD VY VM VD) by lia.
  replace (MonthFromTime t + 1 - 1) with (MonthFromTime t) by lia.
  rewrite MakeDay_of_time. unfold MakeDate. rewrite Z.add_0_r.
  now apply dayInRange_TimeClip.
Qed.

Lemma Day_of_day (d : Z) : Day (d * msPerDay) = d.
Proof. unfold Day. apply Z.div_mul. discriminate. Qed.

Lemma calendarDateOf_dateOfDay (t : Z) : calendarDateOf t = dateOfDay (Day t).
Proof. unfold dateOfDay. now rewrite calendarDateOf_Day. Qed.

Lemma prevCalendarDay_dateOfDay (d : Z) : prevCalendarDay (dateOfDay d) = dateOfDay (d - 1).
Proof.
  unfold dateOfDay. rewrite <- calendarDateOf_previous.
  f_equal. lia.
Qed.

Lemma daysBack_dateOfDay (n : nat) (d : Z) :
  daysBack n (dateOfDay d) = dateOfDay (d - Z.of_nat n).
Proof.
  revert d. induction n as [| n IH]; intros d.
  - cbn. f_equal. lia.
  - cbn [daysBack]. rewrite prevCalendarDay_dateOfDay, IH. f_equal. lia.
Qed.

Lemma dateString_dateOfDay_inj (d1 d2 : Z) :
  dayInRange d1 -> dayInRange d2 ->
  dateString (dateOfDay d1) = dateString (dateOfDay d2) -> d1 = d2.
Proof.
  intros R1 R2 E. unfold dateOfDay in E.
  pose proof (parseDateOnly_dateString (d1 * msPerDay)) as P1.
  pose proof (parseDateOnly_dateString (d2 * msPerDay)) as P2.
  rewrite Day_of_day in P1, P2. rewrite E in P1. rewrite P2 in P1 by assumption.
  specialize (P1 R1). injection P1 as P1. unfold msPerDay in P1. lia.
Qed.

Lemma isoDate_dateOfDay (t : Z) :
  dayInRange (Day t) -> isoDate t = dateString (dateOfDay (Day t)).
Proof.
  intros R. rewrite isoDate_dateString by assumption.
  now rewrite calendarDateOf_dateOfDay.
Qed.

Section Walk.

Variable LocalTZA : Z -> bool -> Z.
Variable offset : Z.
Hypothesis fixed : forall (t : Z) (isUTC : bool), LocalTZA t isUTC = offset.

(** In a zone with one fixed offset, one turn of the loop moves the cursor
    to the previous calendar day. *)
Lemma previousDate_step (d : Z) :
  dayInRange d -> dayInRange (d - 1) ->
  previousDate LocalTZA (dateString (dateOfDay d)) = Some (dateString (dateOfDay (d - 1))).
Proof.
  intros R R'. unfold previousDate, dateOfDay at 1.
  rewrite parseDateOnly_dateString by (now rewrite Day_of_day).
  rewrite Day_of_day, (setDate_previous LocalTZA offset) by exact fixed.
  replace (d * msPerDay - msPerDay) with ((d - 1) * msPerDay) by lia.
  rewrite dayInRange_TimeClip by assumption.
  rewrite isoDate_dateOfDay by (now rewrite Day_of_day).
  now rewrite Day_of_day.
Qed.

Lemma streakLoop_run (checkInDates : list string) (n : nat) :
  forall (fuel : nat) (d : Z) (acc : nat),
    (n < fuel)%nat ->
    (forall i : nat, (i <= n)%nat -> dayInRange (d - Z.of_nat i)) ->
    (forall i : nat, (i < n)%nat ->
       includes checkInDates (dateString (dateOfDay (d - Z.of_nat i))) = true) ->
    includes checkInDates (dateString (dateOfDay (d - Z.of_nat n))) = false ->
    streakLoop LocalTZA fuel checkInDates (dateString (dateOfDay d)) acc
    = Returned (acc + n)%nat.
Proof.
  induction n as [| n IH]; intros fuel d acc Hf HR Hin Hout.
  - destruct fuel as [| fuel]; [lia |]. cbn [streakLoop].
    replace (d - Z.of_nat 0) with d in Hout by lia.
    rewrite Hout. f_equal. lia.
  - destruct fuel as [| fuel]; [lia |]. cbn [streakLoop].
    pose proof (Hin 0%nat ltac:(lia)) as H0.
    replace (d - Z.of_nat 0) with d in H0 by lia. rewrite H0.
    pose proof (HR 0%nat ltac:(lia)) as R0. replace (d - Z.of_nat 0) with d in R0 by lia.
    pose proof (HR 1%nat ltac:(lia)) as R1. replace (d - Z.of_nat 1) with (d - 1) in R1 by lia.
    rewrite previousDate_step by assumption.
    rewrite (IH fuel (d - 1) (S acc)).
    + f_equal. lia.
    + lia.
    + intros i Hi. replace (d - 1 - Z.of_nat i) with (d - Z.of_nat (S i)) by lia.
      apply HR. lia.
    + intros i Hi. replace (d - 1 - Z.of_nat i) with (d - Z.of_nat (S i)) by lia.
      apply Hin. lia.
    + replace (d - 1 - Z.of_nat n) with (d - Z.of_nat (S n)) by lia. exact Hout.
Qed.

End Walk.

(** The first index at which a boolean sequence is false. *)
Lemma least_false (f : nat -> bool) (N : nat) :
  f N = false ->
  exists n : nat, (n <= N)%nat /\ f n = false /\ forall i : nat, (i < n)%nat -> f i = true.
Proof.
  induction N as [N IH] using lt_wf_ind. intros HN.
  destruct (forallb f (seq 0 N)) eqn:E.
  - exists N. split; [lia |]. split; [exact HN |].
    intros i Hi. rewrite forallb_forall in E. apply E. apply in_seq. lia.
  - assert (exists k, (k < N)%nat /\ f k = false) as (k & Hk & Fk).
    { clear - E. induction N as [| N IHN].
      - discriminate.
      - rewrite seq_S, forallb_app in E. cbn in E.
        destruct (forallb f (seq 0 N)).
        + exists N. split; [lia |]. destruct (f N); [discriminate | reflexivity].
        + destruct (IHN eq_refl) as (k & Hk & Fk). exists k. split; [lia | exact Fk]. }
    destruct (IH k Hk Fk) as (n & Hn & Fn & Hall).
    exists n. split; [lia |]. now split.
Qed.

Lemma includes_hasRecord (history : list CheckIn) (c : CalendarDate) :
  includes (map date history) (dateString c) = hasRecord history c.
Proof.
  unfold includes, hasRecord. induction history as [| r l IH]; cbn; [reflexivity |].
  rewrite IH. f_equal. apply String.eqb_sym.
Qed.

Lemma includes_In (arr : list string) (x : string) :
  includes arr x = true <-> In x arr.
Proof.
  unfold includes. rewrite existsb_exists. split.
  - intros (y & Hy & E). apply String.eqb_eq in E. now subst.
  - intros H. exists x. split; [exact H | apply String.eqb_refl].
Qed.

Lemma hasRecord_Permutation (h1 h2 : list CheckIn) (c : CalendarDate) :
  Permutation h1 h2 -> hasRecord h1 c = hasRecord h2 c.
Proof.
  intros P. unfold hasRecord.
  apply eq_true_iff_eq. rewrite !existsb_exists.
  split; intros (r & Hr & E); exists r; split; auto.
  - eapply Permutation_in; eauto.
  - eapply Permutation_in; [symmetry |]; eauto.
Qed.

Lemma NoDup_map_inj_in {A B : Type} (f : A -> B) (l : list A) :
  (forall x y, In x l -> In y l -> f x = f y -> x = y) ->
  List.NoDup l -> List.NoDup (map f l).
Proof.
  intros Hinj ND. induction ND as [| x l Hx ND IH]; cbn; constructor.
  - intros Hin. apply in_map_iff in Hin as (y & E & Hy).
    assert (y = x) by (apply Hinj; cbn; auto). subst. contradiction.
  - apply IH. intros a b Ha Hb. apply Hinj; cbn; auto.
Qed.

Lemma consecutiveRun_unique (h : list CheckIn) (c : CalendarDate) (n m : nat) :
  consecutiveRun h c n -> consecutiveRun h c m -> n = m.
Proof.
  intros [An Bn] [Am Bm].
  destruct (Nat.lt_trichotomy n m) as [L | [E | G]]; [| exact E |].
  - rewrite (Am n L) in Bn. discriminate.
  - rewrite (An m G) in Bm. discriminate.
Qed.

Lemma referenceStreak_unique (h : list CheckIn) (c : CalendarDate) (n m : nat) :
  referenceStreak h c n -> referenceStreak h c m -> n = m.
Proof.
  unfold referenceStreak. cbv zeta.
  destruct (hasRecord h c); [apply consecutiveRun_unique |].
  destruct (hasRecord h (prevCalendarDay c)); [apply consecutiveRun_unique | congruence].
Qed.

Lemma referenceStreak_check (h : list CheckIn) (c : CalendarDate) (n : nat) :
  referenceStreakCheck h c n = true -> referenceStreak h c n.
Proof.
  assert (Run : forall start,
             forallb (fun i : nat => hasRecord h (daysBack i start)) (seq 0 n) &&
             negb (hasRecord h (daysBack n start)) = true ->
             consecutiveRun h start n).
  { intros start H. apply andb_true_iff in H as [A B]. split.
    - intros i Hi. rewrite forallb_forall in A. apply A. apply in_seq. lia.
    - now apply negb_true_iff in B. }
  unfold referenceStreakCheck, referenceStreak. cbv zeta.
  destruct (hasRecord h c); [apply Run |].
  destruct (hasRecord h (prevCalendarDay c)); [apply Run |].
  apply Nat.eqb_eq.
Qed.

Lemma year0_dateString : dateString (dateOfDay (DayFromYear 0)) = "0000-01-01".
Proof. vm_compute. reflexivity. Qed.

Lemma clockInRange_days (now : Z) :
  clockInRange now -> DayFromYear 0 < Day now < DayFromYear 10000.
Proof.
  unfold clockInRange, TimeFromYear, Day.
  change (DayFromYear 0) with (-719528). change (DayFromYear 10000) with 2932897.
  unfold msPerDay. intros H. Z.div_mod_to_equations. lia.
Qed.

Section Run.

Variable LocalTZA : Z -> bool -> Z.
Variable offset : Z.
Hypothesis fixed : forall (t : Z) (isUTC : bool), LocalTZA t isUTC = offset.
Variable history : list CheckIn.
Hypothesis floor : ~ In "0000-01-01" (map date history).

(** From a start day inside the calendar, the loop returns the length of
    the run of consecutive days with a record that ends at the start. *)
Lemma streakLoop_consecutiveRun (fuel : nat) (d : Z) :
  dayInRange d ->
  (List.length history < fuel)%nat ->
  exists n : nat,
    streakLoop LocalTZA fuel (map date history) (dateString (dateOfDay d)) 0 = Returned n /\
    consecutiveRun history (dateOfDay d) n.
Proof.
  intros R Hf.
  set (f := fun i : nat => hasRecord history (dateOfDay (d - Z.of_nat i))).
  set (N := Z.to_nat (d - DayFromYear 0)).
  assert (HN : f N = false).
  { subst f N. cbv beta. unfold dayInRange in R.
    rewrite Z2Nat.id by lia.
    replace (d - (d - DayFromYear 0)) with (DayFromYear 0) by lia.
    rewrite <- includes_hasRecord, year0_dateString.
    apply not_true_is_false. rewrite includes_In. exact floor. }
  destruct (least_false f N HN) as (n & Hn & Fn & Hall).
  assert (HR : forall i : nat, (i <= n)%nat -> dayInRange (d - Z.of_nat i)).
  { intros i Hi. unfold dayInRange in *. subst N. lia. }
  assert (Hlen : (n <= List.length history)%nat).
  { set (l := map (fun i : nat => dateString (dateOfDay (d - Z.of_nat i))) (seq 0 n)).
    assert (ND : List.NoDup l).
    { apply NoDup_map_inj_in; [| apply List.seq_NoDup].
      intros x y Hx Hy E. apply in_seq in Hx, Hy.
      apply dateString_dateOfDay_inj in E; [lia | apply HR; lia | apply HR; lia]. }
    assert (I : incl l (map date history)).
    { intros s Hs. apply in_map_iff in Hs as (i & <- & Hi). apply in_seq in Hi.
      apply includes_In. rewrite includes_hasRecord. apply (Hall i). lia. }
    pose proof (List.NoDup_incl_length ND I) as L.
    subst l. rewrite !length_map, length_seq in L. exact L. }
  exists n. split.
  - apply (streakLoop_run LocalTZA offset fixed (map date history) n fuel d 0%nat).
    + lia.
    + exact HR.
    + intros i Hi. rewrite includes_hasRecord. apply (Hall i Hi).
    + rewrite includes_hasRecord. exact Fn.
  - split.
    + intros i Hi. rewrite daysBack_dateOfDay. apply (Hall i Hi).
    + rewrite daysBack_dateOfDay. exact Fn.
Qed.

End Run.

Lemma includes_sorted (l : list CheckIn) (s : string) :
  includes (map date (sortBy byDateDesc l)) s = includes (map date l) s.
Proof.
  apply eq_true_iff_eq. rewrite !includes_In.
  pose proof (sortBy_Permutation byDateDesc l) as P.
  split; intros H.
  - eapply Permutation_in; [apply Permutation_map; exact P | exact H].
  - eapply Permutation_in; [apply Permutation_map; symmetry; exact P | exact H].
Qed.

Lemma computeStreak_reference (LocalTZA : Z -> bool -> Z) (offset now : Z)
    (history : list CheckIn) (fuel : nat) :
  (forall (t : Z) (isUTC : bool), LocalTZA t isUTC = offset) ->
  clockInRange now ->
  ~ In "0000-01-01" (map date history) ->
  (List.length history < fuel)%nat ->
  exists n : nat,
    computeStreak LocalTZA fuel now history = Returned n /\
    referenceStreak history (calendarDateOf now) n.
Proof.
  intros Hfixed Hclock Hfloor Hfuel.
  pose proof (clockInRange_days now Hclock) as HD.
  assert (R0 : dayInRange (Day now)) by (unfold dayInRange; lia).
  assert (R1 : dayInRange (Day now - 1)) by (unfold dayInRange; lia).
  unfold computeStreak, referenceStreak. cbv zeta.
  replace (24 * 60 * 60 * 1000) with msPerDay by reflexivity.
  rewrite (isoDate_dateOfDay now R0).
  rewrite (isoDate_dateOfDay (now - msPerDay)) by (now rewrite Day_prev).
  rewrite Day_prev.
  rewrite (calendarDateOf_dateOfDay now), prevCalendarDay_dateOfDay.
  rewrite !includes_hasRecord.
  destruct (hasRecord history (dateOfDay (Day now))) eqn:Et; cbn [orb].
  - apply (streakLoop_consecutiveRun LocalTZA offset); assumption.
  - destruct (hasRecord history (dateOfDay (Day now - 1))) eqn:Ey.
    + apply (streakLoop_consecutiveRun LocalTZA offset); assumption.
    + exists 0%nat. split; reflexivity.
Qed.


End StreakFacts.
(* ===================================================================== *)
(** ** C1: the streak of [computeStats] *)
(* ===================================================================== *)

Section StreakTheorem.
Import JsDate StreakReference StreakAux CheckInModel CheckInRoutes SortFacts StreakFacts.

(** The streak in a zone with one fixed offset.  Whenever the clock reads a
    date of the four-digit calendar and the user has no record dated
    0000-01-01 (its first day), [computeStats] answers (with any fuel above
    the number of stored records) and its streak is the reference backward
    walk over the user's records: 0 if neither today nor yesterday has a
    record; otherwise the number of consecutive calendar days, counted back
    from today (or from yesterday when today has no record) across month
    and year boundaries, that each have a record of either kind, up to the
    first day without one.  The scenario with records on 2024-01-10,
    2024-01-11 and 2024-01-12 and today = 2024-01-12 gives streak 3; without
    the record of 2024-01-11 it gives streak 1. *)
Theorem computeStats_streak_fixed_offset :
  forall (largeToString : Z -> string) (LocalTZA : Z -> bool -> Z) (offset : Z),
    (forall (t : Z) (isUTC : bool), LocalTZA t isUTC = offset) ->
    (forall (now : Z) (user : ObjectId) (db : Collection) (fuel : nat),
        clockInRange now ->
        ~ In "0000-01-01" (map date (findByUser user db)) ->
        (List.length (docs db) < fuel)%nat ->
        exists stats : StatsData,
          computeStats largeToString LocalTZA fuel now user db
          = Some (mkResponse 200 "获取成功" (Some stats)) /\
          referenceStreak (findByUser user db) (calendarDateOf now) (streak stats)) /\
    (exists stats : StatsData,
        computeStats largeToString LocalTZA 4 noon_2024_01_12 1%nat threeDays
        = Some (mkResponse 200 "获取成功" (Some stats)) /\
        streak stats = 3%nat) /\
    (exists stats : StatsData,
        computeStats largeToString LocalTZA 3 noon_2024_01_12 1%nat withGap
        = Some (mkResponse 200 "获取成功" (Some stats)) /\
        streak stats = 1%nat).
Proof.
  intros largeToString LocalTZA offset Hfixed.
  assert (General : forall (now : Z) (user : ObjectId) (db : Collection) (fuel : nat),
      clockInRange now ->
      ~ In "0000-01-01" (map date (findByUser user db)) ->
      (List.length (docs db) < fuel)%nat ->
      exists stats : StatsData,
        computeStats largeToString LocalTZA fuel now user db
        = Some (mkResponse 200 "获取成功" (Some stats)) /\
        referenceStreak (findByUser user db) (calendarDateOf now) (streak stats)).
  { intros now user db fuel Hclock Hfloor Hfuel.
    set (history := findByUser user db) in *.
    pose proof (sortBy_Permutation byDateDesc history) as P.
    destruct (computeStreak_reference LocalTZA offset now (sortBy byDateDesc history) fuel)
      as (n & Hn & Href).
    - exact Hfixed.
    - exact Hclock.
    - intros Hin. apply Hfloor.
      eapply Permutation_in; [apply Permutation_map; exact P | exact Hin].
    - rewrite (Permutation_length P). subst history. unfold findByUser.
      pose proof (filter_length_le (fun r => Nat.eqb (userId r) user) (docs db)). lia.
    - unfold computeStats. cbv zeta. fold history. rewrite Hn.
      eexists. split; [reflexivity |]. cbn [streak].
      unfold referenceStreak in *. cbv zeta in *.
      rewrite <- !(hasRecord_Permutation _ _ _ P).
      destruct (hasRecord (sortBy byDateDesc history) (calendarDateOf now)).
      + destruct Href as [A B]. split.
        * intros i Hi. rewrite <- (hasRecord_Permutation _ _ _ P). now apply A.
        * now rewrite <- (hasRecord_Permutation _ _ _ P).
      + destruct (hasRecord (sortBy byDateDesc history) (prevCalendarDay (calendarDateOf now))).
        * destruct Href as [A B]. split.
          -- intros i Hi. rewrite <- (hasRecord_Permutation _ _ _ P). now apply A.
          -- now rewrite <- (hasRecord_Permutation _ _ _ P).
        * exact Href. }
  split; [exact General |].
  assert (Hclock : clockInRange noon_2024_01_12)
    by (vm_compute; split; [discriminate | reflexivity]).
  split.
  - destruct (General noon_2024_01_12 1%nat threeDays 4%nat Hclock)
      as (stats & Hs & Href).
    + vm_compute. intros [H | [H | [H | []]]]; discriminate.
    + cbn. lia.
    + exists stats. split; [exact Hs |].
      assert (Run : referenceStreak (findByUser 1%nat threeDays)
                      (calendarDateOf noon_2024_01_12) 3%nat).
      { apply referenceStreak_check. vm_compute. reflexivity. }
      eapply referenceStreak_unique; eassumption.
  - destruct (General noon_2024_01_12 1%nat withGap 3%nat Hclock)
      as (stats & Hs & Href).
    + vm_compute. intros [H | [H | []]]; discriminate.
    + cbn. lia.
    + exists stats. split; [exact Hs |].
      assert (Run : referenceStreak (findByUser 1%nat withGap)
                      (calendarDateOf noon_2024_01_12) 1%nat).
      { apply referenceStreak_check. vm_compute. reflexivity. }
      eapply referenceStreak_unique; eassumption.
Qed.

(** The fixed-offset statement in the zone UTC+8, at the three-day
    scenario. *)
Lemma computeStats_streak_fixed_offset_witness :
  forall largeToString : Z -> string,
    exists stats : StatsData,
      computeStats largeToString (fixedOffset 28800000) 4 noon_2024_01_12 1%nat threeDays
      = Some (mkResponse 200 "获取成功" (Some stats)) /\
      referenceStreak (findByUser 1%nat threeDays) (calendarDateOf noon_2024_01_12)
        (streak stats).
Proof.
  intros largeToString.
  assert (Hclock : clockInRange noon_2024_01_12)
    by (vm_compute; split; [discriminate | reflexivity]).
  assert (Hfloor : ~ In "0000-01-01" (map date (findByUser 1%nat threeDays)))
    by (vm_compute; intros [H | [H | [H | []]]]; discriminate).
  assert (Hfuel : (List.length (docs threeDays) < 4)%nat) by (cbn; lia).
  exact (proj1 (computeStats_streak_fixed_offset largeToString (fixedOffset 28800000)
                  28800000 (fun _ _ => eq_refl))
           noon_2024_01_12 1%nat threeDays 4%nat Hclock Hfloor Hfuel).
Defined.

(** C1.  The streak is not the reference backward walk in a zone with
    daylight saving time.  The loop steps back with [setDate], in local
    time, and reads the date with [toISOString], in UTC.  In New York the
    cursor "2024-11-04" is 19:00 of 2024-11-03, standard time; one local day
    back is 19:00 of 2024-11-02, daylight time, which is 23:00 (UTC) of
    2024-11-02: the loop never looks at 2024-11-03.  With records on
    2024-11-01, 2024-11-02 and 2024-11-04 and none on 2024-11-03, the
    statistics of 2024-11-04 give streak 3, where the reference walk, which
    stops at the first day without a record, gives 1 (and not 3). *)
Theorem streak_skips_day_at_clock_change :
  forall largeToString : Z -> string,
    previousDate newYork2024 "2024-11-04" = Some "2024-11-02" /\
    computeStats largeToString newYork2024 4 noon_2024_11_04 1%nat acrossClockChange
    = Some (mkResponse 200 "获取成功"
              (Some (mkStatsData (mkCounts 3 2 1) (mkCounts 3 2 1) 3))) /\
    calendarDateOf noon_2024_11_04 = mkDate 2024 11 4 /\
    referenceStreak (findByUser 1%nat acrossClockChange) (mkDate 2024 11 4) 1 /\
    ~ referenceStreak (findByUser 1%nat acrossClockChange) (mkDate 2024 11 4) 3.
Proof.
  intros largeToString.
  assert (Run : referenceStreak (findByUser 1%nat acrossClockChange) (mkDate 2024 11 4) 1).
  { apply referenceStreak_check. vm_compute. reflexivity. }
  split; [vm_compute; reflexivity |].
  split; [vm_compute; reflexivity |].
  split; [vm_compute; reflexivity |].
  split; [exact Run |].
  intros H. pose proof (referenceStreak_unique _ _ _ _ Run H). discriminate.
Qed.

End StreakTheorem.

(* ===================================================================== *)
(** ** C2: the monthly list *)
(* ===================================================================== *)

Module ListMonthFacts.
Import CheckInModel CheckInRoutes SortFacts.

Lemma insertBy_Sorted (x : CheckIn) (l : list CheckIn) :
  Sorted dateLe l -> Sorted dateLe (insertBy byDateAsc x l).
Proof.
  induction l as [| y l IH]; intros S; cbn.
  - repeat constructor.
  - destruct (byDateAsc x y) eqn:E.
    + constructor; [exact S |]. constructor. exact E.
    + inversion S as [| ? ? S' Hd]; subst. constructor; [now apply IH |].
      assert (Hyx : dateLe y x).
      { unfold dateLe, byDateAsc in *.
        destruct (String.leb_total (date x) (date y)); congruence. }
      destruct l as [| z l]; cbn.
      * constructor. exact Hyx.
      * destruct (byDateAsc x z); constructor; [exact Hyx |].
        now inversion Hd.
Qed.

Lemma sortBy_StronglySorted (l : list CheckIn) :
  StronglySorted dateLe (sortBy byDateAsc l).
Proof.
  apply Sorted_StronglySorted.
  - intros a b c. unfold dateLe. apply String_leb_trans.
  - induction l as [| x l IH]; cbn; [constructor | now apply insertBy_Sorted].
Qed.

Lemma filter_partition_length {A : Type} (f : A -> bool) (l : list A) :
  (List.length (List.filter f l) + List.length (List.filter (fun a => negb (f a)) l)
   = List.length l)%nat.
Proof.
  induction l as [| a l IH]; cbn; [reflexivity |].
  destruct (f a); cbn; lia.
Qed.

Lemma findInRange_In (user : ObjectId) (lo hi : string) (db : Collection) (r : CheckIn) :
  In r (findInRange user lo hi db) <->
  In r (docs db) /\ userId r = user /\
  String.leb lo (date r) = true /\ String.leb (date r) hi = true.
Proof.
  unfold findInRange. rewrite filter_In, !andb_true_iff, Nat.eqb_eq. tauto.
Qed.

End ListMonthFacts.

Section ListMonthTheorem.
Import JsNumber CheckInModel CheckInRoutes SortFacts ListMonthFacts.

(** C2.  For every user, year and month, [listMonth] answers 200 with the
    year and the month it used (those of the query, or those of the clock
    in local time where the query gives none: [parseInt] gave NaN or 0), and
    with exactly the user's records whose date string lies, in the byte
    order of strings, between "<year>-<MM>-01" and "<year>-<MM>-31" (the
    upper bound is day 31 whatever the month), in ascending order of date,
    each with its id, date, type, isCompleted, incompleteTasks and note;
    [total] is their number and [completedCount], [incompleteCount]
    partition them; every selected date starts with "<year>-<MM>-", so no
    record of an adjacent month is included.  <year> and <MM> are the
    numbers as JavaScript prints them, the month padded to two characters.
    For February 2024, of records dated 2024-03-01, 2024-02-29, 2024-01-31
    and 2024-02-01 the answer lists those of 2024-02-01 and 2024-02-29, in
    that order. *)
Theorem listMonth_selects_month :
  (forall (largeToString : Z -> string) (LocalTZA : Z -> bool -> Z) (now : Z)
          (user : ObjectId) (queryYear queryMonth : Number) (db : Collection),
      let year :=
        match queryYear with
        | NaN | Integer 0 => Integer (JsDate.YearFromTime (now + LocalTZA now true))
        | _ => queryYear
        end in
      let month :=
        match queryMonth with
        | NaN | Integer 0 => Integer (JsDate.MonthFromTime (now + LocalTZA now true) + 1)
        | _ => queryMonth
        end in
      let monthPrefix :=
        toString largeToString year ++ "-" ++
        JsString.padStart 2 "0" (toString largeToString month) ++ "-" in
      let lo := monthPrefix ++ "01" in
      let hi := monthPrefix ++ "31" in
      exists found : list CheckIn,
        listMonth largeToString LocalTZA now user queryYear queryMonth db
        = mkResponse 200 "获取成功"
            (Some (mkMonthData year month (List.length found)
                     (List.length (List.filter (fun r => isCompleted r) found))
                     (List.length (List.filter (fun r => negb (isCompleted r)) found))
                     (List.map
                        (fun r => mkView (_id r) (date r) (type r) (isCompleted r)
                                    (incompleteTasks r) (note r))
                        found))) /\
        (forall r : CheckIn,
            In r found <->
            In r (docs db) /\ userId r = user /\
            String.leb lo (date r) = true /\ String.leb (date r) hi = true) /\
        Permutation found
          (List.filter
             (fun r => Nat.eqb (userId r) user && String.leb lo (date r) &&
                       String.leb (date r) hi)
             (docs db)) /\
        StronglySorted (fun a b => String.leb (date a) (date b) = true) found /\
        (List.length (List.filter (fun r => isCompleted r) found) +
         List.length (List.filter (fun r => negb (isCompleted r)) found)
         = List.length found)%nat /\
        (forall r : CheckIn, In r found -> String.prefix monthPrefix (date r) = true)) /\
  (forall (largeToString : Z -> string) (LocalTZA : Z -> bool -> Z) (now : Z),
      let february :=
        mkCollection
          [ StreakReference.scenarioRecord 0%nat "2024-03-01" "completed";
            StreakReference.scenarioRecord 1%nat "2024-02-29" "incomplete";
            StreakReference.scenarioRecord 2%nat "2024-01-31" "completed";
            StreakReference.scenarioRecord 3%nat "2024-02-01" "completed" ] 4%nat in
      listMonth largeToString LocalTZA now 1%nat (Integer 2024) (Integer 2) february
      = mkResponse 200 "获取成功"
          (Some (mkMonthData (Integer 2024) (Integer 2) 2 1 1
                   [ mkView 3%nat "2024-02-01" "completed" true [] "";
                     mkView 1%nat "2024-02-29" "incomplete" false [] "" ]))).
Proof.
  split; [| intros; vm_compute; reflexivity].
  intros largeToString LocalTZA now user queryYear queryMonth db year month monthPrefix lo hi.
  assert (Ey : orNumber queryYear (Integer (JsDate.getFullYear LocalTZA now)) = year).
  { unfold year, orNumber, JsDate.getFullYear, JsDate.LocalTime.
    destruct queryYear as [| negative | [| p | p]]; reflexivity. }
  assert (Em : orNumber queryMonth (Integer (JsDate.getMonth LocalTZA now + 1)) = month).
  { unfold month, orNumber, JsDate.getMonth, JsDate.LocalTime.
    destruct queryMonth as [| negative | [| p | p]]; reflexivity. }
  assert (Elo : startDate largeToString year month = lo).
  { unfold startDate, monthStr, lo, monthPrefix. now rewrite !string_app_assoc. }
  assert (Ehi : endDate largeToString year month = hi).
  { unfold endDate, monthStr, hi, monthPrefix. now rewrite !string_app_assoc. }
  set (found := monthRecords largeToString user year month db).
  assert (P : Permutation found (findInRange user lo hi db)).
  { unfold found, monthRecords. rewrite Elo, Ehi. apply sortBy_Permutation. }
  exists found. split.
  { unfold listMonth. cbv zeta. rewrite Ey, Em. reflexivity. }
  assert (Hin : forall r : CheckIn,
             In r found <->
             In r (docs db) /\ userId r = user /\
             String.leb lo (date r) = true /\ String.leb (date r) hi = true).
  { intros r. rewrite <- findInRange_In. split; apply Permutation_in; [| symmetry]; exact P. }
  split; [exact Hin |]. split; [exact P |].
  split; [apply sortBy_StronglySorted |].
  split; [apply filter_partition_length |].
  intros r Hr. apply Hin in Hr as (_ & _ & Hlo & Hhi).
  exact (between_prefix monthPrefix "01" "31" (date r) Hlo Hhi).
Qed.

(** A year of 1e21 is printed in exponent form, and selects the records
    whose date starts that way. *)
Example listMonth_year_1e21 :
  List.map view_date
    (records
       (match data (listMonth (fun _ => "1e+21") (JsDate.fixedOffset 0)
                      StreakReference.noon_2024_01_12 1%nat
                      (Integer (10 ^ 21)) (Integer 1)
                      (mkCollection
                         [ StreakReference.scenarioRecord 0%nat "1e+21-01-15" "completed";
                           StreakReference.scenarioRecord 1%nat "2024-01-15" "completed" ]
                         2%nat)) with
        | Some d => d
        | None => mkMonthData NaN NaN 0 0 0 []
        end))
  = ["1e+21-01-15"].
Proof. vm_compute. reflexivity. Qed.

End ListMonthTheorem.

(* ===================================================================== *)
(** ** C3, C4: recording a check-in *)
(* ===================================================================== *)

Module PostCheckInFacts.
Import CheckInModel CheckInRoutes.

Lemma postCheckIn_appends (now : Z) (user : ObjectId) (type : option string)
    (incompleteTasks : option (list Task)) (note date : option string) (db : Collection) :
  (code (fst (postCheckIn now user type incompleteTasks note date db)) <> 200 /\
   snd (postCheckIn now user type incompleteTasks note date db) = db) \/
  exists checkIn : CheckIn,
    docs (snd (postCheckIn now user type incompleteTasks note date db))
    = (docs db ++ [checkIn])%list /\
    completedIffKind checkIn /\
    code (fst (postCheckIn now user type incompleteTasks note date db)) = 200.
Proof.
  unfold postCheckIn.
  destruct (truthy type); cbn [negb]; [| now left].
  destruct (String.eqb (orString type "") "completed" || String.eqb (orString type "") "incomplete")
    eqn:K; cbn [negb]; [| now left].
  destruct (findOne _ _ db); [now left |].
  unfold save. cbn [CheckInModel.type CheckInModel.date CheckInModel.userId].
  unfold validType. rewrite K. cbn [negb orb].
  destruct (String.eqb (orString date (isoDate now)) ""); [now left |].
  destruct (existsb _ (docs db)); [now left |].
  right. eexists. cbn [snd fst docs code]. split; [reflexivity |]. split; reflexivity.
Qed.

Lemma step_appends (req : Request) (db : Collection) :
  exists new : list CheckIn,
    docs (step req db) = (docs db ++ new)%list /\ Forall completedIffKind new.
Proof.
  destruct req as [now user kind tasks note date | | |]; cbn [step];
    try (exists []; split; [now rewrite app_nil_r | constructor]).
  destruct (postCheckIn_appends now user kind tasks note date db)
    as [[_ E] | (c & E & I & _)].
  - rewrite E. exists []. split; [now rewrite app_nil_r | constructor].
  - exists [c]. split; [exact E | now repeat constructor].
Qed.

End PostCheckInFacts.

Section PostCheckInTheorems.
Import CheckInModel CheckInRoutes StreakReference PostCheckInFacts.

(** C4.  A record created by [postCheckIn] has [isCompleted] true exactly
    when its kind is 'completed'; every request leaves the stored records in
    place and at most appends records with that property (no record is
    updated or removed); so every record reachable from the empty collection
    by any sequence of requests has the property. *)
Theorem isCompleted_iff_completed_kind :
  (forall (now : Z) (user : ObjectId) (type : option string)
          (incompleteTasks : option (list Task)) (note date : option string)
          (db : Collection),
      code (fst (postCheckIn now user type incompleteTasks note date db)) = 200 ->
      exists checkIn : CheckIn,
        docs (snd (postCheckIn now user type incompleteTasks note date db))
        = (docs db ++ [checkIn])%list /\
        (isCompleted checkIn = true <-> CheckInModel.type checkIn = "completed")) /\
  (forall (req : Request) (db : Collection),
      exists new : list CheckIn,
        docs (step req db) = (docs db ++ new)%list /\ Forall completedIffKind new) /\
  (forall (reqs : list Request) (r : CheckIn),
      In r (docs (run reqs CheckInModel.empty)) ->
      (isCompleted r = true <-> CheckInModel.type r = "completed")).
Proof.
  assert (Iff : forall r, completedIffKind r ->
                          (isCompleted r = true <-> CheckInModel.type r = "completed")).
  { intros r H. unfold completedIffKind in H. rewrite H. apply String.eqb_eq. }
  split; [| split].
  - intros now user type incompleteTasks note date db Hcode.
    destruct (postCheckIn_appends now user type incompleteTasks note date db)
      as [[N _] | (c & E & I & _)].
    + contradiction.
    + exists c. split; [exact E | now apply Iff].
  - apply step_appends.
  - intros reqs r.
    assert (Inv : forall reqs db, Forall completedIffKind (docs db) ->
                                  Forall completedIffKind (docs (run reqs db))).
    { clear. induction reqs as [| req reqs IH]; intros db H; [exact H |].
      cbn [run List.fold_left]. apply IH.
      destruct (step_appends req db) as (new & E & N). rewrite E.
      apply Forall_app. now split. }
    intros Hin. apply Iff.
    specialize (Inv reqs CheckInModel.empty (List.Forall_nil _)).
    rewrite List.Forall_forall in Inv. now apply Inv.
Qed.

(** C3 (amended).  If a record already exists for the (user, date) pair of
    a [postCheckIn] call, the call answers with code 400 and leaves the
    collection as it was: no record is created, the count and the stored
    records are unchanged.  With a valid kind ('completed' or 'incomplete')
    the answer is the duplicate check-in error, naming the existing record;
    with a missing or any other kind it is the error of the kind
    validation, which runs before the lookup. *)
Theorem duplicate_checkin_rejected :
  forall (now : Z) (user : ObjectId) (type : option string)
         (incompleteTasks : option (list Task)) (note date : option string)
         (db : Collection) (existing : CheckIn),
    findOne user (orString date (isoDate now)) db = Some existing ->
    let result := postCheckIn now user type incompleteTasks note date db in
    snd result = db /\
    code (fst result) = 400 /\
    (type = Some "completed" \/ type = Some "incomplete" ->
     fst result = duplicateCheckIn existing) /\
    (type <> Some "completed" -> type <> Some "incomplete" ->
     data (fst result) = None /\
     (message (fst result) = "签到类型不能为空（completed 或 incomplete）" \/
      message (fst result) = "签到类型必须是 completed（完成）或 incomplete（手欠）")).
Proof.
  intros now user type incompleteTasks note date db existing Hex result.
  subst result. unfold postCheckIn.
  destruct type as [t |]; cbn [truthy negb].
  - destruct (String.eqb_spec t "") as [-> | Hne]; cbn [negb].
    + cbn [fst snd code data message]. repeat split; auto.
      intros [H | H]; discriminate.
    + assert (Eo : orString (Some t) "" = t).
      { unfold orString. destruct (String.eqb_spec t ""); [contradiction | reflexivity]. }
      rewrite Eo.
      destruct (String.eqb_spec t "completed") as [-> | Hc];
        [| destruct (String.eqb_spec t "incomplete") as [-> | Hi]];
        cbn [orb negb]; rewrite ?Hex; cbn [fst snd code data message];
        repeat split; auto; try congruence.
      intros [H | H]; congruence.
  - cbn [fst snd code data message]. repeat split; auto.
    intros [H | H]; discriminate.
Qed.

(** The duplicate error at the three-day scenario. *)
Lemma duplicate_checkin_rejected_witness :
  findOne 1%nat (orString (Some "2024-01-12") (isoDate noon_2024_01_12)) threeDays
  = Some (scenarioRecord 2%nat "2024-01-12" "completed") /\
  fst (postCheckIn noon_2024_01_12 1%nat (Some "incomplete") None None
         (Some "2024-01-12") threeDays)
  = duplicateCheckIn (scenarioRecord 2%nat "2024-01-12" "completed").
Proof.
  assert (H : findOne 1%nat (orString (Some "2024-01-12") (isoDate noon_2024_01_12)) threeDays
              = Some (scenarioRecord 2%nat "2024-01-12" "completed")) by reflexivity.
  split; [exact H |].
  exact (proj1 (proj2 (proj2
    (duplicate_checkin_rejected noon_2024_01_12 1%nat (Some "incomplete") None None
       (Some "2024-01-12") threeDays _ H))) (or_intror eq_refl)).
Defined.

(** C3 as stated fails: on a date that has a record, a call with the kind
    'done' is answered with the kind validation error, not with the
    duplicate check-in error. *)
Lemma duplicate_checkin_invalid_kind :
  findOne 1%nat "2024-01-12" threeDays
  = Some (scenarioRecord 2%nat "2024-01-12" "completed") /\
  postCheckIn noon_2024_01_12 1%nat (Some "done") None None (Some "2024-01-12") threeDays
  = (mkResponse 400 "签到类型必须是 completed（完成）或 incomplete（手欠）" None, threeDays) /\
  fst (postCheckIn noon_2024_01_12 1%nat (Some "done") None None (Some "2024-01-12")
         threeDays)
  <> duplicateCheckIn (scenarioRecord 2%nat "2024-01-12" "completed").
Proof.
  split; [reflexivity |]. split; [reflexivity |].
  cbv. discriminate.
Qed.

End PostCheckInTheorems.

(* ===================================================================== *)
(** ** The settings store keeps its items well-formed *)
(* ===================================================================== *)

Module SettingsFacts.
Import JsString TrimFacts UserSettingsModel SettingsRoutes Invariants.

Lemma castItem_good (id : ObjectId) (p : PlainItem) : nonBlank p -> goodItem (castItem id p).
Proof.
  intros H. unfold goodItem, castItem; cbn [title content].
  split; [exact H |]. split; apply trim_idempotent.
Qed.

Lemma castItems_good (ps : list PlainItem) :
  Forall nonBlank ps -> forall next : ObjectId, Forall goodItem (castItems next ps).
Proof.
  induction 1 as [| p ps Hp _ IH]; intros next; cbn [castItems]; constructor.
  - now apply castItem_good.
  - apply IH.
Qed.

Lemma plainItems_nonBlank (items : list BodyItem) : Forall nonBlank (plainItems items).
Proof.
  unfold plainItems. apply List.Forall_forall. intros p Hp.
  apply filter_In in Hp as [_ Hp]. now apply nonEmpty_true in Hp.
Qed.

Lemma defaults_nonBlank : Forall nonBlank DEFAULT_HOMEWORK /\ Forall nonBlank DEFAULT_PLANS.
Proof.
  split; repeat constructor; unfold nonBlank; vm_compute; discriminate.
Qed.

Lemma goodItem_valid (i : TradingItem) : goodItem i -> validItem i = true.
Proof. intros (H & _). unfold validItem. now apply nonEmpty_true. Qed.

Lemma goodSettings_valid (s : UserSettings) : goodSettings s -> validSettings s = true.
Proof.
  intros [H P]. unfold validSettings. apply andb_true_iff.
  split; apply forallb_forall; intros i Hi; apply goodItem_valid;
    [rewrite List.Forall_forall in H; now apply H | rewrite List.Forall_forall in P; now apply P].
Qed.

Lemma save_good (now : Z) (s : UserSettings) (next : ObjectId) (st : Store) :
  goodSettings s ->
  save now s next st
  = Some (stamped now s, mkStore (<[userId s := stamped now s]> (docs st)) next).
Proof. intros G. unfold save. now rewrite (goodSettings_valid s G). Qed.

Lemma goodStore_insert (now : Z) (s : UserSettings) (next : ObjectId) (st : Store) :
  goodStore st -> goodSettings s ->
  goodStore (mkStore (<[userId s := stamped now s]> (docs st)) next).
Proof.
  intros GS G u s' H. cbn [docs] in H.
  destruct (decide (userId s = u)) as [<- | NE].
  - rewrite lookup_insert_eq in H. injection H as <-. split; [reflexivity | exact G].
  - rewrite lookup_insert_ne in H by exact NE. now apply GS.
Qed.

Lemma newUserSettings_good (now : Z) (user next : ObjectId) :
  goodSettings (fst (newUserSettings now user next)) /\
  userId (fst (newUserSettings now user next)) = user.
Proof.
  destruct defaults_nonBlank as [H P].
  unfold newUserSettings. cbn [fst userId]. split; [| reflexivity].
  split; cbn [tradingHomework tradingPlans]; now apply castItems_good.
Qed.

Lemma findOrNew_good (now : Z) (user : ObjectId) (st : Store) :
  goodStore st ->
  goodSettings (fst (findOrNew now user st)) /\ userId (fst (findOrNew now user st)) = user.
Proof.
  intros GS. unfold findOrNew, findOne.
  destruct (docs st !! user) as [s |] eqn:E.
  - destruct (GS user s E) as [K G]. cbn [fst]. now split.
  - apply newUserSettings_good.
Qed.

Lemma setField_good (f : Field) (items : list TradingItem) (s : UserSettings) :
  goodSettings s -> Forall goodItem items -> goodSettings (setField f items s).
Proof. intros [H P] I. destruct f; split; cbn; assumption. Qed.

Lemma getField_good (f : Field) (s : UserSettings) :
  goodSettings s -> Forall goodItem (getField f s).
Proof. intros [H P]. now destruct f. Qed.

Lemma userId_setField (f : Field) (items : list TradingItem) (s : UserSettings) :
  userId (setField f items s) = userId s.
Proof. now destruct f. Qed.

Lemma getField_setField (f : Field) (items : list TradingItem) (s : UserSettings) :
  getField f (setField f items s) = items.
Proof. now destruct f. Qed.

Lemma blankTitle_false (title : option string) :
  blankTitle title = false -> trim (trim (orString title "")) <> "".
Proof.
  unfold blankTitle. intros H. apply orb_false_iff in H as [_ H].
  apply negb_false_iff, nonEmpty_true in H. now rewrite trim_idempotent.
Qed.

Lemma setItem_good (id : ObjectId) (t c : string) (items : list TradingItem) :
  trim t <> "" -> Forall goodItem items -> Forall goodItem (setItem id t c items).
Proof.
  intros Ht H. unfold setItem. rewrite List.Forall_forall in *. intros j Hj.
  apply in_map_iff in Hj as (i & <- & Hi).
  destruct (Nat.eqb (_id i) id); [| now apply H].
  split; [exact Ht |]. split; apply trim_idempotent.
Qed.

Lemma pullItem_good (id : ObjectId) (items : list TradingItem) :
  Forall goodItem items -> Forall goodItem (pullItem id items).
Proof.
  intros H. unfold pullItem. rewrite List.Forall_forall in *. intros i Hi.
  apply filter_In in Hi as [Hi _]. now apply H.
Qed.

Lemma putList_result (f : Field) (now : Z) (user : ObjectId) (items : list BodyItem)
    (st : Store) :
  goodStore st ->
  let doc := setField f (castItems (snd (findOrNew now user st)) (plainItems items))
               (fst (findOrNew now user st)) in
  putList f now user (Some items) st
  = (mkResponse 200 (fieldName f ++ "保存成功")
       (Some (ItemList f (getField f (stamped now doc)))),
     mkStore (<[user := stamped now doc]> (docs st))
       (snd (findOrNew now user st) + List.length (plainItems items))%nat) /\
  goodSettings doc.
Proof.
  intros GS doc.
  destruct (findOrNew_good now user st GS) as [G K].
  assert (Gd : goodSettings doc).
  { apply setField_good; [exact G |]. apply castItems_good, plainItems_nonBlank. }
  split; [| exact Gd].
  unfold putList. destruct (findOrNew now user st) as [settings next] eqn:E.
  cbn [fst snd] in *. fold doc. rewrite (save_good now doc _ st Gd).
  replace (userId doc) with user; [reflexivity |].
  unfold doc. now rewrite userId_setField.
Qed.

Lemma getSettings_good (now : Z) (user : ObjectId) (st : Store) :
  goodStore st -> goodStore (snd (getSettings now user st)).
Proof.
  intros GS. unfold getSettings, findOne.
  destruct (docs st !! user) as [s |] eqn:E.
  - destruct (GS user s E) as [K G].
    set (s1 := if Nat.eqb (List.length (tradingHomework s)) 0
               then setField Homework (castItems (nextId st) DEFAULT_HOMEWORK) s else s).
    set (n1 := if Nat.eqb (List.length (tradingHomework s)) 0
               then (nextId st + List.length DEFAULT_HOMEWORK)%nat else nextId st).
    set (s2 := if Nat.eqb (List.length (tradingPlans s)) 0
               then setField Plans (castItems n1 DEFAULT_PLANS) s1 else s1).
    assert (G1 : goodSettings s1).
    { unfold s1. destruct (Nat.eqb (List.length (tradingHomework s)) 0); [| exact G].
      apply setField_good; [exact G |]. apply castItems_good, defaults_nonBlank. }
    assert (G2 : goodSettings s2).
    { unfold s2. destruct (Nat.eqb (List.length (tradingPlans s)) 0); [| exact G1].
      apply setField_good; [exact G1 |]. apply castItems_good, defaults_nonBlank. }
    cbv zeta. fold s1 n1 s2.
    destruct (_ || _); [| exact GS].
    rewrite (save_good now s2 _ st G2). cbn [snd]. now apply goodStore_insert.
  - destruct (newUserSettings_good now user (nextId st)) as [G K].
    destruct (newUserSettings now user (nextId st)) as [s next]. cbn [fst] in *.
    rewrite (save_good now s next st G). cbn [snd]. now apply goodStore_insert.
Qed.

Lemma putPrinciples_good (now : Z) (user : ObjectId)
    (preset : option (list PresetPrinciple)) (custom : option (list string)) (st : Store) :
  goodStore st -> goodStore (snd (putPrinciples now user preset custom st)).
Proof.
  intros GS. unfold putPrinciples.
  destruct (findOrNew_good now user st GS) as [G K].
  destruct (findOrNew now user st) as [s next]. cbn [fst] in *.
  match goal with |- context [save now ?d next st] => assert (Gd : goodSettings d) end.
  { destruct G as [H P]. destruct preset, custom; split; cbn; assumption. }
  rewrite (save_good now _ next st Gd). cbn [snd]. now apply goodStore_insert.
Qed.

Lemma postItem_good (f : Field) (now : Z) (user : ObjectId) (title content : option string)
    (st : Store) :
  goodStore st -> goodStore (snd (postItem f now user title content st)).
Proof.
  intros GS. unfold postItem.
  destruct (blankTitle title) eqn:B; [exact GS |].
  destruct (findOrNew_good now user st GS) as [G K].
  destruct (findOrNew now user st) as [s next]. cbn [fst] in *.
  match goal with |- context [save now ?d (S next) st] => assert (Gd : goodSettings d) end.
  { apply setField_good; [exact G |]. apply Forall_app. split.
    - now apply getField_good.
    - constructor; [| constructor]. apply castItem_good. unfold nonBlank. cbn [plainTitle].
      now apply blankTitle_false. }
  rewrite (save_good now _ (S next) st Gd). cbn [snd]. now apply goodStore_insert.
Qed.

Lemma putItem_good (f : Field) (now : Z) (user id : ObjectId) (title content : option string)
    (st : Store) :
  goodStore st -> goodStore (snd (putItem f now user id title content st)).
Proof.
  intros GS. unfold putItem, findOne.
  destruct (blankTitle title) eqn:B; [exact GS |].
  destruct (docs st !! user) as [s |] eqn:E; [| exact GS].
  destruct (GS user s E) as [K G].
  destruct (findItem id (getField f s)); [| exact GS].
  match goal with |- context [save now ?d (nextId st) st] => assert (Gd : goodSettings d) end.
  { apply setField_good; [exact G |]. apply setItem_good.
    - now apply blankTitle_false.
    - now apply getField_good. }
  rewrite (save_good now _ (nextId st) st Gd). cbn [snd]. now apply goodStore_insert.
Qed.

Lemma deleteItem_good (f : Field) (now : Z) (user id : ObjectId) (st : Store) :
  goodStore st -> goodStore (snd (deleteItem f now user id st)).
Proof.
  intros GS. unfold deleteItem, findOne.
  destruct (docs st !! user) as [s |] eqn:E; [| exact GS].
  destruct (GS user s E) as [K G].
  destruct (findItem id (getField f s)); [| exact GS].
  match goal with |- context [save now ?d (nextId st) st] => assert (Gd : goodSettings d) end.
  { apply setField_good; [exact G |]. apply pullItem_good. now apply getField_good. }
  rewrite (save_good now _ (nextId st) st Gd). cbn [snd]. now apply goodStore_insert.
Qed.

Lemma handle_good (req : Request) (st : Store) :
  goodStore st -> goodStore (snd (handle req st)).
Proof.
  intros GS. destruct req as [now user | now user preset custom | f now user items
                             | f now user t c | f now user id t c | f now user id];
    cbn [handle].
  - now apply getSettings_good.
  - now apply putPrinciples_good.
  - destruct items as [items |]; [| exact GS].
    destruct (putList_result f now user items st GS) as [E G]. rewrite E. cbn [snd].
    pose proof (goodStore_insert now _ (snd (findOrNew now user st)
                                        + List.length (plainItems items))%nat st GS G) as H.
    replace (userId _) with user in H; [exact H |].
    rewrite userId_setField. symmetry. apply findOrNew_good, GS.
  - now apply postItem_good.
  - now apply putItem_good.
  - now apply deleteItem_good.
Qed.

Lemma run_good (reqs : list Request) (st : Store) : goodStore st -> goodStore (run reqs st).
Proof.
  revert st. induction reqs as [| req reqs IH]; intros st GS; [exact GS |].
  cbn [run List.fold_left]. apply IH. now apply handle_good.
Qed.

Lemma empty_good : goodStore UserSettingsModel.empty.
Proof. intros u s H. cbn in H. rewrite lookup_empty in H. discriminate. Qed.

Lemma plainOf_castItems (next : ObjectId) (ps : list PlainItem) :
  List.map plainOf (castItems next ps)
  = List.map (fun p => mkPlain (trim (plainTitle p)) (trim (plainContent p))) ps.
Proof.
  revert next. induction ps as [| p ps IH]; intros next; [reflexivity |].
  cbn [castItems List.map]. now rewrite IH.
Qed.

Lemma plainOf_plainItems (next : ObjectId) (items : list BodyItem) :
  List.map plainOf (castItems next (plainItems items)) = submitted items.
Proof.
  rewrite plainOf_castItems. unfold plainItems, submitted.
  induction items as [| b items IH]; [reflexivity |].
  cbn [List.map List.filter plainTitle].
  destruct (nonEmpty (trim (orString (bodyTitle b) ""))); cbn [List.map]; now rewrite IH.
Qed.

Lemma goodItem_claim (i : TradingItem) :
  goodItem i -> trim (title i) <> "" /\ trim (title i) = title i /\ trim (content i) = content i.
Proof. intros (N & T & C). rewrite T. auto. Qed.

Lemma defaults_cast (next : ObjectId) :
  List.map plainOf (castItems next DEFAULT_HOMEWORK) = DEFAULT_HOMEWORK /\
  List.map plainOf (castItems next DEFAULT_PLANS) = DEFAULT_PLANS.
Proof. rewrite !plainOf_castItems. split; vm_compute; reflexivity. Qed.

End SettingsFacts.

(* ===================================================================== *)
(** ** The daily store keeps its items well-formed *)
(* ===================================================================== *)

Module DailyFacts.
Import JsString TrimFacts UserSettingsModel DailyRecordModel DailyRoutes Invariants SettingsFacts.

Lemma goodRecord_valid (r : DailyRecord) : goodRecord r -> validRecord r = true.
Proof.
  intros [D P]. unfold validRecord. apply andb_true_iff. split.
  - now apply nonEmpty_true.
  - apply forallb_forall. intros i Hi. apply goodItem_valid.
    rewrite List.Forall_forall in P. now apply P.
Qed.

Lemma saveDaily_good (now : Z) (r : DailyRecord) (next : ObjectId)
    (st : DailyRecordModel.Store) :
  goodRecord r ->
  DailyRecordModel.save now r next st
  = Some (DailyRecordModel.stamped now r,
          DailyRecordModel.mkStore
            (<[(DailyRecordModel.userId r, date r) := DailyRecordModel.stamped now r]>
               (DailyRecordModel.docs st)) next).
Proof. intros G. unfold DailyRecordModel.save. now rewrite (goodRecord_valid r G). Qed.

Lemma goodDaily_insert (now : Z) (r : DailyRecord) (next : ObjectId)
    (st : DailyRecordModel.Store) :
  goodDaily st -> goodRecord r ->
  goodDaily (DailyRecordModel.mkStore
               (<[(DailyRecordModel.userId r, date r) := DailyRecordModel.stamped now r]>
                  (DailyRecordModel.docs st)) next).
Proof.
  intros GS G k r' H. cbn [DailyRecordModel.docs] in H.
  destruct (decide ((DailyRecordModel.userId r, date r) = k)) as [<- | NE].
  - rewrite lookup_insert_eq in H. injection H as <-. split; [reflexivity | exact G].
  - rewrite lookup_insert_ne in H by exact NE. now apply GS.
Qed.

Lemma isDateFormat_nonEmpty (d : string) : isDateFormat d = true -> d <> "".
Proof. intros H ->. discriminate. Qed.

Lemma findOrNewDaily_good (now : Z) (user : ObjectId) (d : string)
    (st : DailyRecordModel.Store) :
  goodDaily st -> d <> "" ->
  goodRecord (DailyRoutes.findOrNew now user d st) /\
  DailyRecordModel.userId (DailyRoutes.findOrNew now user d st) = user /\
  date (DailyRoutes.findOrNew now user d st) = d.
Proof.
  intros GS Hd. unfold DailyRoutes.findOrNew, DailyRecordModel.findOne.
  destruct (DailyRecordModel.docs st !! (user, d)) as [r |] eqn:E.
  - destruct (GS _ r E) as [K G]. injection K as K1 K2.
    split; [exact G | split; assumption].
  - split; [split; [exact Hd | constructor] | split; reflexivity].
Qed.

Lemma setPlans_good (items : list PlanItem) (r : DailyRecord) :
  goodRecord r -> Forall goodItem items -> goodRecord (setPlans items r).
Proof. intros [D P] I. split; assumption. Qed.

Lemma setReflection_good (s : string) (r : DailyRecord) :
  goodRecord r -> goodRecord (setReflection s r).
Proof. intros [D P]. split; assumption. Qed.

Lemma putDaily_result (now : Z) (user : ObjectId) (d : string)
    (plans : option (list SettingsRoutes.BodyItem)) (refl : option string)
    (st : DailyRecordModel.Store) :
  goodDaily st -> isDateFormat d = true ->
  exists doc : DailyRecord,
    goodRecord doc /\
    DailyRecordModel.userId doc = user /\ date doc = d /\
    tradingPlans doc
    = match plans with
      | Some items => castItems (DailyRecordModel.nextId st) (SettingsRoutes.plainItems items)
      | None => tradingPlans (DailyRoutes.findOrNew now user d st)
      end /\
    putDaily now user d plans refl st
    = (mkResponse 200 "保存成功"
         (Some (DayRecord d (tradingPlans doc) (reflection doc) None)),
       DailyRecordModel.mkStore
         (<[(user, d) := DailyRecordModel.stamped now doc]> (DailyRecordModel.docs st))
         (DailyRecordModel.nextId st
          + List.length (match plans with
                         | Some items => SettingsRoutes.plainItems items
                         | None => []
                         end))%nat).
Proof.
  intros GS Hd. unfold putDaily. rewrite Hd. cbn [negb].
  destruct (findOrNewDaily_good now user d st GS (isDateFormat_nonEmpty d Hd))
    as (G & K & D).
  set (r0 := DailyRoutes.findOrNew now user d st) in *.
  set (r1 := match plans with
             | Some _ => setPlans (castItems (DailyRecordModel.nextId st)
                           (match plans with
                            | Some items => SettingsRoutes.plainItems items
                            | None => []
                            end)) r0
             | None => r0
             end).
  set (r2 := match refl with
             | Some s => setReflection (trim s) r1
             | None => r1
             end).
  assert (G1 : goodRecord r1).
  { unfold r1. destruct plans as [items |]; [| exact G].
    apply setPlans_good; [exact G |]. apply castItems_good, plainItems_nonBlank. }
  assert (G2 : goodRecord r2).
  { unfold r2. destruct refl; [now apply setReflection_good | exact G1]. }
  assert (K2 : DailyRecordModel.userId r2 = user /\ date r2 = d).
  { unfold r2, r1. destruct refl, plans; cbn; now split. }
  exists r2. split; [exact G2 |]. split; [apply K2 |]. split; [apply K2 |].
  split.
  { unfold r2, r1. destruct refl, plans; reflexivity. }
  cbv zeta. fold r0. fold r1. fold r2.
  rewrite (saveDaily_good now r2 _ st G2).
  change (date (DailyRecordModel.stamped now r2)) with (date r2).
  destruct K2 as [-> ->]. reflexivity.
Qed.

Lemma postPlan_good (now : Z) (user : ObjectId) (d : string) (title content : option string)
    (st : DailyRecordModel.Store) :
  goodDaily st -> goodDaily (snd (postPlan now user d title content st)).
Proof.
  intros GS. unfold postPlan.
  destruct (isDateFormat d) eqn:Hd; cbn [negb]; [| exact GS].
  destruct (SettingsRoutes.blankTitle title) eqn:B; [exact GS |].
  destruct (findOrNewDaily_good now user d st GS (isDateFormat_nonEmpty d Hd))
    as (G & K & D).
  match goal with |- context [DailyRecordModel.save now ?r ?n st] =>
    assert (Gd : goodRecord r) end.
  { apply setPlans_good; [exact G |]. apply Forall_app. split; [apply G |].
    constructor; [| constructor]. apply castItem_good. unfold nonBlank. cbn [plainTitle].
    now apply blankTitle_false. }
  rewrite (saveDaily_good now _ _ st Gd). cbn [snd]. now apply goodDaily_insert.
Qed.

Lemma putPlan_good (now : Z) (user : ObjectId) (d : string) (id : ObjectId)
    (title content : option string) (st : DailyRecordModel.Store) :
  goodDaily st -> goodDaily (snd (putPlan now user d id title content st)).
Proof.
  intros GS. unfold putPlan, DailyRecordModel.findOne.
  destruct (SettingsRoutes.blankTitle title) eqn:B; [exact GS |].
  destruct (DailyRecordModel.docs st !! (user, d)) as [r |] eqn:E; [| exact GS].
  destruct (GS _ r E) as [K G].
  destruct (findItem id (tradingPlans r)); [| exact GS].
  match goal with |- context [DailyRecordModel.save now ?r ?n st] =>
    assert (Gd : goodRecord r) end.
  { apply setPlans_good; [exact G |]. apply setItem_good.
    - now apply blankTitle_false.
    - apply G. }
  rewrite (saveDaily_good now _ _ st Gd). cbn [snd]. now apply goodDaily_insert.
Qed.

Lemma deletePlan_good (now : Z) (user : ObjectId) (d : string) (id : ObjectId)
    (st : DailyRecordModel.Store) :
  goodDaily st -> goodDaily (snd (deletePlan now user d id st)).
Proof.
  intros GS. unfold deletePlan, DailyRecordModel.findOne.
  destruct (DailyRecordModel.docs st !! (user, d)) as [r |] eqn:E; [| exact GS].
  destruct (GS _ r E) as [K G].
  destruct (findItem id (tradingPlans r)); [| exact GS].
  match goal with |- context [DailyRecordModel.save now ?r ?n st] =>
    assert (Gd : goodRecord r) end.
  { apply setPlans_good; [exact G |]. apply pullItem_good, G. }
  rewrite (saveDaily_good now _ _ st Gd). cbn [snd]. now apply goodDaily_insert.
Qed.

Lemma putReflection_good (now : Z) (user : ObjectId) (d : string) (refl : option string)
    (st : DailyRecordModel.Store) :
  goodDaily st -> goodDaily (snd (putReflection now user d refl st)).
Proof.
  intros GS. unfold putReflection.
  destruct (isDateFormat d) eqn:Hd; cbn [negb]; [| exact GS].
  destruct (findOrNewDaily_good now user d st GS (isDateFormat_nonEmpty d Hd))
    as (G & K & D).
  match goal with |- context [DailyRecordModel.save now ?r ?n st] =>
    assert (Gd : goodRecord r) end.
  { now apply setReflection_good. }
  rewrite (saveDaily_good now _ _ st Gd). cbn [snd]. now apply goodDaily_insert.
Qed.

Lemma handleDaily_good (req : DailyRoutes.Request) (st : DailyRecordModel.Store) :
  goodDaily st -> goodDaily (snd (DailyRoutes.handle req st)).
Proof.
  intros GS. destruct req as [user d | now user d plans refl | now user d t c
                             | now user d id t c | now user d id | now user d refl];
    cbn [DailyRoutes.handle].
  - exact GS.
  - destruct (isDateFormat d) eqn:Hd.
    + destruct (putDaily_result now user d plans refl st GS Hd)
        as (doc & G & K & D & _ & E).
      rewrite E. cbn [snd].
      pose proof (goodDaily_insert now doc
                    (DailyRecordModel.nextId st
                     + List.length (match plans with
                                    | Some items => SettingsRoutes.plainItems items
                                    | None => []
                                    end))%nat st GS G) as H.
      now rewrite K, D in H.
    + unfold putDaily. rewrite Hd. exact GS.
  - now apply postPlan_good.
  - now apply putPlan_good.
  - now apply deletePlan_good.
  - now apply putReflection_good.
Qed.

Lemma runDaily_good (reqs : list DailyRoutes.Request) (st : DailyRecordModel.Store) :
  goodDaily st -> goodDaily (DailyRoutes.run reqs st).
Proof.
  revert st. induction reqs as [| req reqs IH]; intros st GS; [exact GS |].
  cbn [DailyRoutes.run List.fold_left]. apply IH. now apply handleDaily_good.
Qed.

Lemma emptyDaily_good : goodDaily DailyRecordModel.empty.
Proof. intros k r H. cbn in H. rewrite lookup_empty in H. discriminate. Qed.

End DailyFacts.

(* ===================================================================== *)
(** ** C7: stored titles are trimmed and not empty *)
(* ===================================================================== *)

Section ItemTheorems.
Import JsString TrimFacts UserSettingsModel SettingsRoutes Invariants SettingsFacts DailyFacts.

(** C7.  After any sequence of requests to the settings routes and to the
    daily routes, every stored homework item, plan item and daily plan item
    has a title that is not empty after trimming, and its title and content
    are stored trimmed.  A list write ([putList] on the homework or the
    plans, [putDaily] with an array of plans) succeeds and stores exactly
    the submitted items without those whose title is empty or blank, with
    title and content trimmed. *)
Theorem stored_titles_trimmed_nonempty :
  (forall (reqs : list SettingsRoutes.Request) (u : ObjectId) (s : UserSettings)
          (i : TradingItem),
      UserSettingsModel.docs (SettingsRoutes.run reqs UserSettingsModel.empty) !! u = Some s ->
      In i (tradingHomework s) \/ In i (tradingPlans s) ->
      trim (title i) <> "" /\ trim (title i) = title i /\ trim (content i) = content i) /\
  (forall (reqs : list DailyRoutes.Request) (k : ObjectId * string)
          (r : DailyRecordModel.DailyRecord) (i : TradingItem),
      DailyRecordModel.docs (DailyRoutes.run reqs DailyRecordModel.empty) !! k = Some r ->
      In i (DailyRecordModel.tradingPlans r) ->
      trim (title i) <> "" /\ trim (title i) = title i /\ trim (content i) = content i) /\
  (forall (reqs : list SettingsRoutes.Request) (f : Field) (now : Z) (user : ObjectId)
          (items : list BodyItem),
      let st := SettingsRoutes.run reqs UserSettingsModel.empty in
      exists s : UserSettings,
        code (fst (putList f now user (Some items) st)) = 200 /\
        UserSettingsModel.docs (snd (putList f now user (Some items) st)) !! user = Some s /\
        List.map plainOf (getField f s) = submitted items) /\
  (forall (reqs : list DailyRoutes.Request) (now : Z) (user : ObjectId) (date : string)
          (items : list BodyItem) (reflection : option string),
      DailyRoutes.isDateFormat date = true ->
      let st := DailyRoutes.run reqs DailyRecordModel.empty in
      exists r : DailyRecordModel.DailyRecord,
        code (fst (DailyRoutes.putDaily now user date (Some items) reflection st)) = 200 /\
        DailyRecordModel.docs
          (snd (DailyRoutes.putDaily now user date (Some items) reflection st))
          !! (user, date) = Some r /\
        List.map plainOf (DailyRecordModel.tradingPlans r) = submitted items).
Proof.
  split; [| split; [| split]].
  - intros reqs u s i Hs Hi.
    destruct (run_good reqs _ empty_good u s Hs) as [_ [H P]].
    apply goodItem_claim. rewrite List.Forall_forall in H, P. destruct Hi; auto.
  - intros reqs k r i Hr Hi.
    destruct (runDaily_good reqs _ emptyDaily_good k r Hr) as [_ [_ P]].
    apply goodItem_claim. rewrite List.Forall_forall in P. auto.
  - intros reqs f now user items st.
    destruct (putList_result f now user items st (run_good reqs _ empty_good)) as [E _].
    rewrite E. cbn [fst snd code UserSettingsModel.docs].
    eexists. split; [reflexivity |]. split; [apply lookup_insert_eq |].
    replace (getField f (stamped now _)) with
      (castItems (snd (findOrNew now user st)) (plainItems items)).
    + apply plainOf_plainItems.
    + destruct f; reflexivity.
  - intros reqs now user date items reflection Hd st.
    destruct (putDaily_result now user date (Some items) reflection st
                (runDaily_good reqs _ emptyDaily_good) Hd) as (doc & _ & _ & _ & P & E).
    rewrite E. cbn [fst snd code DailyRecordModel.docs].
    eexists. split; [reflexivity |]. split; [apply lookup_insert_eq |].
    cbn [DailyRecordModel.stamped DailyRecordModel.tradingPlans]. rewrite P. apply plainOf_plainItems.
Qed.

(** The list write of C7 on a daily record, with a blank title among the
    submitted items. *)
Lemma stored_titles_trimmed_nonempty_witness :
  DailyRoutes.isDateFormat "2024-01-12" = true /\
  exists r : DailyRecordModel.DailyRecord,
    code (fst (DailyRoutes.putDaily 0 1%nat "2024-01-12"
                 (Some [mkBodyItem (Some " 买点 ") None; mkBodyItem (Some "  ") (Some "x")])
                 None (DailyRoutes.run [] DailyRecordModel.empty))) = 200 /\
    DailyRecordModel.docs
      (snd (DailyRoutes.putDaily 0 1%nat "2024-01-12"
              (Some [mkBodyItem (Some " 买点 ") None; mkBodyItem (Some "  ") (Some "x")])
              None (DailyRoutes.run [] DailyRecordModel.empty)))
      !! (1%nat, "2024-01-12") = Some r /\
    List.map plainOf (DailyRecordModel.tradingPlans r)
    = submitted [mkBodyItem (Some " 买点 ") None; mkBodyItem (Some "  ") (Some "x")].
Proof.
  split; [reflexivity |].
  exact (proj2 (proj2 (proj2 stored_titles_trimmed_nonempty)) [] 0 1%nat "2024-01-12"
           [mkBodyItem (Some " 买点 ") None; mkBodyItem (Some "  ") (Some "x")] None eq_refl).
Defined.

Example submitted_drops_blank :
  submitted [mkBodyItem (Some " 买点 ") None; mkBodyItem (Some "  ") (Some "x")]
  = [mkPlain "买点" ""].
Proof. vm_compute. reflexivity. Qed.

End ItemTheorems.

(* ===================================================================== *)
(** ** C8: default homework and plans *)
(* ===================================================================== *)

Section DefaultsTheorems.
Import JsString TrimFacts UserSettingsModel SettingsRoutes Invariants SettingsFacts.

(** C8.  For a user without a settings document, [getSettings] creates
    the document and answers with exactly the three default homework items
    and the three default plan items (and stores them).  For a stored
    document of a reachable store whose homework list or plan list is
    empty, the defaults are written into the empty list (a list that is not
    empty is kept), stored, and returned. *)
Theorem getSettings_defaults :
  (forall (now : Z) (user : ObjectId) (st : Store),
      findOne user st = None ->
      exists (homework plans : list TradingItem) (s : UserSettings),
        fst (getSettings now user st)
        = mkResponse 200 "获取成功" (Some (AllSettings [mkPreset 0 true] [] homework plans)) /\
        List.map plainOf homework = DEFAULT_HOMEWORK /\
        List.map plainOf plans = DEFAULT_PLANS /\
        List.length homework = 3%nat /\ List.length plans = 3%nat /\
        findOne user (snd (getSettings now user st)) = Some s /\
        tradingHomework s = homework /\ tradingPlans s = plans) /\
  (forall (reqs : list Request) (now : Z) (user : ObjectId) (existing : UserSettings),
      let st := run reqs UserSettingsModel.empty in
      findOne user st = Some existing ->
      tradingHomework existing = [] \/ tradingPlans existing = [] ->
      exists (homework plans : list TradingItem) (s : UserSettings),
        fst (getSettings now user st)
        = mkResponse 200 "获取成功"
            (Some (AllSettings (presetPrinciples existing) (customPrinciples existing)
                     homework plans)) /\
        (tradingHomework existing = [] -> List.map plainOf homework = DEFAULT_HOMEWORK) /\
        (tradingHomework existing <> [] -> homework = tradingHomework existing) /\
        (tradingPlans existing = [] -> List.map plainOf plans = DEFAULT_PLANS) /\
        (tradingPlans existing <> [] -> plans = tradingPlans existing) /\
        findOne user (snd (getSettings now user st)) = Some s /\
        tradingHomework s = homework /\ tradingPlans s = plans).
Proof.
  split.
  - intros now user st Hnone. unfold getSettings. rewrite Hnone.
    destruct (newUserSettings_good now user (nextId st)) as [G K].
    unfold newUserSettings in *. cbn [fst] in G, K.
    rewrite (save_good now _ _ st G). cbn [fst snd userId].
    destruct (defaults_cast (nextId st)) as [H _].
    destruct (defaults_cast (nextId st + List.length DEFAULT_HOMEWORK)%nat) as [_ P].
    eexists _, _, _. split; [reflexivity |].
    split; [exact H |]. split; [exact P |].
    split; [reflexivity |]. split; [reflexivity |].
    split; [apply lookup_insert_eq |]. split; reflexivity.
  - intros reqs now user existing st Hsome Hempty.
    destruct (run_good reqs _ empty_good user existing Hsome) as [K G].
    unfold getSettings. rewrite Hsome.
    set (he := Nat.eqb (List.length (tradingHomework existing)) 0).
    set (pe := Nat.eqb (List.length (tradingPlans existing)) 0).
    set (s1 := if he then setField Homework (castItems (nextId st) DEFAULT_HOMEWORK) existing
               else existing).
    set (n1 := if he then (nextId st + List.length DEFAULT_HOMEWORK)%nat else nextId st).
    set (s2 := if pe then setField Plans (castItems n1 DEFAULT_PLANS) s1 else s1).
    assert (G1 : goodSettings s1).
    { unfold s1. destruct he; [| exact G].
      apply setField_good; [exact G |]. apply castItems_good, defaults_nonBlank. }
    assert (G2 : goodSettings s2).
    { unfold s2. destruct pe; [| exact G1].
      apply setField_good; [exact G1 |]. apply castItems_good, defaults_nonBlank. }
    assert (Hhe : he = true <-> tradingHomework existing = []).
    { unfold he. rewrite Nat.eqb_eq. apply length_zero_iff_nil. }
    assert (Hpe : pe = true <-> tradingPlans existing = []).
    { unfold pe. rewrite Nat.eqb_eq. apply length_zero_iff_nil. }
    assert (Need : he || pe = true).
    { apply orb_true_iff. destruct Hempty; [left; now apply Hhe | right; now apply Hpe]. }
    cbv zeta. fold he pe. fold s1. fold n1. fold s2. rewrite Need.
    rewrite (save_good now s2 _ st G2). cbn [fst snd].
    assert (U : userId s2 = user).
    { unfold s2, s1. destruct pe, he; cbn; exact K. }
    rewrite U.
    exists (tradingHomework s2), (tradingPlans s2), (stamped now s2).
    assert (Pr : presetPrinciples s2 = presetPrinciples existing /\
                 customPrinciples s2 = customPrinciples existing).
    { unfold s2, s1. destruct pe, he; split; reflexivity. }
    destruct Pr as [Pr1 Pr2].
    split.
    { cbn [stamped presetPrinciples customPrinciples tradingHomework tradingPlans].
      now rewrite Pr1, Pr2. }
    split.
    { intros E. apply Hhe in E. unfold s2, s1. rewrite E.
      destruct pe; cbn [setField tradingHomework]; apply defaults_cast. }
    split.
    { intros E. assert (he = false) as ->.
      { destruct he; [| reflexivity]. exfalso. apply E. now apply Hhe. }
      unfold s2, s1. destruct pe; reflexivity. }
    split.
    { intros E. apply Hpe in E. unfold s2. rewrite E.
      cbn [setField tradingPlans]. destruct he; apply defaults_cast. }
    split.
    { intros E. assert (pe = false) as ->.
      { destruct pe; [| reflexivity]. exfalso. apply E. now apply Hpe. }
      unfold s2, s1. destruct he; reflexivity. }
    split; [apply lookup_insert_eq |]. split; reflexivity.
Qed.

(** C8 for a brand-new user on the empty store. *)
Lemma getSettings_defaults_witness :
  findOne 1%nat UserSettingsModel.empty = None /\
  exists (homework plans : list TradingItem) (s : UserSettings),
    fst (getSettings 0 1%nat UserSettingsModel.empty)
    = mkResponse 200 "获取成功" (Some (AllSettings [mkPreset 0 true] [] homework plans)) /\
    List.map plainOf homework = DEFAULT_HOMEWORK /\
    List.map plainOf plans = DEFAULT_PLANS /\
    List.length homework = 3%nat /\ List.length plans = 3%nat /\
    findOne 1%nat (snd (getSettings 0 1%nat UserSettingsModel.empty)) = Some s /\
    tradingHomework s = homework /\ tradingPlans s = plans.
Proof.
  split; [reflexivity |].
  exact (proj1 getSettings_defaults 0 1%nat UserSettingsModel.empty eq_refl).
Defined.

Example getSettings_backfills_homework :
  match data (fst (getSettings 9 1%nat
                     (run [PutList Homework 5 1%nat (Some [])] UserSettingsModel.empty))) with
  | Some (AllSettings _ _ homework plans) =>
      List.map plainOf homework = DEFAULT_HOMEWORK /\ List.map plainOf plans = DEFAULT_PLANS
  | _ => False
  end.
Proof. vm_compute. split; reflexivity. Qed.

End DefaultsTheorems.

(* ===================================================================== *)
(** ** C6: updating or deleting a sub-item that does not exist *)
(* ===================================================================== *)

Section NotFoundTheorems.
Import JsString UserSettingsModel SettingsRoutes.

(** C6 (amended).  When the parent document does not exist, or it has no
    sub-item with the given id, a delete of the sub-item answers 404 and an
    update answers 404 if the submitted title is not blank and 400 (the
    title validation, which runs first) if it is blank; in every case the
    store, and so the parent document, is unchanged.  This holds for the
    homework and plan items of the settings and for the plan items of a
    daily record. *)
Theorem subitem_not_found :
  (forall (f : Field) (now : Z) (user id : ObjectId) (title content : option string)
          (st : Store),
      findOne user st = None \/
      (exists s : UserSettings,
          findOne user st = Some s /\ findItem id (getField f s) = None) ->
      snd (deleteItem f now user id st) = st /\
      code (fst (deleteItem f now user id st)) = 404 /\
      data (fst (deleteItem f now user id st)) = None /\
      snd (putItem f now user id title content st) = st /\
      data (fst (putItem f now user id title content st)) = None /\
      code (fst (putItem f now user id title content st))
      = (if blankTitle title then 400 else 404)) /\
  (forall (now : Z) (user : ObjectId) (date : string) (id : ObjectId)
          (title content : option string) (st : DailyRecordModel.Store),
      DailyRecordModel.findOne user date st = None \/
      (exists r : DailyRecordModel.DailyRecord,
          DailyRecordModel.findOne user date st = Some r /\
          findItem id (DailyRecordModel.tradingPlans r) = None) ->
      snd (DailyRoutes.deletePlan now user date id st) = st /\
      code (fst (DailyRoutes.deletePlan now user date id st)) = 404 /\
      data (fst (DailyRoutes.deletePlan now user date id st)) = None /\
      snd (DailyRoutes.putPlan now user date id title content st) = st /\
      data (fst (DailyRoutes.putPlan now user date id title content st)) = None /\
      code (fst (DailyRoutes.putPlan now user date id title content st))
      = (if blankTitle title then 400 else 404)).
Proof.
  split.
  - intros f now user id title content st H.
    unfold deleteItem, putItem.
    destruct H as [H | (s & H & I)]; rewrite H; try rewrite I;
      destruct (blankTitle title); cbn; repeat split; reflexivity.
  - intros now user date id title content st H.
    unfold DailyRoutes.deletePlan, DailyRoutes.putPlan.
    destruct H as [H | (r & H & I)]; rewrite H; try rewrite I;
      destruct (blankTitle title); cbn; repeat split; reflexivity.
Qed.

(** C6 at an update with a proper title on the empty store. *)
Lemma subitem_not_found_witness :
  (findOne 1%nat UserSettingsModel.empty = None \/
   (exists s : UserSettings,
       findOne 1%nat UserSettingsModel.empty = Some s /\
       findItem 7%nat (getField Homework s) = None)) /\
  snd (putItem Homework 0 1%nat 7%nat (Some "判断板块") None UserSettingsModel.empty)
  = UserSettingsModel.empty /\
  code (fst (putItem Homework 0 1%nat 7%nat (Some "判断板块") None UserSettingsModel.empty))
  = 404.
Proof.
  assert (H : findOne 1%nat UserSettingsModel.empty = None \/
              (exists s : UserSettings,
                  findOne 1%nat UserSettingsModel.empty = Some s /\
                  findItem 7%nat (getField Homework s) = None))
    by (left; reflexivity).
  split; [exact H |].
  pose proof (proj1 subitem_not_found Homework 0 1%nat 7%nat (Some "判断板块") None
                UserSettingsModel.empty H) as (_ & _ & _ & S & _ & C).
  split; [exact S | exact C].
Defined.

(** C6 as stated fails: an update with a blank title, for a user without
    a settings document, is answered 400 and not 404. *)
Lemma subitem_update_blank_title :
  findOne 1%nat UserSettingsModel.empty = None /\
  putItem Homework 0 1%nat 7%nat (Some "  ") None UserSettingsModel.empty
  = (mkResponse 400 "标题不能为空" None, UserSettingsModel.empty) /\
  code (fst (putItem Homework 0 1%nat 7%nat (Some "  ") None UserSettingsModel.empty))
  <> 404.
Proof.
  split; [reflexivity |]. split; [reflexivity |]. cbn. discriminate.
Qed.

End NotFoundTheorems.

(* ===================================================================== *)
(** ** C9, C5, C10: verification codes, login and the auth gate *)
(* ===================================================================== *)

Section SmsTheorems.
Import Sms.

(** C9.  A verification that succeeds removes the stored entry, so every
    later [verifySmsCode] for the phone (whatever the code and the time)
    fails until a new code is sent: a stored code verifies at most once.  A
    verification more than five minutes after the code was stored fails
    with the expiry message and removes the entry.  (Within the five
    minutes, the stored code verifies.) *)
Theorem verification_code_single_use :
  (forall (phone code : string) (now : Z) (codes : gmap string StoredCode),
      success (fst (verifySmsCode phone code now codes)) = true ->
      snd (verifySmsCode phone code now codes) !! phone = None /\
      forall (code' : string) (now' : Z),
        fst (verifySmsCode phone code' now' (snd (verifySmsCode phone code now codes)))
        = mkResult false "请先获取验证码") /\
  (forall (phone sent code : string) (sentAt now : Z) (codes : gmap string StoredCode),
      sentAt + 5 * 60 * 1000 < now ->
      fst (verifySmsCode phone code now (storeCode phone sent sentAt codes))
      = mkResult false "验证码已过期，请重新获取" /\
      snd (verifySmsCode phone code now (storeCode phone sent sentAt codes)) !! phone = None) /\
  (forall (phone sent : string) (sentAt now : Z) (codes : gmap string StoredCode),
      now <= sentAt + 5 * 60 * 1000 ->
      fst (verifySmsCode phone sent now (storeCode phone sent sentAt codes))
      = mkResult true "验证成功").
Proof.
  split; [| split].
  - intros phone code now codes H.
    assert (E : snd (verifySmsCode phone code now codes) !! phone = None).
    { revert H. unfold verifySmsCode.
      destruct (codes !! phone) as [stored |] eqn:L; [| discriminate].
      destruct (expireAt stored <? now); [discriminate |].
      destruct (String.eqb (Sms.code stored) code); cbn [negb]; [| discriminate].
      intros _. cbn [snd]. apply lookup_delete_eq. }
    split; [exact E |]. intros code' now'.
    unfold verifySmsCode at 1. now rewrite E.
  - intros phone sent code sentAt now codes H.
    unfold verifySmsCode, storeCode. rewrite lookup_insert_eq. cbn [expireAt].
    destruct (Z.ltb_spec (sentAt + 5 * 60 * 1000) now) as [_ | G]; [| lia].
    cbn [fst snd]. split; [reflexivity | apply lookup_delete_eq].
  - intros phone sent sentAt now codes H.
    unfold verifySmsCode, storeCode. rewrite lookup_insert_eq. cbn [expireAt Sms.code].
    destruct (Z.ltb_spec (sentAt + 5 * 60 * 1000) now) as [G | _]; [lia |].
    now rewrite String.eqb_refl.
Qed.

(** C9 at a code sent at time 0 and verified one second later. *)
Lemma verification_code_single_use_witness :
  success (fst (verifySmsCode "13812345678" "123456" 1000
                  (storeCode "13812345678" "123456" 0 ∅))) = true /\
  snd (verifySmsCode "13812345678" "123456" 1000
         (storeCode "13812345678" "123456" 0 ∅)) !! "13812345678" = None /\
  fst (verifySmsCode "13812345678" "123456" 1001
         (snd (verifySmsCode "13812345678" "123456" 1000
                 (storeCode "13812345678" "123456" 0 ∅))))
  = mkResult false "请先获取验证码".
Proof.
  assert (H : success (fst (verifySmsCode "13812345678" "123456" 1000
                              (storeCode "13812345678" "123456" 0 ∅))) = true)
    by (vm_compute; reflexivity).
  split; [exact H |].
  pose proof (proj1 verification_code_single_use "13812345678" "123456" 1000
                (storeCode "13812345678" "123456" 0 ∅) H) as [E R].
  split; [exact E | exact (R "123456" 1001)].
Defined.

End SmsTheorems.

Section LoginTheorems.
Import UserModel UserRoutes.

(** C5.  A login with an unregistered phone number (no user is stored
    under the phone, which the lookup trims) and a login with a registered
    phone number and a wrong password get the same answer: code 401, the
    message "手机号或密码错误" and no data.  The user the second login
    found is one stored under the trimmed phone. *)
Theorem login_failures_indistinguishable :
  forall (bcryptCompare : string -> string -> bool) (jwtSign : ObjectId -> string -> Z -> string)
         (JWT_SECRET : string) (now now' : Z) (users : list User)
         (unknownPhone anyPassword knownPhone wrongPassword : string) (u : User),
    unknownPhone <> "" -> anyPassword <> "" -> knownPhone <> "" -> wrongPassword <> "" ->
    (forall v : User, In v users -> phone v <> JsString.trim unknownPhone) ->
    findOne knownPhone users = Some u ->
    comparePassword bcryptCompare u wrongPassword = false ->
    login bcryptCompare jwtSign JWT_SECRET now (Some unknownPhone) (Some anyPassword) users
    = login bcryptCompare jwtSign JWT_SECRET now' (Some knownPhone) (Some wrongPassword) users /\
    login bcryptCompare jwtSign JWT_SECRET now (Some unknownPhone) (Some anyPassword) users
    = mkResponse 401 "手机号或密码错误" None /\
    In u users /\ phone u = JsString.trim knownPhone.
Proof.
  intros cmp sign secret now now' users p1 w1 p2 w2 u N1 N2 N3 N4 F1 F2 C.
  assert (T : forall s, s <> "" -> truthy (Some s) = true /\ orString (Some s) "" = s).
  { intros s Hs. unfold truthy, orString.
    destruct (String.eqb_spec s ""); [contradiction | now split]. }
  assert (F1' : findOne p1 users = None).
  { unfold findOne. destruct (List.find _ users) as [v |] eqn:E; [| reflexivity].
    apply find_some in E. destruct E as [Hv E]. apply String.eqb_eq in E.
    now destruct (F1 v Hv). }
  unfold login.
  destruct (T p1 N1) as [-> ->]. destruct (T w1 N2) as [-> ->].
  destruct (T p2 N3) as [-> ->]. destruct (T w2 N4) as [-> ->].
  cbn [negb orb]. rewrite F1', F2, C. cbn [negb].
  split; [reflexivity |]. split; [reflexivity |].
  unfold findOne in F2. apply find_some in F2. destruct F2 as [Hu E].
  apply String.eqb_eq in E. now split.
Qed.

(** C5 with one registered user; the password check compares strings, and
    the phones are submitted with blanks around them. *)
Lemma login_failures_indistinguishable_witness :
  login String.eqb (fun _ _ _ => "t") "s" 0 (Some " 13900000000 ") (Some "x")
    [mkUser 1%nat "trader" "13812345678" "pw" 0]
  = login String.eqb (fun _ _ _ => "t") "s" 1 (Some " 13812345678 ") (Some "nope")
      [mkUser 1%nat "trader" "13812345678" "pw" 0] /\
  login String.eqb (fun _ _ _ => "t") "s" 0 (Some " 13900000000 ") (Some "x")
    [mkUser 1%nat "trader" "13812345678" "pw" 0]
  = mkResponse 401 "手机号或密码错误" None.
Proof.
  assert (F : forall v : User,
             In v [mkUser 1%nat "trader" "13812345678" "pw" 0] ->
             phone v <> JsString.trim " 13900000000 ").
  { intros v [<- | []]. vm_compute. discriminate. }
  destruct (login_failures_indistinguishable String.eqb (fun _ _ _ => "t") "s" 0 1
              [mkUser 1%nat "trader" "13812345678" "pw" 0]
              " 13900000000 " "x" " 13812345678 " "nope"
              (mkUser 1%nat "trader" "13812345678" "pw" 0)
              ltac:(discriminate) ltac:(discriminate) ltac:(discriminate)
              ltac:(discriminate) F eq_refl eq_refl) as (A & B & _).
  split; [exact A | exact B].
Defined.

(** The right password with blanks around the phone logs in. *)
Example login_padded_phone :
  login String.eqb (fun _ _ _ => "t") "s" 0 (Some " 13812345678 ") (Some "pw")
    [mkUser 1%nat "trader" "13812345678" "pw" 0]
  = mkResponse 200 "登录成功"
      (Some (mkLoginData (mkUserView 1%nat "trader" "13812345678") "t")).
Proof. vm_compute. reflexivity. Qed.

End LoginTheorems.

Section AuthTheorems.
Import AuthMiddleware.

Lemma startsWith_Bearer (token : string) :
  JsString.startsWith "Bearer " ("Bearer " ++ token) = true.
Proof. destruct token; reflexivity. Qed.

Lemma substring_all (s : string) : substring 0 (String.length s) s = s.
Proof. induction s as [| c s IH]; cbn; [reflexivity | now rewrite IH]. Qed.

Lemma slice7_Bearer (token : string) : slice7 ("Bearer " ++ token) = token.
Proof.
  unfold slice7.
  change ("Bearer " ++ token) with
    (String "B" (String "e" (String "a" (String "r" (String "e" (String "r" (String " " token))))))).
  cbn [String.length Nat.sub substring]. rewrite Nat.sub_0_r. apply substring_all.
Qed.

(** C10.  An Authorization header that does not start with "Bearer " is
    taken whole as the token: a token that [jwt.verify] accepts is accepted
    when it is sent bare, and resolves to the same user as when it is sent
    after the prefix "Bearer ". *)
Theorem bare_token_accepted :
  forall (jwtVerify : string -> string -> Z -> Verified) (JWT_SECRET : string) (now : Z)
         (token : string) (userId : option ObjectId),
    token <> "" ->
    JsString.startsWith "Bearer " token = false ->
    jwtVerify token JWT_SECRET now = Decoded userId ->
    authMiddleware jwtVerify JWT_SECRET now (Some token) = Next userId /\
    authMiddleware jwtVerify JWT_SECRET now (Some ("Bearer " ++ token)) = Next userId.
Proof.
  intros jwtVerify secret now token uid Hne Hpre Hv.
  unfold authMiddleware.
  assert (T : forall s, s <> "" -> truthy (Some s) = true /\ orString (Some s) "" = s).
  { intros s Hs. unfold truthy, orString.
    destruct (String.eqb_spec s ""); [contradiction | now split]. }
  split.
  - destruct (T token Hne) as [-> ->]. cbn [negb]. cbv zeta. now rewrite Hpre, Hv.
  - destruct (T ("Bearer " ++ token)) as [-> ->]; [discriminate |].
    cbn [negb]. cbv zeta. now rewrite startsWith_Bearer, slice7_Bearer, Hv.
Qed.

(** C10 with a verifier that accepts one token. *)
Lemma bare_token_accepted_witness :
  let jwtVerify := fun (token secret : string) (_ : Z) =>
    if String.eqb token "h.p.s" then Decoded (Some 1%nat) else JsonWebTokenError in
  authMiddleware jwtVerify "s" 0 (Some "h.p.s") = Next (Some 1%nat) /\
  authMiddleware jwtVerify "s" 0 (Some ("Bearer " ++ "h.p.s")) = Next (Some 1%nat).
Proof.
  intros jwtVerify.
  apply (bare_token_accepted jwtVerify "s" 0 "h.p.s" (Some 1%nat));
    [discriminate | reflexivity | reflexivity].
Defined.

End AuthTheorems.
(* ===================================================================== *)
(** ** routes/checkin.js: further properties of the four endpoints *)
(* ===================================================================== *)

Module CheckInStoreFacts.
Import CheckInModel CheckInRoutes CheckInInvariants.

Lemma append_cons (c : ascii) (p x : string) : String c p ++ x = String c (p ++ x).
Proof. reflexivity. Qed.

Lemma padStart_cons (n : nat) (c : ascii) (s : string) :
  (0 < n)%nat -> exists a r, JsString.padStart n c s = String a r.
Proof.
  intros Hn. unfold JsString.padStart.
  destruct (n - String.length s)%nat as [| k] eqn:E; cbn [JsString.repeatChar].
  - destruct s as [| a s']; [cbn in E; lia |]. exists a, s'. reflexivity.
  - rewrite append_cons. eauto.
Qed.

Lemma isoDate_nonEmpty (now : Z) : isoDate now <> "".
Proof.
  unfold isoDate, JsString.slice0, JsDate.toISOString.
  assert (H : exists a r, JsDate.isoYear (JsDate.YearFromTime now) = String a r).
  { unfold JsDate.isoYear, JsDate.ToZeroPaddedDecimalString.
    destruct (_ && _).
    - apply padStart_cons. lia.
    - destruct (0 <? _); rewrite append_cons; eauto. }
  destruct H as (a & r & ->). rewrite append_cons. cbn [substring]. discriminate.
Qed.

Lemma orString_nonEmpty (v : option string) (d : string) : d <> "" -> orString v d <> "".
Proof.
  intros Hd. destruct v as [s |]; cbn; [| exact Hd].
  destruct (String.eqb_spec s ""); congruence.
Qed.

Lemma find_none_existsb {A : Type} (f : A -> bool) (l : list A) :
  List.find f l = None -> existsb f l = false.
Proof.
  induction l as [| x l IH]; cbn; [reflexivity |].
  destruct (f x); [discriminate | exact IH].
Qed.

Lemma find_app_none {A : Type} (f : A -> bool) (l : list A) (x : A) :
  List.find f l = None -> List.find f (l ++ [x])%list = (if f x then Some x else None).
Proof.
  induction l as [| y l IH]; cbn; [reflexivity |].
  destruct (f y); [discriminate | exact IH].
Qed.

Lemma find_app_some {A : Type} (f : A -> bool) (l l' : list A) (y : A) :
  List.find f l = Some y -> List.find f (l ++ l')%list = Some y.
Proof.
  induction l as [| z l IH]; cbn; [discriminate |].
  destruct (f z); [trivial | exact IH].
Qed.

Lemma validKind (kind : string) :
  kind = "completed" \/ kind = "incomplete" ->
  truthy (Some kind) = true /\ orString (Some kind) "" = kind /\
  String.eqb kind "completed" || String.eqb kind "incomplete" = true.
Proof. intros [-> | ->]; repeat split. Qed.

(** The record [postCheckIn] builds. *)
Lemma postCheckIn_created (now : Z) (user : ObjectId) (kind : string)
    (tasks : option (list Task)) (note date : option string) (db : Collection) :
  kind = "completed" \/ kind = "incomplete" ->
  findOne user (orString date (isoDate now)) db = None ->
  postCheckIn now user (Some kind) tasks note date db
  = (mkResponse 200
       (if String.eqb kind "completed" then "签到成功！继续保持交易纪律！"
        else "已记录手欠行为，下次注意！")
       (Some (Created (viewOf
          (mkCheckIn (nextId db) user (orString date (isoDate now)) kind
             (String.eqb kind "completed") (orArray tasks []) (orString note "") now)))),
     mkCollection
       (docs db ++
        [mkCheckIn (nextId db) user (orString date (isoDate now)) kind
           (String.eqb kind "completed") (orArray tasks []) (orString note "") now])
       (S (nextId db))).
Proof.
  intros Hkind Hnone. destruct (validKind kind Hkind) as (T & O & V).
  unfold postCheckIn. rewrite T, O, V. cbn [negb]. rewrite Hnone.
  unfold save. cbn [CheckInModel.type CheckInModel.date CheckInModel.userId].
  unfold validType. rewrite V. cbn [negb orb].
  assert (D : String.eqb (orString date (isoDate now)) "" = false).
  { apply String.eqb_neq, orString_nonEmpty, isoDate_nonEmpty. }
  rewrite D. unfold findOne in Hnone. rewrite (find_none_existsb _ _ Hnone). reflexivity.
Qed.

Lemma postCheckIn_duplicate (now : Z) (user : ObjectId) (kind : string)
    (tasks : option (list Task)) (note date : option string) (db : Collection)
    (existing : CheckIn) :
  kind = "completed" \/ kind = "incomplete" ->
  findOne user (orString date (isoDate now)) db = Some existing ->
  postCheckIn now user (Some kind) tasks note date db = (duplicateCheckIn existing, db).
Proof.
  intros Hkind Hsome. destruct (validKind kind Hkind) as (T & O & V).
  unfold postCheckIn. rewrite T, O, V. cbn [negb]. now rewrite Hsome.
Qed.

(** What a POST does to the documents: nothing, or one more record of the
    requesting user. *)
Lemma postCheckIn_docs (now : Z) (user : ObjectId) (type : option string)
    (tasks : option (list Task)) (note date : option string) (db : Collection) :
  snd (postCheckIn now user type tasks note date db) = db \/
  exists checkIn : CheckIn,
    snd (postCheckIn now user type tasks note date db)
    = mkCollection (docs db ++ [checkIn]) (S (nextId db)) /\
    userId checkIn = user /\ _id checkIn = nextId db /\
    existsb (sameKey (userId checkIn) (CheckInModel.date checkIn)) (docs db) = false.
Proof.
  unfold postCheckIn.
  destruct (truthy type); cbn [negb]; [| now left].
  destruct (String.eqb (orString type "") "completed" || String.eqb (orString type "") "incomplete");
    cbn [negb]; [| now left].
  destruct (findOne _ _ db); [now left |].
  unfold save. cbn [CheckInModel.type CheckInModel.date CheckInModel.userId].
  destruct (_ || _); [now left |].
  destruct (existsb _ (docs db)) eqn:E; [now left |].
  right. eexists. cbn [snd]. split; [reflexivity |]. cbn. repeat split. exact E.
Qed.

Lemma NoDup_snoc {A : Type} (l : list A) (x : A) :
  List.NoDup l -> ~ In x l -> List.NoDup (l ++ [x]).
Proof.
  intros N H. induction l as [| y l IH]; cbn.
  - constructor; [intros [] | constructor].
  - inversion N as [| ? ? Hy N']; subst. constructor.
    + intros I. apply in_app_or in I. destruct I as [I | [-> | []]]; [now apply Hy |].
      apply H. now left.
    + apply IH; [exact N' |]. intros I. apply H. now right.
Qed.

Lemma sameKey_spec (u : ObjectId) (d : string) (r : CheckIn) :
  sameKey u d r = true <-> (userId r, date r) = (u, d).
Proof.
  unfold sameKey. rewrite andb_true_iff, Nat.eqb_eq, String.eqb_eq.
  split; [intros [-> ->]; reflexivity | intros E; now inversion E].
Qed.

Lemma existsb_sameKey (u : ObjectId) (d : string) (l : list CheckIn) :
  existsb (sameKey u d) l = false -> ~ In (u, d) (map (fun r => (userId r, date r)) l).
Proof.
  intros E H. apply in_map_iff in H. destruct H as (r & K & I).
  assert (T : existsb (sameKey u d) l = true).
  { apply existsb_exists. exists r. split; [exact I |]. now apply sameKey_spec. }
  congruence.
Qed.

Lemma step_wellKeyed (req : Request) (db : Collection) :
  wellKeyed db -> wellKeyed (step req db).
Proof.
  intros (K & I & B).
  destruct req as [now user kind tasks note date | | |]; cbn [step];
    try (now repeat split).
  destruct (postCheckIn_docs now user kind tasks note date db)
    as [-> | (c & -> & _ & Hid & E)]; [now repeat split |].
  unfold wellKeyed. cbn [docs nextId]. rewrite !map_app. cbn [map].
  split; [| split].
  - apply NoDup_snoc; [exact K |]. now apply existsb_sameKey.
  - apply NoDup_snoc; [exact I |]. intros H. apply in_map_iff in H.
    destruct H as (r & Er & Hr). apply B in Hr. lia.
  - intros r Hr. apply in_app_or in Hr. destruct Hr as [Hr | [<- | []]].
    + apply B in Hr. lia.
    + lia.
Qed.

Lemma run_wellKeyed (reqs : list Request) (db : Collection) :
  wellKeyed db -> wellKeyed (run reqs db).
Proof.
  revert db. induction reqs as [| req reqs IH]; intros db H; [exact H |].
  cbn. apply IH. now apply step_wellKeyed.
Qed.

Lemma empty_wellKeyed : wellKeyed CheckInModel.empty.
Proof. repeat split; cbn; try constructor. intros r []. Qed.

Lemma NoDup_map_eq {A B : Type} (f : A -> B) (l : list A) (x y : A) :
  List.NoDup (map f l) -> In x l -> In y l -> f x = f y -> x = y.
Proof.
  induction l as [| z l IH]; cbn; [intros _ [] |].
  intros N Hx Hy E. inversion N as [| ? ? Hn N']; subst.
  destruct Hx as [-> | Hx], Hy as [-> | Hy]; auto.
  - exfalso. apply Hn. rewrite E. now apply in_map.
  - exfalso. apply Hn. rewrite <- E. now apply in_map.
Qed.

Lemma length_filter_Permutation {A : Type} (f : A -> bool) (l l' : list A) :
  Permutation l l' -> List.length (List.filter f l) = List.length (List.filter f l').
Proof.
  induction 1 as [| x l l' _ IH | x y l | l l' l'' _ IH1 _ IH2]; cbn.
  - reflexivity.
  - destruct (f x); cbn; congruence.
  - destruct (f x), (f y); reflexivity.
  - congruence.
Qed.

Lemma countsOf_Permutation (l l' : list CheckIn) :
  Permutation l l' -> countsOf l = countsOf l'.
Proof.
  intros P. unfold countsOf.
  rewrite (Permutation_length P).
  rewrite (length_filter_Permutation (fun r => isCompleted r) _ _ P).
  now rewrite (length_filter_Permutation (fun r => negb (isCompleted r)) _ _ P).
Qed.

Lemma length_filter_le {A : Type} (f : A -> bool) (l : list A) :
  (List.length (List.filter f l) <= List.length l)%nat.
Proof.
  induction l as [| x l IH]; cbn; [lia |]. destruct (f x); cbn; lia.
Qed.

Lemma length_filter_filter_le {A : Type} (f g h : A -> bool) (l : list A) :
  (forall x, g x = true -> h x = true) ->
  (List.length (List.filter f (List.filter g l))
   <= List.length (List.filter f (List.filter h l)))%nat.
Proof.
  intros Hgh. induction l as [| x l IH]; cbn; [lia |].
  destruct (g x) eqn:G.
  - rewrite (Hgh x G). cbn. destruct (f x); cbn; lia.
  - destruct (h x); cbn; [| exact IH]. destruct (f x); cbn; lia.
Qed.

Lemma length_filter_mono {A : Type} (g h : A -> bool) (l : list A) :
  (forall x, g x = true -> h x = true) ->
  (List.length (List.filter g l) <= List.length (List.filter h l))%nat.
Proof.
  intros Hgh. induction l as [| x l IH]; cbn; [lia |].
  destruct (g x) eqn:G.
  - rewrite (Hgh x G). cbn. lia.
  - destruct (h x); cbn; lia.
Qed.

Lemma filter_and_nil {A : Type} (g h : A -> bool) (l : list A) :
  (forall x, g x = true -> h x = true) ->
  List.filter h l = [] -> List.filter g l = [].
Proof.
  intros Hgh. induction l as [| x l IH]; cbn; [reflexivity |].
  destruct (h x) eqn:H; [discriminate |].
  destruct (g x) eqn:G; [apply Hgh in G; congruence | exact IH].
Qed.

Lemma inRange_byUser (user : ObjectId) (lo hi : string) (r : CheckIn) :
  Nat.eqb (userId r) user && String.leb lo (date r) && String.leb (date r) hi = true ->
  Nat.eqb (userId r) user = true.
Proof. intros H. now apply andb_true_iff in H as [H%andb_true_iff _]. Qed.

Lemma length_filter_strict {A : Type} (g h : A -> bool) (l : list A) (x : A) :
  (forall y, g y = true -> h y = true) ->
  In x l -> g x = false -> h x = true ->
  (List.length (List.filter g l) < List.length (List.filter h l))%nat.
Proof.
  intros M I Gx Hx. induction l as [| a l IH]; [destruct I |].
  cbn [List.filter]. destruct I as [-> | I].
  - rewrite Gx, Hx. cbn [List.length].
    pose proof (length_filter_mono g h l M). lia.
  - specialize (IH I). destruct (g a) eqn:Ga.
    + rewrite (M a Ga). cbn [List.length]. lia.
    + destruct (h a); cbn [List.length]; lia.
Qed.

Lemma steadyZone_fixedOffset (offset : Z) : steadyZone (JsDate.fixedOffset offset).
Proof.
  intros t t'. unfold JsDate.fixedOffset. rewrite Z.sub_diag. reflexivity.
Qed.

Lemma steadyZone_newYork2024 : steadyZone JsDate.newYork2024.
Proof.
  intros t t'. unfold JsDate.newYork2024. cbv zeta.
  destruct (_ && _), (_ && _); reflexivity.
Qed.

Section SteadyZone.
Import JsDate JsDateFacts StreakAux StreakFacts StreakReference.

Variable LocalTZA : Z -> bool -> Z.
Hypothesis steady : steadyZone LocalTZA.

(** One turn of the loop moves the cursor one or two calendar days back. *)
Lemma previousDate_earlier (d : Z) :
  dayInRange d -> dayInRange (d - 2) ->
  exists d' : Z,
    d - 2 <= d' <= d - 1 /\
    previousDate LocalTZA (dateString (dateOfDay d)) = Some (dateString (dateOfDay d')).
Proof.
  intros R R2. unfold previousDate, dateOfDay at 1.
  rewrite parseDateOnly_dateString by (now rewrite Day_of_day).
  rewrite Day_of_day, setDate_previous_local.
  pose proof (steady (d * msPerDay) (d * msPerDay + LocalTZA (d * msPerDay) true - msPerDay))
    as S.
  remember (LocalTZA (d * msPerDay) true
            - LocalTZA (d * msPerDay + LocalTZA (d * msPerDay) true - msPerDay) false)
    as delta eqn:Ed.
  replace (d * msPerDay - msPerDay + LocalTZA (d * msPerDay) true
           - LocalTZA (d * msPerDay + LocalTZA (d * msPerDay) true - msPerDay) false)
    with (d * msPerDay - msPerDay + delta) by lia.
  unfold dayInRange in R, R2.
  change (DayFromYear 0) with (-719528) in R, R2.
  change (DayFromYear 10000) with 2932897 in R, R2.
  assert (B : (d - 2) * msPerDay < d * msPerDay - msPerDay + delta < d * msPerDay)
    by (unfold msPerDay in *; lia).
  remember (d * msPerDay - msPerDay + delta) as r eqn:Er. clear Er Ed S.
  assert (D : d - 2 <= Day r <= d - 1).
  { unfold Day, msPerDay in *. Z.div_mod_to_equations. lia. }
  assert (C : TimeClip r = Some r).
  { unfold TimeClip. replace (Z.abs r <=? 8640000000000000) with true; [reflexivity |].
    symmetry. apply Z.leb_le. unfold msPerDay in *. lia. }
  rewrite C. exists (Day r). split; [exact D |].
  rewrite isoDate_dateOfDay; [reflexivity |].
  unfold dayInRange. change (DayFromYear 0) with (-719528).
  change (DayFromYear 10000) with 2932897. lia.
Qed.

Lemma datedUpTo_holds (d e : Z) :
  dayInRange e ->
  match parseDateOnly (dateString (dateOfDay e)) with
  | Some t => Day t <=? d
  | None => false
  end = (e <=? d).
Proof.
  intros R. unfold dateOfDay.
  rewrite parseDateOnly_dateString by (now rewrite Day_of_day).
  now rewrite !Day_of_day.
Qed.

(** A date that the list holds is counted up to its own day and not up to
    an earlier one. *)
Lemma datedUpTo_strict (d' d : Z) (dates : list string) :
  d' < d -> dayInRange d -> In (dateString (dateOfDay d)) dates ->
  (List.length (datedUpTo d' dates) < List.length (datedUpTo d dates))%nat.
Proof.
  intros L R I. unfold datedUpTo.
  apply (length_filter_strict _ _ dates (dateString (dateOfDay d))).
  - intros s. destruct (parseDateOnly s) as [t |]; [| discriminate].
    intros H. apply Z.leb_le in H. apply Z.leb_le. lia.
  - exact I.
  - rewrite datedUpTo_holds by exact R. apply Z.leb_gt. lia.
  - rewrite datedUpTo_holds by exact R. apply Z.leb_refl.
Qed.

Lemma second_day_dateString : dateString (dateOfDay (DayFromYear 0 + 1)) = "0000-01-02".
Proof. vm_compute. reflexivity. Qed.

(** The loop ends within one turn for each date of the list that is not
    after the cursor. *)
Lemma streakLoop_steady (dates : list string) :
  ~ In "0000-01-01" dates -> ~ In "0000-01-02" dates ->
  forall (fuel : nat) (d : Z) (acc : nat),
    dayInRange d ->
    (List.length (datedUpTo d dates) < fuel)%nat ->
    exists n : nat,
      streakLoop LocalTZA fuel dates (dateString (dateOfDay d)) acc = Returned n /\
      (acc <= n <= acc + List.length (datedUpTo d dates))%nat.
Proof.
  intros F1 F2. induction fuel as [| fuel IH]; intros d acc R Hf; [lia |].
  cbn [streakLoop].
  destruct (includes dates (dateString (dateOfDay d))) eqn:I.
  - apply includes_In in I.
    assert (N1 : d <> DayFromYear 0).
    { intros ->. apply F1. now rewrite <- year0_dateString. }
    assert (N2 : d <> DayFromYear 0 + 1).
    { intros ->. apply F2. now rewrite <- second_day_dateString. }
    assert (R2 : dayInRange (d - 2)) by (unfold dayInRange in *; lia).
    destruct (previousDate_earlier d R R2) as (d' & Hd & ->).
    assert (R' : dayInRange d') by (unfold dayInRange in *; lia).
    pose proof (datedUpTo_strict d' d dates ltac:(lia) R I) as Lt.
    destruct (IH d' (S acc) R' ltac:(lia)) as (n & Hn & B).
    exists n. split; [exact Hn | lia].
  - exists acc. split; [reflexivity | lia].
Qed.

Lemma computeStreak_steady (fuel : nat) (now : Z) (history : list CheckIn) :
  clockInRange now ->
  ~ In "0000-01-01" (map date history) -> ~ In "0000-01-02" (map date history) ->
  (List.length history < fuel)%nat ->
  exists n : nat,
    computeStreak LocalTZA fuel now history = Returned n /\
    (n <= List.length history)%nat.
Proof.
  intros Hclock F1 F2 Hf.
  pose proof (clockInRange_days now Hclock) as HD.
  assert (R0 : dayInRange (Day now)) by (unfold dayInRange; lia).
  assert (R1 : dayInRange (Day now - 1)) by (unfold dayInRange; lia).
  assert (L : forall d, (List.length (datedUpTo d (map date history))
                         <= List.length history)%nat).
  { intros d. unfold datedUpTo.
    pose proof (length_filter_le
                  (fun s => match parseDateOnly s with
                            | Some t => Day t <=? d
                            | None => false
                            end) (map date history)) as Q.
    now rewrite length_map in Q. }
  unfold computeStreak. cbv zeta.
  replace (24 * 60 * 60 * 1000) with msPerDay by reflexivity.
  rewrite (isoDate_dateOfDay now R0).
  rewrite (isoDate_dateOfDay (now - msPerDay)) by (now rewrite Day_prev).
  rewrite Day_prev.
  destruct (includes (map date history) (dateString (dateOfDay (Day now))) ||
            includes (map date history) (dateString (dateOfDay (Day now - 1)))).
  - destruct (includes (map date history) (dateString (dateOfDay (Day now)))).
    + destruct (streakLoop_steady (map date history) F1 F2 fuel (Day now) 0%nat R0)
        as (n & Hn & B); [specialize (L (Day now)); lia |].
      exists n. split; [exact Hn |]. specialize (L (Day now)). lia.
    + destruct (streakLoop_steady (map date history) F1 F2 fuel (Day now - 1) 0%nat R1)
        as (n & Hn & B); [specialize (L (Day now - 1)); lia |].
      exists n. split; [exact Hn |]. specialize (L (Day now - 1)). lia.
  - exists 0%nat. split; [reflexivity | lia].
Qed.

End SteadyZone.

End CheckInStoreFacts.

Section CheckInProperties.
Import CheckInModel CheckInRoutes CheckInInvariants StreakReference CheckInStoreFacts.

(** X1.  A check-in of a valid kind for a (user, date) pair that has no
    record answers 200 with the new record, appends exactly that record
    (kind, tasks and note as submitted, the date defaulting to the UTC date
    of the clock), after which [findOne] reads it back and any further
    check-in of a valid kind for the same user and date is answered with the
    duplicate error naming it, the collection unchanged. *)
Theorem checkin_created_then_read_back :
  forall (now : Z) (user : ObjectId) (kind : string) (tasks : option (list Task))
         (note date : option string) (db : Collection),
    kind = "completed" \/ kind = "incomplete" ->
    findOne user (orString date (isoDate now)) db = None ->
    let checkInDate := orString date (isoDate now) in
    let checkIn :=
      mkCheckIn (nextId db) user checkInDate kind (String.eqb kind "completed")
        (orArray tasks []) (orString note "") now in
    let result := postCheckIn now user (Some kind) tasks note date db in
    code (fst result) = 200 /\
    data (fst result) = Some (Created (viewOf checkIn)) /\
    docs (snd result) = (docs db ++ [checkIn])%list /\
    findOne user checkInDate (snd result) = Some checkIn /\
    (forall (now2 : Z) (kind2 : string) (tasks2 : option (list Task))
            (note2 date2 : option string),
        kind2 = "completed" \/ kind2 = "incomplete" ->
        orString date2 (isoDate now2) = checkInDate ->
        postCheckIn now2 user (Some kind2) tasks2 note2 date2 (snd result)
        = (duplicateCheckIn checkIn, snd result)).
Proof.
  intros now user kind tasks note date db Hkind Hnone checkInDate checkIn result.
  assert (R : result = (mkResponse 200
                          (if String.eqb kind "completed" then "签到成功！继续保持交易纪律！"
                           else "已记录手欠行为，下次注意！")
                          (Some (Created (viewOf checkIn))),
                        mkCollection (docs db ++ [checkIn]) (S (nextId db)))).
  { apply postCheckIn_created; assumption. }
  assert (F : findOne user checkInDate (snd result) = Some checkIn).
  { rewrite R. unfold findOne in *. cbn [snd docs]. unfold checkInDate.
    rewrite (find_app_none _ _ checkIn Hnone).
    replace (sameKey user (orString date (isoDate now)) checkIn) with true; [reflexivity |].
    symmetry. now apply sameKey_spec. }
  split; [now rewrite R |]. split; [now rewrite R |]. split; [now rewrite R |].
  split; [exact F |].
  intros now2 kind2 tasks2 note2 date2 Hkind2 Hdate.
  apply postCheckIn_duplicate; [exact Hkind2 |]. now rewrite Hdate.
Qed.

(** X1 at a first check-in on the empty collection, for the date of the
    clock. *)
Lemma checkin_created_then_read_back_witness :
  findOne 1%nat (orString None (isoDate noon_2024_01_12)) CheckInModel.empty = None /\
  docs (snd (postCheckIn noon_2024_01_12 1%nat (Some "incomplete") None (Some "手欠") None
               CheckInModel.empty))
  = [mkCheckIn 0%nat 1%nat "2024-01-12" "incomplete" false [] "手欠" noon_2024_01_12].
Proof.
  split; [reflexivity |].
  exact (proj1 (proj2 (proj2
           (checkin_created_then_read_back noon_2024_01_12 1%nat "incomplete" None
              (Some "手欠") None CheckInModel.empty (or_intror eq_refl) eq_refl)))).
Defined.

(** X2.  In every collection reached from the empty one by requests to the
    four endpoints, no two records share a (user, date) pair and no two
    share an ObjectId; so [findOne] on the pair of a stored record returns
    that very record. *)
Theorem checkin_one_record_per_user_and_date :
  forall reqs : list Request,
    let db := run reqs CheckInModel.empty in
    List.NoDup (map (fun r => (userId r, date r)) (docs db)) /\
    List.NoDup (map _id (docs db)) /\
    (forall r : CheckIn, In r (docs db) -> findOne (userId r) (date r) db = Some r).
Proof.
  intros reqs db.
  destruct (run_wellKeyed reqs _ empty_wellKeyed) as (K & I & _). fold db in K, I.
  split; [exact K |]. split; [exact I |].
  intros r Hr. unfold findOne.
  destruct (List.find (sameKey (userId r) (date r)) (docs db)) as [r' |] eqn:F.
  - apply find_some in F. destruct F as [Hr' S]. apply sameKey_spec in S.
    f_equal. exact (NoDup_map_eq _ _ _ _ K Hr' Hr S).
  - exfalso. apply (find_none _ _ F) in Hr.
    assert (T : sameKey (userId r) (date r) r = true) by now apply sameKey_spec.
    congruence.
Qed.

(** X3.  A check-in posted by another user changes nothing of what a user
    reads: the month list, the status of today and the statistics of the
    user are the same before and after it. *)
Theorem checkin_reads_ignore_other_users :
  forall (now : Z) (user other : ObjectId) (type : option string)
         (tasks : option (list Task)) (note date : option string) (db : Collection),
    other <> user ->
    let db' := snd (postCheckIn now other type tasks note date db) in
    (forall (largeToString : Z -> string) (LocalTZA : Z -> bool -> Z) (now' : Z)
            (queryYear queryMonth : JsNumber.Number),
        listMonth largeToString LocalTZA now' user queryYear queryMonth db'
        = listMonth largeToString LocalTZA now' user queryYear queryMonth db) /\
    (forall now' : Z, todayStatus now' user db' = todayStatus now' user db) /\
    (forall (largeToString : Z -> string) (LocalTZA : Z -> bool -> Z) (fuel : nat) (now' : Z),
        computeStats largeToString LocalTZA fuel now' user db'
        = computeStats largeToString LocalTZA fuel now' user db).
Proof.
  intros now user other type tasks note date db Hne db'.
  assert (D : db' = db \/
              exists c, docs db' = (docs db ++ [c])%list /\ Nat.eqb (userId c) user = false).
  { unfold db'. destruct (postCheckIn_docs now other type tasks note date db)
      as [-> | (c & -> & U & _)]; [now left |].
    right. exists c. split; [reflexivity |]. rewrite U. now apply Nat.eqb_neq. }
  destruct D as [-> | (c & E & U)]; [repeat split |].
  assert (R : forall lo hi, findInRange user lo hi db' = findInRange user lo hi db).
  { intros lo hi. unfold findInRange. rewrite E, List.filter_app. cbn [List.filter].
    rewrite U. cbn [andb]. now rewrite app_nil_r. }
  assert (B : findByUser user db' = findByUser user db).
  { unfold findByUser. rewrite E, List.filter_app. cbn [List.filter].
    rewrite U. now rewrite app_nil_r. }
  assert (O : forall d, findOne user d db' = findOne user d db).
  { intros d. unfold findOne. rewrite E.
    destruct (List.find (sameKey user d) (docs db)) as [r |] eqn:F.
    - now apply find_app_some.
    - rewrite (find_app_none _ _ c F). unfold sameKey. now rewrite U. }
  split; [| split].
  - intros. unfold listMonth, monthRecords. now rewrite R.
  - intros. unfold todayStatus. now rewrite O.
  - intros. unfold computeStats. now rewrite R, B.
Qed.

(** X3 with users 1 and 2 on the collection of the three-day scenario. *)
Lemma checkin_reads_ignore_other_users_witness :
  2%nat <> 1%nat /\
  todayStatus noon_2024_01_12 1%nat
    (snd (postCheckIn noon_2024_01_12 2%nat (Some "completed") None None None threeDays))
  = todayStatus noon_2024_01_12 1%nat threeDays.
Proof.
  assert (H : 2%nat <> 1%nat) by discriminate.
  split; [exact H |].
  exact (proj1 (proj2 (checkin_reads_ignore_other_users noon_2024_01_12 1%nat 2%nat
                         (Some "completed") None None None threeDays H)) noon_2024_01_12).
Defined.

(** X4.  When the statistics are answered, the overall counts are those of
    all the records of the user, the monthly counts are the ones the month
    list reports for the month of the clock, completed and incomplete add up
    to the total in both, and no monthly count exceeds the overall one. *)
Theorem stats_counts_agree_with_records :
  forall (largeToString : Z -> string) (LocalTZA : Z -> bool -> Z) (fuel : nat) (now : Z)
         (user : ObjectId) (db : Collection) (msg : string) (stats : StatsData),
    computeStats largeToString LocalTZA fuel now user db
    = Some (mkResponse 200 msg (Some stats)) ->
    overall stats = countsOf (findByUser user db) /\
    (exists month : MonthData,
        data (listMonth largeToString LocalTZA now user JsNumber.NaN JsNumber.NaN db)
        = Some month /\
        count_total (monthly stats) = total month /\
        count_completed (monthly stats) = completedCount month /\
        count_incomplete (monthly stats) = incompleteCount month) /\
    (count_completed (overall stats) + count_incomplete (overall stats)
     = count_total (overall stats))%nat /\
    (count_completed (monthly stats) + count_incomplete (monthly stats)
     = count_total (monthly stats))%nat /\
    (count_total (monthly stats) <= count_total (overall stats))%nat /\
    (count_completed (monthly stats) <= count_completed (overall stats))%nat /\
    (count_incomplete (monthly stats) <= count_incomplete (overall stats))%nat.
Proof.
  intros largeToString LocalTZA fuel now user db msg stats H.
  unfold computeStats in H.
  destruct (computeStreak LocalTZA fuel now _) as [n | |]; [| discriminate | discriminate].
  inversion H as [[Hm Hs]]. clear H Hm.
  cbn [overall monthly].
  rewrite (countsOf_Permutation _ _ (SortFacts.sortBy_Permutation byDateDesc (findByUser user db))).
  split; [reflexivity |].
  split.
  { eexists. unfold listMonth. cbn [data]. split; [reflexivity |].
    cbn [total completedCount incompleteCount JsNumber.orNumber]. unfold monthRecords.
    pose proof (SortFacts.sortBy_Permutation byDateAsc
                  (findInRange user
                     (startDate largeToString
                        (JsNumber.Integer (JsDate.getFullYear LocalTZA now))
                        (JsNumber.Integer (JsDate.getMonth LocalTZA now + 1)))
                     (endDate largeToString
                        (JsNumber.Integer (JsDate.getFullYear LocalTZA now))
                        (JsNumber.Integer (JsDate.getMonth LocalTZA now + 1))) db)) as P.
    unfold countsOf. cbn [count_total count_completed count_incomplete].
    rewrite (Permutation_length P).
    rewrite (length_filter_Permutation (fun r => isCompleted r) _ _ P).
    rewrite (length_filter_Permutation (fun r => negb (isCompleted r)) _ _ P).
    repeat split. }
  unfold countsOf. cbn [count_total count_completed count_incomplete].
  split; [apply ListMonthFacts.filter_partition_length |].
  split; [apply ListMonthFacts.filter_partition_length |].
  unfold findInRange, findByUser.
  split; [| split].
  - apply length_filter_mono. intros r. apply inRange_byUser.
  - apply length_filter_filter_le. intros r. apply inRange_byUser.
  - apply length_filter_filter_le. intros r. apply inRange_byUser.
Qed.

(** X4 on the three-day scenario. *)
Lemma stats_counts_agree_with_records_witness :
  computeStats JsString.ofInteger (JsDate.fixedOffset 0) 4 noon_2024_01_12 1%nat threeDays
  = Some (mkResponse 200 "获取成功"
            (Some (mkStatsData (mkCounts 3 2 1) (mkCounts 3 2 1) 3))) /\
  overall (mkStatsData (mkCounts 3 2 1) (mkCounts 3 2 1) 3)
  = countsOf (findByUser 1%nat threeDays).
Proof.
  assert (H : computeStats JsString.ofInteger (JsDate.fixedOffset 0) 4 noon_2024_01_12
                1%nat threeDays
              = Some (mkResponse 200 "获取成功"
                        (Some (mkStatsData (mkCounts 3 2 1) (mkCounts 3 2 1) 3))))
    by (vm_compute; reflexivity).
  split; [exact H |].
  exact (proj1 (stats_counts_agree_with_records JsString.ofInteger (JsDate.fixedOffset 0) 4
                  noon_2024_01_12 1%nat threeDays _ _ H)).
Defined.

(** X5.  A user without any record reads, at every clock and in every time
    zone: statistics that are all zero with streak 0 (the loop does not run,
    whatever its fuel), an empty list for every month, and a status of today
    that says not checked in. *)
Theorem checkin_reads_of_new_user :
  forall (user : ObjectId) (db : Collection),
    findByUser user db = [] ->
    (forall (largeToString : Z -> string) (LocalTZA : Z -> bool -> Z) (fuel : nat) (now : Z),
        computeStats largeToString LocalTZA fuel now user db
        = Some (mkResponse 200 "获取成功"
                  (Some (mkStatsData (mkCounts 0 0 0) (mkCounts 0 0 0) 0)))) /\
    (forall (largeToString : Z -> string) (LocalTZA : Z -> bool -> Z) (now : Z)
            (queryYear queryMonth : JsNumber.Number),
        listMonth largeToString LocalTZA now user queryYear queryMonth db
        = mkResponse 200 "获取成功"
            (Some (mkMonthData
                     (JsNumber.orNumber queryYear
                        (JsNumber.Integer (JsDate.getFullYear LocalTZA now)))
                     (JsNumber.orNumber queryMonth
                        (JsNumber.Integer (JsDate.getMonth LocalTZA now + 1))) 0 0 0 []))) /\
    (forall now : Z,
        todayStatus now user db
        = mkResponse 200 "今天还未签到" (Some (mkTodayData false None))).
Proof.
  intros user db Hnone.
  assert (R : forall lo hi, findInRange user lo hi db = []).
  { intros lo hi. unfold findInRange.
    apply (filter_and_nil _ (fun r => Nat.eqb (userId r) user)); [| exact Hnone].
    intros r. apply inRange_byUser. }
  split; [| split].
  - intros. unfold computeStats. rewrite R, Hnone. reflexivity.
  - intros. unfold listMonth, monthRecords. rewrite R. reflexivity.
  - intros. unfold todayStatus, findOne.
    destruct (List.find _ (docs db)) as [r |] eqn:F; [| reflexivity].
    exfalso. apply find_some in F. destruct F as [Hr S].
    apply sameKey_spec in S. inversion S as [[U D]].
    assert (I : In r (findByUser user db)).
    { unfold findByUser. apply List.filter_In. split; [exact Hr |]. now apply Nat.eqb_eq. }
    rewrite Hnone in I. exact I.
Qed.

(** X5 for user 2 in the three-day scenario of user 1. *)
Lemma checkin_reads_of_new_user_witness :
  findByUser 2%nat threeDays = [] /\
  computeStats JsString.ofInteger JsDate.newYork2024 0 noon_2024_01_12 2%nat threeDays
  = Some (mkResponse 200 "获取成功"
            (Some (mkStatsData (mkCounts 0 0 0) (mkCounts 0 0 0) 0))).
Proof.
  split; [reflexivity |].
  exact (proj1 (checkin_reads_of_new_user 2%nat threeDays eq_refl)
           JsString.ofInteger JsDate.newYork2024 0%nat noon_2024_01_12).
Defined.

(** X6.  After a check-in request of a valid kind without a date, the
    status of today, asked at any clock of the same UTC date, says checked
    in: with the record the request created or, when the request was
    refused as a duplicate, with the record that was there. *)
Theorem today_checked_in_after_post :
  forall (now now' : Z) (user : ObjectId) (kind : string) (tasks : option (list Task))
         (note : option string) (db : Collection),
    kind = "completed" \/ kind = "incomplete" ->
    isoDate now' = isoDate now ->
    let db' := snd (postCheckIn now user (Some kind) tasks note None db) in
    exists r : CheckIn,
      todayStatus now' user db'
      = mkResponse 200 "今天已签到" (Some (mkTodayData true (Some (viewOf r)))) /\
      In r (docs db') /\ userId r = user /\ date r = isoDate now /\
      (findOne user (isoDate now) db = None ->
       CheckInModel.type r = kind /\ _id r = nextId db /\ createdAt r = now) /\
      (forall existing : CheckIn,
          findOne user (isoDate now) db = Some existing -> r = existing /\ db' = db).
Proof.
  intros now now' user kind tasks note db Hkind Hday db'.
  unfold todayStatus. rewrite Hday.
  destruct (findOne user (isoDate now) db) as [existing |] eqn:F.
  - assert (E : db' = db).
    { unfold db'. now rewrite (postCheckIn_duplicate now user kind tasks note None db existing). }
    rewrite E, F. exists existing.
    unfold findOne in F. apply find_some in F. destruct F as [Hin S].
    apply sameKey_spec in S. injection S as U D.
    split; [reflexivity |]. split; [exact Hin |]. split; [exact U |].
    split; [exact D |]. split; [discriminate |].
    intros e He. inversion He. now split.
  - pose proof (checkin_store_after := postCheckIn_created now user kind tasks note None db Hkind F).
    cbn [orString] in checkin_store_after.
    set (c := mkCheckIn (nextId db) user (isoDate now) kind (String.eqb kind "completed")
                (orArray tasks []) (orString note "") now) in *.
    assert (E : docs db' = (docs db ++ [c])%list).
    { unfold db'. now rewrite checkin_store_after. }
    assert (F' : findOne user (isoDate now) db' = Some c).
    { unfold findOne in *. rewrite E, (find_app_none _ _ c F).
      replace (sameKey user (isoDate now) c) with true; [reflexivity |].
      symmetry. now apply sameKey_spec. }
    rewrite F'. exists c. split; [reflexivity |].
    split; [rewrite E; apply in_or_app; right; now left |].
    split; [reflexivity |]. split; [reflexivity |].
    split; [intros _; repeat split |]. intros e He. discriminate.
Qed.

(** X6 at a first check-in at noon, asked again one hour later. *)
Lemma today_checked_in_after_post_witness :
  isoDate (noon_2024_01_12 + 3600000) = isoDate noon_2024_01_12 /\
  exists r : CheckIn,
    todayStatus (noon_2024_01_12 + 3600000) 1%nat
      (snd (postCheckIn noon_2024_01_12 1%nat (Some "completed") None None None
              CheckInModel.empty))
    = mkResponse 200 "今天已签到" (Some (mkTodayData true (Some (viewOf r)))) /\
    CheckInModel.type r = "completed".
Proof.
  assert (D : isoDate (noon_2024_01_12 + 3600000) = isoDate noon_2024_01_12)
    by (vm_compute; reflexivity).
  split; [exact D |].
  destruct (today_checked_in_after_post noon_2024_01_12 (noon_2024_01_12 + 3600000) 1%nat
              "completed" None None CheckInModel.empty (or_introl eq_refl) D)
    as (r & T & _ & _ & _ & N & _).
  exists r. split; [exact T |]. exact (proj1 (N eq_refl)).
Defined.

(** X7.  In every time zone whose offset varies by less than a day (a
    zone with one offset, a zone with daylight saving time), for a clock
    within the four-digit calendar, a user without a record dated
    0000-01-01 or 0000-01-02 and fuel above the number of stored records,
    the loop ends: the statistics are answered with code 200, and the
    streak does not exceed the number of records of the user. *)
Theorem streak_at_most_record_count :
  forall (largeToString : Z -> string) (LocalTZA : Z -> bool -> Z) (now : Z)
         (user : ObjectId) (db : Collection) (fuel : nat),
    steadyZone LocalTZA ->
    clockInRange now ->
    ~ In "0000-01-01" (map date (findByUser user db)) ->
    ~ In "0000-01-02" (map date (findByUser user db)) ->
    (List.length (docs db) < fuel)%nat ->
    exists stats : StatsData,
      computeStats largeToString LocalTZA fuel now user db
      = Some (mkResponse 200 "获取成功" (Some stats)) /\
      (streak stats <= count_total (overall stats))%nat /\
      count_total (overall stats) = List.length (findByUser user db).
Proof.
  intros largeToString LocalTZA now user db fuel Hzone Hclock Hfirst Hsecond Hfuel.
  unfold computeStats.
  remember (sortBy byDateDesc (findByUser user db)) as all eqn:Eall.
  assert (P : Permutation all (findByUser user db))
    by (rewrite Eall; apply SortFacts.sortBy_Permutation).
  assert (L : List.length all = List.length (findByUser user db))
    by apply (Permutation_length P).
  assert (F1 : ~ In "0000-01-01" (map date all)).
  { intros H. apply Hfirst. eapply Permutation_in; [| exact H]. now apply Permutation_map. }
  assert (F2 : ~ In "0000-01-02" (map date all)).
  { intros H. apply Hsecond. eapply Permutation_in; [| exact H]. now apply Permutation_map. }
  assert (Lf : (List.length (findByUser user db) <= List.length (docs db))%nat)
    by apply length_filter_le.
  destruct (computeStreak_steady LocalTZA Hzone fuel now all Hclock F1 F2 ltac:(lia))
    as (n & Hn & B).
  rewrite Hn.
  eexists. split; [reflexivity |]. cbn [streak overall countsOf count_total]. lia.
Qed.

(** X7 in New York, on the history across the end of daylight saving
    time. *)
Lemma streak_at_most_record_count_witness :
  exists stats : StatsData,
    computeStats JsString.ofInteger JsDate.newYork2024 4 noon_2024_11_04 1%nat
      acrossClockChange
    = Some (mkResponse 200 "获取成功" (Some stats)) /\
    (streak stats <= count_total (overall stats))%nat.
Proof.
  assert (C : clockInRange noon_2024_11_04) by (unfold clockInRange; vm_compute; split; congruence).
  assert (F1 : ~ In "0000-01-01" (map date (findByUser 1%nat acrossClockChange))).
  { cbn. intros [H | [H | [H | []]]]; discriminate. }
  assert (F2 : ~ In "0000-01-02" (map date (findByUser 1%nat acrossClockChange))).
  { cbn. intros [H | [H | [H | []]]]; discriminate. }
  assert (F : (List.length (docs acrossClockChange) < 4)%nat) by (cbn; lia).
  destruct (streak_at_most_record_count JsString.ofInteger JsDate.newYork2024
              noon_2024_11_04 1%nat acrossClockChange 4 steadyZone_newYork2024 C F1 F2 F)
    as (stats & E & B & _).
  exists stats. split; [exact E | exact B].
Defined.

End CheckInProperties.
(* ===================================================================== *)
(** ** routes/settings.js: further properties of the settings endpoints *)
(* ===================================================================== *)

Module SettingsStoreFacts.
Import JsString TrimFacts UserSettingsModel SettingsRoutes Invariants SettingsFacts
  SettingsInvariants.

Lemma last_snoc {A : Type} (l : list A) (x : A) :
  List.last (List.map Some (l ++ [x])%list) None = Some x.
Proof. rewrite List.map_app. cbn [List.map]. apply List.last_last. Qed.

Lemma getField_stamped (f : Field) (now : Z) (s : UserSettings) :
  getField f (stamped now s) = getField f s.
Proof. destruct f; reflexivity. Qed.

Lemma getField_other (f : Field) (items : list TradingItem) (s : UserSettings) :
  getField (otherField f) (setField f items s) = getField (otherField f) s.
Proof. destruct f; reflexivity. Qed.

Lemma principles_setField (f : Field) (items : list TradingItem) (s : UserSettings) :
  presetPrinciples (setField f items s) = presetPrinciples s /\
  customPrinciples (setField f items s) = customPrinciples s.
Proof. destruct f; split; reflexivity. Qed.

(** A good document of [user] is saved under [user]. *)
Lemma save_user (now : Z) (s : UserSettings) (next : ObjectId) (st : Store) (user : ObjectId) :
  goodSettings s -> userId s = user ->
  save now s next st
  = Some (stamped now s, mkStore (<[user := stamped now s]> (docs st)) next).
Proof. intros G <-. now apply save_good. Qed.

Lemma findItem_setItem (id : ObjectId) (t c : string) (items : list TradingItem)
    (old : TradingItem) :
  findItem id items = Some old ->
  findItem id (setItem id t c items) = Some (mkItem id (trim t) (trim c)).
Proof.
  unfold findItem, setItem. induction items as [| i items IH]; cbn [List.find List.map].
  - discriminate.
  - destruct (Nat.eqb (_id i) id) eqn:E.
    + intros _. cbn [_id]. apply Nat.eqb_eq in E. rewrite E, Nat.eqb_refl. reflexivity.
    + rewrite E. exact IH.
Qed.

Lemma setItem_ids (id : ObjectId) (t c : string) (items : list TradingItem) :
  List.map _id (setItem id t c items) = List.map _id items.
Proof.
  unfold setItem. rewrite List.map_map. apply List.map_ext.
  intros i. now destruct (Nat.eqb (_id i) id).
Qed.

Lemma setItem_Forall2 (id : ObjectId) (t c : string) (items : list TradingItem) :
  Forall2 (fun i i' => if Nat.eqb (_id i) id then i' = mkItem id (trim t) (trim c) else i' = i)
    items (setItem id t c items).
Proof.
  unfold setItem. induction items as [| i items IH]; cbn [List.map]; constructor.
  - destruct (Nat.eqb (_id i) id) eqn:E; [| reflexivity].
    apply Nat.eqb_eq in E. now rewrite E.
  - exact IH.
Qed.

Lemma findItem_pullItem (id : ObjectId) (items : list TradingItem) :
  findItem id (pullItem id items) = None.
Proof.
  unfold findItem, pullItem. induction items as [| i items IH]; cbn [List.filter List.find].
  - reflexivity.
  - destruct (Nat.eqb (_id i) id) eqn:E; cbn [negb]; [exact IH |].
    cbn [List.find]. now rewrite E.
Qed.

Lemma pullItem_shorter (id : ObjectId) (items : list TradingItem) (old : TradingItem) :
  findItem id items = Some old ->
  (List.length (pullItem id items) < List.length items)%nat.
Proof.
  unfold findItem, pullItem. induction items as [| i items IH]; cbn [List.find List.filter].
  - discriminate.
  - destruct (Nat.eqb (_id i) id) eqn:E; cbn [negb].
    + intros _. cbn [List.length].
      pose proof (List.filter_length_le (fun i => negb (Nat.eqb (_id i) id)) items). lia.
    + intros H. cbn [List.length]. apply IH in H. lia.
Qed.

Lemma save_writesOnly (now : Z) (s : UserSettings) (next : ObjectId) (st : Store)
    (user : ObjectId) (r r' : Response Data) (k : UserSettings -> Response Data) :
  userId s = user ->
  writesOnly user st
    (snd (match save now s next st with
          | Some (s', st') => (k s', st')
          | None => (r', st)
          end)).
Proof.
  intros <-. unfold save. destruct (validSettings s); [| now left].
  right. cbn [snd docs]. eauto.
Qed.

Lemma getSettings_writesOnly (now : Z) (user : ObjectId) (st : Store) :
  goodStore st -> writesOnly user st (snd (getSettings now user st)).
Proof.
  intros GS. unfold getSettings.
  destruct (findOne user st) as [existing |] eqn:F.
  - destruct (GS user existing F) as [U _].
    cbv zeta.
    destruct (Nat.eqb (List.length (tradingHomework existing)) 0),
             (Nat.eqb (List.length (tradingPlans existing)) 0); cbn [orb];
      try (now left);
      apply (save_writesOnly _ _ _ _ _ serverError serverError); cbn; exact U.
  - cbn. apply (save_writesOnly _ _ _ _ _ serverError serverError). reflexivity.
Qed.

Lemma findOrNew_user (now : Z) (user : ObjectId) (st : Store) :
  goodStore st -> userId (fst (findOrNew now user st)) = user.
Proof. intros GS. now apply findOrNew_good. Qed.

Lemma handle_writesOnly (req : Request) (st : Store) :
  goodStore st -> writesOnly (requestUser req) st (snd (handle req st)).
Proof.
  intros GS.
  destruct req as [now user | now user preset custom | f now user items
                  | f now user t c | f now user id t c | f now user id];
    cbn [handle requestUser].
  - now apply getSettings_writesOnly.
  - unfold putPrinciples. pose proof (findOrNew_user now user st GS) as U.
    destruct (findOrNew now user st) as [s next]. cbn [fst] in U.
    apply (save_writesOnly _ _ _ _ _ serverError serverError).
    destruct preset, custom; exact U.
  - unfold putList. destruct items as [items |]; [| now left].
    pose proof (findOrNew_user now user st GS) as U.
    destruct (findOrNew now user st) as [s next]. cbn [fst] in U.
    apply (save_writesOnly _ _ _ _ _ serverError serverError).
    now rewrite userId_setField.
  - unfold postItem. destruct (blankTitle t); [now left |].
    pose proof (findOrNew_user now user st GS) as U.
    destruct (findOrNew now user st) as [s next]. cbn [fst] in U.
    apply (save_writesOnly _ _ _ _ _ serverError serverError).
    now rewrite userId_setField.
  - unfold putItem. destruct (blankTitle t); [now left |].
    destruct (findOne user st) as [s |] eqn:F; [| now left].
    destruct (findItem id (getField f s)); [| now left].
    apply (save_writesOnly _ _ _ _ _ serverError serverError).
    rewrite userId_setField. now apply (GS user s F).
  - unfold deleteItem.
    destruct (findOne user st) as [s |] eqn:F; [| now left].
    destruct (findItem id (getField f s)); [| now left].
    apply (save_writesOnly _ _ _ _ _ serverError serverError).
    rewrite userId_setField. now apply (GS user s F).
Qed.

End SettingsStoreFacts.

Section SettingsProperties.
Import JsString TrimFacts UserSettingsModel SettingsRoutes Invariants SettingsFacts
  SettingsInvariants SettingsStoreFacts.

(** X8.  Adding a homework or plan item with a title that is not blank, on
    any store the settings routes can reach, answers 200 with the new item
    and the new list: the new item, with the submitted title and content
    trimmed, stands at the end of the list the document had (the default
    list when the user had no document yet); the document is stored with
    that list and with its other list and its principles as they were. *)
Theorem settings_item_appended :
  forall (reqs : list Request) (f : Field) (now : Z) (user : ObjectId)
         (title content : option string),
    blankTitle title = false ->
    let st := run reqs UserSettingsModel.empty in
    let before := fst (findOrNew now user st) in
    let item := mkItem (snd (findOrNew now user st))
                  (trim (orString title "")) (trim (orString content "")) in
    exists s : UserSettings,
      fst (postItem f now user title content st)
      = mkResponse 200 (fieldName f ++ "添加成功")
          (Some (ItemAndList f (Some item) (getField f before ++ [item])%list)) /\
      findOne user (snd (postItem f now user title content st)) = Some s /\
      getField f s = (getField f before ++ [item])%list /\
      getField (otherField f) s = getField (otherField f) before /\
      presetPrinciples s = presetPrinciples before /\
      customPrinciples s = customPrinciples before.
Proof.
  intros reqs f now user title content Hblank st before item.
  pose proof (run_good reqs _ empty_good) as GS. fold st in GS.
  destruct (findOrNew_good now user st GS) as [G U]. fold before in G, U.
  assert (I : goodItem item).
  { unfold item, goodItem. cbn [UserSettingsModel.title UserSettingsModel.content].
    pose proof (blankTitle_false title Hblank) as B. rewrite trim_idempotent in B.
    repeat split; [exact B | apply trim_idempotent | apply trim_idempotent]. }
  set (doc := setField f (getField f before ++ [item])%list before).
  assert (GD : goodSettings doc).
  { apply setField_good; [exact G |]. apply Forall_app. split.
    - now apply getField_good.
    - now constructor. }
  assert (UD : userId doc = user) by (unfold doc; now rewrite userId_setField).
  assert (E : postItem f now user title content st
              = (mkResponse 200 (fieldName f ++ "添加成功")
                   (Some (ItemAndList f (Some item) (getField f before ++ [item])%list)),
                 mkStore (<[user := stamped now doc]> (docs st))
                   (S (snd (findOrNew now user st))))).
  { unfold postItem. rewrite Hblank.
    unfold before, item, doc in *. destruct (findOrNew now user st) as [s0 next].
    cbn [fst snd] in *. unfold castItem. cbn [plainTitle plainContent].
    rewrite trim_idempotent. rewrite (save_user _ _ _ _ user GD UD).
    rewrite getField_stamped, getField_setField, last_snoc. reflexivity. }
  exists (stamped now doc). rewrite E. cbn [fst snd].
  split; [reflexivity |]. split; [apply lookup_insert_eq |].
  rewrite !getField_stamped. unfold doc.
  rewrite getField_setField, getField_other.
  split; [reflexivity |]. split; [reflexivity |].
  cbn [stamped presetPrinciples customPrinciples]. apply principles_setField.
Qed.

(** X8 at the first request of a user: the new item follows the three
    default plans. *)
Lemma settings_item_appended_witness :
  blankTitle (Some " 止损计划 ") = false /\
  exists s : UserSettings,
    findOne 1%nat (snd (postItem Plans 0 1%nat (Some " 止损计划 ") None
                          (run [] UserSettingsModel.empty))) = Some s /\
    List.map plainOf (getField Plans s) = (DEFAULT_PLANS ++ [mkPlain "止损计划" ""])%list.
Proof.
  assert (B : blankTitle (Some " 止损计划 ") = false) by (vm_compute; reflexivity).
  split; [exact B |].
  destruct (settings_item_appended [] Plans 0 1%nat (Some " 止损计划 ") None B)
    as (s & _ & F & L & _).
  exists s. split; [exact F |]. rewrite L. vm_compute. reflexivity.
Defined.

(** X9.  Updating an item that exists, with a title that is not blank, on a
    reachable store, answers 200 with the updated item and list: the list
    keeps its length, its order and its ObjectIds, the item with the given
    id carries the trimmed title and content, every other item is
    unchanged; the other list and the principles are as they were. *)
Theorem settings_item_updated :
  forall (reqs : list Request) (f : Field) (now : Z) (user id : ObjectId)
         (title content : option string) (existing : UserSettings) (old : TradingItem),
    let st := run reqs UserSettingsModel.empty in
    blankTitle title = false ->
    findOne user st = Some existing ->
    findItem id (getField f existing) = Some old ->
    let item := mkItem id (trim (orString title "")) (trim (orString content "")) in
    exists s : UserSettings,
      fst (putItem f now user id title content st)
      = mkResponse 200 (fieldName f ++ "更新成功")
          (Some (ItemAndList f (Some item) (getField f s))) /\
      findOne user (snd (putItem f now user id title content st)) = Some s /\
      List.map _id (getField f s) = List.map _id (getField f existing) /\
      Forall2 (fun i i' => if Nat.eqb (_id i) id then i' = item else i' = i)
        (getField f existing) (getField f s) /\
      findItem id (getField f s) = Some item /\
      getField (otherField f) s = getField (otherField f) existing /\
      presetPrinciples s = presetPrinciples existing /\
      customPrinciples s = customPrinciples existing.
Proof.
  intros reqs f now user id title content existing old st Hblank Hdoc Hitem item.
  pose proof (run_good reqs _ empty_good) as GS. fold st in GS.
  destruct (GS user existing Hdoc) as [U G].
  pose proof (blankTitle_false title Hblank) as B.
  set (items := setItem id (trim (orString title "")) (orString content "")
                  (getField f existing)).
  set (doc := setField f items existing).
  assert (GD : goodSettings doc).
  { apply setField_good; [exact G |]. apply setItem_good; [exact B |].
    now apply getField_good. }
  assert (UD : userId doc = user) by (unfold doc; now rewrite userId_setField).
  assert (T : trim (trim (orString title "")) = trim (orString title ""))
    by apply trim_idempotent.
  assert (FI : findItem id items = Some item).
  { pose proof (findItem_setItem id (trim (orString title "")) (orString content "")
                  (getField f existing) old Hitem) as FF.
    rewrite T in FF. exact FF. }
  assert (E : putItem f now user id title content st
              = (mkResponse 200 (fieldName f ++ "更新成功")
                   (Some (ItemAndList f (Some item) items)),
                 mkStore (<[user := stamped now doc]> (docs st)) (nextId st))).
  { unfold putItem. rewrite Hblank, Hdoc, Hitem.
    fold items. fold doc. rewrite (save_user _ _ _ _ user GD UD).
    rewrite getField_stamped. unfold doc. rewrite getField_setField, FI. reflexivity. }
  exists (stamped now doc). rewrite E. cbn [fst snd].
  rewrite !getField_stamped. unfold doc. rewrite getField_setField, getField_other.
  split; [reflexivity |]. split; [apply lookup_insert_eq |].
  split; [apply setItem_ids |].
  split.
  { pose proof (setItem_Forall2 id (trim (orString title "")) (orString content "")
                  (getField f existing)) as FF.
    rewrite T in FF. exact FF. }
  split; [exact FI |]. split; [reflexivity |].
  cbn [stamped presetPrinciples customPrinciples]. apply principles_setField.
Qed.

(** X9 on the second default homework item of a new user. *)
Lemma settings_item_updated_witness :
  blankTitle (Some "判断政策面 ") = false /\
  exists s : UserSettings,
    findOne 1%nat
      (snd (putItem Homework 9 1%nat 1%nat (Some "判断政策面 ") (Some " 看新闻联播 ")
              (run [GetSettings 0 1%nat] UserSettingsModel.empty))) = Some s /\
    findItem 1%nat (getField Homework s) = Some (mkItem 1%nat "判断政策面" "看新闻联播").
Proof.
  assert (B : blankTitle (Some "判断政策面 ") = false) by (vm_compute; reflexivity).
  split; [exact B |].
  destruct (settings_item_updated [GetSettings 0 1%nat] Homework 9 1%nat 1%nat
              (Some "判断政策面 ") (Some " 看新闻联播 ")
              (stamped 0 (fst (newUserSettings 0 1%nat 0%nat)))
              (mkItem 1%nat "判断政策面" "") B eq_refl eq_refl)
    as (s & _ & F & _ & _ & I & _).
  exists s. split; [exact F | exact I].
Defined.

(** X10.  Deleting an item that exists, on a reachable store, answers 200
    with the remaining list: the items with another id, in their order, and
    at least one item fewer; the other list and the principles are as they
    were.  Afterwards the id is gone: a second delete, or an update with a
    proper title, of that id is answered 404 and changes nothing. *)
Theorem settings_item_deleted :
  forall (reqs : list Request) (f : Field) (now : Z) (user id : ObjectId)
         (existing : UserSettings) (old : TradingItem),
    let st := run reqs UserSettingsModel.empty in
    findOne user st = Some existing ->
    findItem id (getField f existing) = Some old ->
    let st' := snd (deleteItem f now user id st) in
    exists s : UserSettings,
      fst (deleteItem f now user id st)
      = mkResponse 200 (fieldName f ++ "删除成功") (Some (ItemList f (getField f s))) /\
      findOne user st' = Some s /\
      getField f s = List.filter (fun i => negb (Nat.eqb (_id i) id)) (getField f existing) /\
      (List.length (getField f s) < List.length (getField f existing))%nat /\
      getField (otherField f) s = getField (otherField f) existing /\
      presetPrinciples s = presetPrinciples existing /\
      customPrinciples s = customPrinciples existing /\
      (forall now2 : Z,
          deleteItem f now2 user id st' = (mkResponse 404 (itemName f ++ "不存在") None, st')) /\
      (forall (now2 : Z) (title content : option string),
          blankTitle title = false ->
          putItem f now2 user id title content st'
          = (mkResponse 404 (itemName f ++ "不存在") None, st')).
Proof.
  intros reqs f now user id existing old st Hdoc Hitem st'.
  pose proof (run_good reqs _ empty_good) as GS. fold st in GS.
  destruct (GS user existing Hdoc) as [U G].
  set (doc := setField f (pullItem id (getField f existing)) existing).
  assert (GD : goodSettings doc).
  { apply setField_good; [exact G |]. apply pullItem_good. now apply getField_good. }
  assert (UD : userId doc = user) by (unfold doc; now rewrite userId_setField).
  assert (E : deleteItem f now user id st
              = (mkResponse 200 (fieldName f ++ "删除成功")
                   (Some (ItemList f (pullItem id (getField f existing)))),
                 mkStore (<[user := stamped now doc]> (docs st)) (nextId st))).
  { unfold deleteItem. rewrite Hdoc, Hitem. fold doc.
    rewrite (save_user _ _ _ _ user GD UD).
    rewrite getField_stamped. unfold doc. now rewrite getField_setField. }
  assert (F' : findOne user st' = Some (stamped now doc)).
  { unfold st'. rewrite E. apply lookup_insert_eq. }
  assert (L : getField f (stamped now doc) = pullItem id (getField f existing)).
  { rewrite getField_stamped. unfold doc. apply getField_setField. }
  exists (stamped now doc). rewrite L.
  split; [now rewrite E |]. split; [exact F' |]. split; [reflexivity |].
  split; [now apply (pullItem_shorter _ _ old) |].
  split; [rewrite getField_stamped; apply getField_other |].
  split; [apply principles_setField |]. split; [apply principles_setField |].
  split.
  - intros now2. unfold deleteItem. rewrite F', L, findItem_pullItem. reflexivity.
  - intros now2 title content Hblank. unfold putItem.
    rewrite Hblank, F', L, findItem_pullItem. reflexivity.
Qed.

(** X10 on the first default plan of a new user. *)
Lemma settings_item_deleted_witness :
  exists s : UserSettings,
    findOne 1%nat (snd (deleteItem Plans 9 1%nat 3%nat
                          (run [GetSettings 0 1%nat] UserSettingsModel.empty))) = Some s /\
    List.map plainOf (getField Plans s) = [mkPlain "买点计划" ""; mkPlain "卖出计划" ""].
Proof.
  destruct (settings_item_deleted [GetSettings 0 1%nat] Plans 9 1%nat 3%nat
              (stamped 0 (fst (newUserSettings 0 1%nat 0%nat)))
              (mkItem 3%nat "候选股票" "") eq_refl eq_refl)
    as (s & _ & F & L & _).
  exists s. split; [exact F |]. rewrite L. vm_compute. reflexivity.
Defined.

(** X11.  Reading the settings twice reads the same: on a reachable store,
    a second GET (at any later clock) returns the answer of the first and
    leaves the store as the first left it; the defaults are written at most
    once. *)
Theorem getSettings_repeatable :
  forall (reqs : list Request) (now now' : Z) (user : ObjectId),
    let st := run reqs UserSettingsModel.empty in
    getSettings now' user (snd (getSettings now user st)) = getSettings now user st /\
    code (fst (getSettings now user st)) = 200.
Proof.
  intros reqs now now' user st.
  pose proof (run_good reqs _ empty_good) as GS. fold st in GS.
  assert (K : forall (s : UserSettings) (st1 : Store),
             findOne user st1 = Some s ->
             tradingHomework s <> [] -> tradingPlans s <> [] ->
             getSettings now' user st1
             = (mkResponse 200 "获取成功"
                  (Some (AllSettings (presetPrinciples s) (customPrinciples s)
                           (tradingHomework s) (tradingPlans s))), st1)).
  { intros s st1 F H P. unfold getSettings. rewrite F.
    destruct (tradingHomework s) as [| h hs] eqn:EH; [congruence |].
    destruct (tradingPlans s) as [| p ps] eqn:EP; [congruence |].
    cbn. now rewrite EH, EP. }
  assert (N : forall (n : ObjectId) (d : list PlainItem), d <> [] -> castItems n d <> []).
  { intros n [| p d] H; [congruence | discriminate]. }
  assert (DH : DEFAULT_HOMEWORK <> []) by discriminate.
  assert (DP : DEFAULT_PLANS <> []) by discriminate.
  unfold getSettings at 2 3 4.
  destruct (findOne user st) as [existing |] eqn:F.
  - destruct (GS user existing F) as [U G]. cbv zeta.
    set (he := Nat.eqb (List.length (tradingHomework existing)) 0).
    set (pe := Nat.eqb (List.length (tradingPlans existing)) 0).
    set (s1 := if he then setField Homework (castItems (nextId st) DEFAULT_HOMEWORK) existing
               else existing).
    set (n1 := if he then (nextId st + List.length DEFAULT_HOMEWORK)%nat else nextId st).
    set (s2 := if pe then setField Plans (castItems n1 DEFAULT_PLANS) s1 else s1).
    assert (Hhe : he = false -> tradingHomework existing <> []).
    { unfold he. intros E%Nat.eqb_neq H. now rewrite H in E. }
    assert (Hpe : pe = false -> tradingPlans existing <> []).
    { unfold pe. intros E%Nat.eqb_neq H. now rewrite H in E. }
    assert (G1 : goodSettings s1).
    { unfold s1. destruct he; [| exact G].
      apply setField_good; [exact G |]. apply castItems_good, defaults_nonBlank. }
    assert (G2 : goodSettings s2).
    { unfold s2. destruct pe; [| exact G1].
      apply setField_good; [exact G1 |]. apply castItems_good, defaults_nonBlank. }
    assert (U2 : userId s2 = user).
    { unfold s2, s1. destruct pe, he; rewrite ?userId_setField; exact U. }
    assert (NH : tradingHomework s2 <> []).
    { unfold s2, s1. destruct he, pe; cbn [setField tradingHomework]; auto. }
    assert (NP : tradingPlans s2 <> []).
    { unfold s2, s1. destruct he, pe; cbn [setField tradingPlans]; auto. }
    destruct (he || pe) eqn:Need.
    + rewrite (save_user _ _ _ _ user G2 U2). cbn [fst snd code].
      split; [| reflexivity].
      rewrite (K (stamped now s2)); [reflexivity | apply lookup_insert_eq | exact NH | exact NP].
    + cbn [fst snd code]. split; [| reflexivity].
      apply orb_false_iff in Need as [Ehe Epe].
      assert (s2 = existing) as -> by (unfold s2, s1; now rewrite Ehe, Epe).
      apply K; [exact F | now apply Hhe | now apply Hpe].
  - destruct (newUserSettings_good now user (nextId st)) as [G U].
    unfold newUserSettings in *. cbn [fst] in G, U. cbv zeta.
    rewrite (save_user _ _ _ _ user G U). cbn [fst snd code].
    split; [| reflexivity].
    erewrite K; [reflexivity | apply lookup_insert_eq | |];
      cbn [stamped tradingHomework tradingPlans]; now apply N.
Qed.

(** X12.  A request to the settings routes reads and writes the document of
    the requesting user only: on a reachable store, the document of every
    other user is the same after the request as before. *)
Theorem settings_request_touches_one_user :
  forall (reqs : list Request) (req : Request) (other : ObjectId),
    other <> requestUser req ->
    let st := run reqs UserSettingsModel.empty in
    findOne other (snd (handle req st)) = findOne other st.
Proof.
  intros reqs req other Hne st.
  pose proof (run_good reqs _ empty_good) as GS. fold st in GS.
  destruct (handle_writesOnly req st GS) as [-> | (s & E)]; [reflexivity |].
  unfold findOne. rewrite E. apply lookup_insert_ne. congruence.
Qed.

(** X12 for users 1 and 2. *)
Lemma settings_request_touches_one_user_witness :
  2%nat <> requestUser (DeleteItem Homework 9 1%nat 0%nat) /\
  findOne 2%nat
    (snd (handle (DeleteItem Homework 9 1%nat 0%nat)
            (run [GetSettings 0 1%nat; GetSettings 1 2%nat] UserSettingsModel.empty)))
  = findOne 2%nat (run [GetSettings 0 1%nat; GetSettings 1 2%nat] UserSettingsModel.empty).
Proof.
  assert (H : 2%nat <> requestUser (DeleteItem Homework 9 1%nat 0%nat)) by discriminate.
  split; [exact H |].
  exact (settings_request_touches_one_user [GetSettings 0 1%nat; GetSettings 1 2%nat]
           (DeleteItem Homework 9 1%nat 0%nat) 2%nat H).
Defined.

(** X13.  Saving the principles, on a reachable store, answers 200 with the
    stored principles: the preset list as submitted, the custom principles
    that are not blank, as submitted (not trimmed) and in their order; a
    field that is not an array keeps its stored value; the homework and the
    plans are as they were (the defaults for a user without a document). *)
Theorem principles_saved :
  forall (reqs : list Request) (now : Z) (user : ObjectId)
         (preset : option (list PresetPrinciple)) (custom : option (list string)),
    let st := run reqs UserSettingsModel.empty in
    let before := fst (findOrNew now user st) in
    exists s : UserSettings,
      fst (putPrinciples now user preset custom st)
      = mkResponse 200 "交易原则保存成功"
          (Some (Principles (presetPrinciples s) (customPrinciples s))) /\
      findOne user (snd (putPrinciples now user preset custom st)) = Some s /\
      presetPrinciples s
      = match preset with
        | Some ps => ps
        | None => presetPrinciples before
        end /\
      customPrinciples s
      = match custom with
        | Some cs => List.filter (fun p => nonEmpty (trim p)) cs
        | None => customPrinciples before
        end /\
      tradingHomework s = tradingHomework before /\
      tradingPlans s = tradingPlans before.
Proof.
  intros reqs now user preset custom st before.
  pose proof (run_good reqs _ empty_good) as GS. fold st in GS.
  destruct (findOrNew_good now user st GS) as [G U]. fold before in G, U.
  assert (Fl : forall cs : list string,
             List.filter (fun p => nonEmpty p && nonEmpty (trim p)) cs
             = List.filter (fun p => nonEmpty (trim p)) cs).
  { intros cs. apply List.filter_ext. intros p.
    destruct (String.eqb_spec p "") as [-> | Hp]; [reflexivity |].
    unfold nonEmpty at 1. apply String.eqb_neq in Hp. now rewrite Hp. }
  unfold putPrinciples. unfold before in *.
  destruct (findOrNew now user st) as [s0 next]. cbn [fst] in *.
  set (s1 := match preset with
             | Some ps => mkSettings (userId s0) ps (customPrinciples s0)
                            (tradingHomework s0) (tradingPlans s0) (createdAt s0) (updatedAt s0)
             | None => s0
             end).
  set (s2 := match custom with
             | Some cs =>
                 mkSettings (userId s1) (presetPrinciples s1)
                   (List.filter (fun p => nonEmpty p && nonEmpty (trim p)) cs)
                   (tradingHomework s1) (tradingPlans s1) (createdAt s1) (updatedAt s1)
             | None => s1
             end).
  assert (G2 : goodSettings s2) by (unfold s2, s1; destruct preset, custom; exact G).
  assert (U2 : userId s2 = user) by (unfold s2, s1; destruct preset, custom; exact U).
  rewrite (save_user _ _ _ _ user G2 U2). cbn [fst snd].
  exists (stamped now s2). split; [reflexivity |]. split; [apply lookup_insert_eq |].
  unfold s2, s1. destruct preset, custom; cbn; rewrite ?Fl; repeat split.
Qed.

End SettingsProperties.
(* ===================================================================== *)
(** ** routes/daily.js: further properties of the daily endpoints *)
(* ===================================================================== *)

Module DailyStoreFacts.
Import JsString TrimFacts UserSettingsModel DailyRecordModel DailyRoutes Invariants
  SettingsFacts DailyFacts SettingsStoreFacts DailyInvariants.

(** A good record of [(user, d)] is saved under that key. *)
Lemma save_key (now : Z) (r : DailyRecord) (next : ObjectId) (st : DailyRecordModel.Store)
    (user : ObjectId) (d : string) :
  goodRecord r -> DailyRecordModel.userId r = user -> date r = d ->
  DailyRecordModel.save now r next st
  = Some (DailyRecordModel.stamped now r,
          DailyRecordModel.mkStore
            (<[(user, d) := DailyRecordModel.stamped now r]> (DailyRecordModel.docs st)) next).
Proof. intros G <- <-. now apply saveDaily_good. Qed.

Lemma save_writes (now : Z) (r : DailyRecord) (next : ObjectId)
    (st : DailyRecordModel.Store) (k : ObjectId * string) (r' : Response Data)
    (f : DailyRecord -> Response Data) :
  (DailyRecordModel.userId r, date r) = k ->
  let st' := snd (match DailyRecordModel.save now r next st with
                  | Some (s', st') => (f s', st')
                  | None => (r', st)
                  end) in
  st' = st \/
  exists w : DailyRecord,
    DailyRecordModel.docs st' = <[k := w]> (DailyRecordModel.docs st) /\
    (DailyRecordModel.userId w, date w) = k.
Proof.
  intros <-. unfold DailyRecordModel.save. destruct (validRecord r); [| now left].
  right. cbn [snd DailyRecordModel.docs]. eexists. split; reflexivity.
Qed.

(** A request writes at most one record, under its own key; it writes only
    when its date is well-formed or a record is stored under the key. *)
Lemma handle_writes (req : DailyRoutes.Request) (st : DailyRecordModel.Store) :
  goodDaily st ->
  snd (DailyRoutes.handle req st) = st \/
  (exists w : DailyRecord,
      DailyRecordModel.docs (snd (DailyRoutes.handle req st))
      = <[requestKey req := w]> (DailyRecordModel.docs st) /\
      (DailyRecordModel.userId w, date w) = requestKey req) /\
  (isDateFormat (snd (requestKey req)) = true \/
   exists r0 : DailyRecord, DailyRecordModel.docs st !! requestKey req = Some r0).
Proof.
  intros GS.
  assert (W : forall P Q R : Prop, P \/ Q -> R -> P \/ (Q /\ R)) by tauto.
  destruct req as [user d | now user d plans refl | now user d t c
                  | now user d id t c | now user d id | now user d refl];
    cbn [DailyRoutes.handle requestKey snd].
  - now left.
  - unfold putDaily. destruct (isDateFormat d) eqn:Hd; cbn [negb]; [| now left].
    destruct (findOrNewDaily_good now user d st GS (isDateFormat_nonEmpty d Hd))
      as (G & K & D).
    apply W; [| now left]. apply save_writes.
    destruct plans, refl; cbn; now rewrite K, D.
  - unfold postPlan. destruct (isDateFormat d) eqn:Hd; cbn [negb]; [| now left].
    destruct (SettingsRoutes.blankTitle t); [now left |].
    destruct (findOrNewDaily_good now user d st GS (isDateFormat_nonEmpty d Hd))
      as (G & K & D).
    apply W; [| now left]. apply save_writes. cbn. now rewrite K, D.
  - unfold putPlan, DailyRecordModel.findOne.
    destruct (SettingsRoutes.blankTitle t); [now left |].
    destruct (DailyRecordModel.docs st !! (user, d)) as [r |] eqn:E; [| now left].
    destruct (GS _ r E) as [K G].
    destruct (findItem id (tradingPlans r)); [| now left].
    apply W; [| right; eauto]. apply save_writes. exact K.
  - unfold deletePlan, DailyRecordModel.findOne.
    destruct (DailyRecordModel.docs st !! (user, d)) as [r |] eqn:E; [| now left].
    destruct (GS _ r E) as [K G].
    destruct (findItem id (tradingPlans r)); [| now left].
    apply W; [| right; eauto]. apply save_writes. exact K.
  - unfold putReflection. destruct (isDateFormat d) eqn:Hd; cbn [negb]; [| now left].
    destruct (findOrNewDaily_good now user d st GS (isDateFormat_nonEmpty d Hd))
      as (G & K & D).
    apply W; [| now left]. apply save_writes. cbn. now rewrite K, D.
Qed.

Lemma handle_dated (req : DailyRoutes.Request) (st : DailyRecordModel.Store) :
  goodDaily st -> datedStore st -> datedStore (snd (DailyRoutes.handle req st)).
Proof.
  intros GS DS.
  destruct (handle_writes req st GS) as [-> | [(w & E & K) V]]; [exact DS |].
  intros k r H. rewrite E in H.
  destruct (decide (requestKey req = k)) as [<- | NE].
  - rewrite lookup_insert_eq in H. injection H as <-. split; [exact K |].
    destruct V as [V | (r0 & V)].
    + rewrite <- K in V. exact V.
    + destruct (DS _ _ V) as [K0 D0]. rewrite <- K0 in K. injection K as _ ->. exact D0.
  - rewrite lookup_insert_ne in H by exact NE. now apply DS.
Qed.

Lemma run_dated (reqs : list DailyRoutes.Request) (st : DailyRecordModel.Store) :
  goodDaily st -> datedStore st -> datedStore (DailyRoutes.run reqs st).
Proof.
  revert st. induction reqs as [| req reqs IH]; intros st GS DS; [exact DS |].
  cbn [DailyRoutes.run List.fold_left]. apply IH.
  - now apply handleDaily_good.
  - now apply handle_dated.
Qed.

Lemma empty_dated : datedStore DailyRecordModel.empty.
Proof. intros k r H. cbn in H. rewrite lookup_empty in H. discriminate. Qed.

End DailyStoreFacts.

Section DailyProperties.
Import JsString TrimFacts UserSettingsModel DailyRecordModel DailyRoutes Invariants
  SettingsFacts DailyFacts SettingsStoreFacts DailyStoreFacts DailyInvariants.

(** X14.  What a PUT of a day stores, a GET of that day reads.  On a
    reachable store and a well-formed date the PUT answers 200 with the
    plans and the reflection of the record, and the GET that follows
    answers the same plans and reflection with [exists] true.  A submitted
    array of plans replaces the stored plans (blank titles dropped, fields
    trimmed), a submitted reflection is stored trimmed; a field that is not
    submitted keeps the stored value (empty for a new day). *)
Theorem daily_put_then_get :
  forall (reqs : list DailyRoutes.Request) (now : Z) (user : ObjectId) (date : string)
         (plans : option (list SettingsRoutes.BodyItem)) (reflection : option string),
    isDateFormat date = true ->
    let st := DailyRoutes.run reqs DailyRecordModel.empty in
    let before := DailyRoutes.findOrNew now user date st in
    exists (items : list PlanItem) (text : string),
      fst (putDaily now user date plans reflection st)
      = mkResponse 200 "保存成功" (Some (DayRecord date items text None)) /\
      getDaily user date (snd (putDaily now user date plans reflection st))
      = mkResponse 200 "获取成功" (Some (DayRecord date items text (Some true))) /\
      match plans with
      | Some submittedPlans => List.map plainOf items = submitted submittedPlans
      | None => items = tradingPlans before
      end /\
      text = match reflection with
             | Some s => trim s
             | None => DailyRecordModel.reflection before
             end.
Proof.
  intros reqs now user date plans reflection Hd st before.
  pose proof (runDaily_good reqs _ emptyDaily_good) as GS. fold st in GS.
  destruct (findOrNewDaily_good now user date st GS (isDateFormat_nonEmpty date Hd))
    as (G & K & D). fold before in G, K, D.
  set (plain := match plans with
                | Some items => SettingsRoutes.plainItems items
                | None => []
                end).
  set (r1 := match plans with
             | Some _ => setPlans (castItems (DailyRecordModel.nextId st) plain) before
             | None => before
             end).
  set (r2 := match reflection with
             | Some s => setReflection (trim s) r1
             | None => r1
             end).
  assert (G1 : goodRecord r1).
  { unfold r1, plain. destruct plans as [items |]; [| exact G].
    apply setPlans_good; [exact G |]. apply castItems_good, plainItems_nonBlank. }
  assert (G2 : goodRecord r2).
  { unfold r2. destruct reflection; [now apply setReflection_good | exact G1]. }
  assert (K2 : DailyRecordModel.userId r2 = user /\ DailyRecordModel.date r2 = date).
  { unfold r2, r1. destruct reflection, plans; cbn; now split. }
  destruct K2 as [U2 D2].
  assert (E : putDaily now user date plans reflection st
              = (mkResponse 200 "保存成功"
                   (Some (DayRecord date (tradingPlans r2) (DailyRecordModel.reflection r2)
                            None)),
                 DailyRecordModel.mkStore
                   (<[(user, date) := DailyRecordModel.stamped now r2]>
                      (DailyRecordModel.docs st))
                   (DailyRecordModel.nextId st + List.length plain)%nat)).
  { unfold putDaily. rewrite Hd. cbn [negb]. cbv zeta.
    fold before. fold plain. fold r1. fold r2.
    rewrite (save_key now r2 _ st user date G2 U2 D2).
    change (DailyRecordModel.date (DailyRecordModel.stamped now r2))
      with (DailyRecordModel.date r2).
    now rewrite D2. }
  exists (tradingPlans r2), (DailyRecordModel.reflection r2).
  split; [now rewrite E |].
  split.
  { rewrite E. cbn [snd]. unfold getDaily, DailyRecordModel.findOne. rewrite Hd.
    cbn [negb DailyRecordModel.docs]. rewrite lookup_insert_eq.
    change (DailyRecordModel.date (DailyRecordModel.stamped now r2))
      with (DailyRecordModel.date r2).
    now rewrite D2. }
  split.
  - unfold r2, r1, plain. destruct plans as [items |], reflection; cbn;
      try reflexivity; apply plainOf_plainItems.
  - unfold r2, r1. destruct reflection as [s |], plans; cbn;
      try reflexivity; apply trim_idempotent.
Qed.

(** X14 on a new day. *)
Lemma daily_put_then_get_witness :
  isDateFormat "2024-01-12" = true /\
  exists (items : list PlanItem) (text : string),
    getDaily 1%nat "2024-01-12"
      (snd (putDaily 5 1%nat "2024-01-12"
              (Some [SettingsRoutes.mkBodyItem (Some " 买点 ") None;
                     SettingsRoutes.mkBodyItem (Some "  ") (Some "x")])
              (Some " 管住手 ") (DailyRoutes.run [] DailyRecordModel.empty)))
    = mkResponse 200 "获取成功" (Some (DayRecord "2024-01-12" items text (Some true))) /\
    List.map plainOf items = [mkPlain "买点" ""] /\ text = "管住手".
Proof.
  split; [reflexivity |].
  destruct (daily_put_then_get [] 5 1%nat "2024-01-12"
              (Some [SettingsRoutes.mkBodyItem (Some " 买点 ") None;
                     SettingsRoutes.mkBodyItem (Some "  ") (Some "x")])
              (Some " 管住手 ") eq_refl) as (items & text & _ & R & P & T).
  exists items, text. split; [exact R |]. split; [exact P | exact T].
Defined.

(** X15.  Every record of a reachable store is filed under its own user
    and date, and its date has the form YYYY-MM-DD.  A request whose date
    is not of that form writes nothing and carries no data: it is answered
    400 by the four handlers that check the format (and by the plan update
    when its title is blank), and 404 by the plan update and the plan
    delete, which find no record. *)
Theorem daily_dates_well_formed :
  forall reqs : list DailyRoutes.Request,
    let st := DailyRoutes.run reqs DailyRecordModel.empty in
    (forall (k : ObjectId * string) (r : DailyRecord),
        DailyRecordModel.docs st !! k = Some r ->
        (DailyRecordModel.userId r, DailyRecordModel.date r) = k /\
        isDateFormat (DailyRecordModel.date r) = true) /\
    (forall req : DailyRoutes.Request,
        isDateFormat (snd (requestKey req)) = false ->
        snd (DailyRoutes.handle req st) = st /\
        data (fst (DailyRoutes.handle req st)) = None /\
        code (fst (DailyRoutes.handle req st))
        = match req with
          | PutPlan _ _ _ _ title _ => if SettingsRoutes.blankTitle title then 400 else 404
          | DeletePlan _ _ _ _ => 404
          | _ => 400
          end).
Proof.
  intros reqs st.
  pose proof (run_dated reqs _ emptyDaily_good empty_dated) as DS. fold st in DS.
  split; [exact DS |].
  intros req Hbad.
  assert (N : DailyRecordModel.findOne (fst (requestKey req)) (snd (requestKey req)) st = None).
  { unfold DailyRecordModel.findOne.
    destruct (DailyRecordModel.docs st !! (fst (requestKey req), snd (requestKey req)))
      as [r |] eqn:E; [| reflexivity].
    destruct (DS _ _ E) as [K D]. injection K as _ K. rewrite K in D. congruence. }
  destruct req as [user d | now user d plans refl | now user d t c
                  | now user d id t c | now user d id | now user d refl];
    cbn [requestKey fst snd] in Hbad, N; cbn [DailyRoutes.handle].
  - unfold getDaily. rewrite Hbad. repeat split.
  - unfold putDaily. rewrite Hbad. repeat split.
  - unfold postPlan. rewrite Hbad. repeat split.
  - unfold putPlan. rewrite N. destruct (SettingsRoutes.blankTitle t); repeat split.
  - unfold deletePlan. rewrite N. repeat split.
  - unfold putReflection. rewrite Hbad. repeat split.
Qed.

(** X16.  Saving the reflection of a day, on a reachable store and a
    well-formed date, answers 200 with the trimmed text and stores it; a
    reflection that is absent clears the stored one.  The plans of the day
    are as they were (none for a new day), and a GET of the day reads the
    plans and the new reflection. *)
Theorem reflection_saved :
  forall (reqs : list DailyRoutes.Request) (now : Z) (user : ObjectId) (date : string)
         (reflection : option string),
    isDateFormat date = true ->
    let st := DailyRoutes.run reqs DailyRecordModel.empty in
    let before := DailyRoutes.findOrNew now user date st in
    let text := trim (orString reflection "") in
    let st' := snd (putReflection now user date reflection st) in
    fst (putReflection now user date reflection st)
    = mkResponse 200 "保存成功" (Some (Reflection text)) /\
    getDaily user date st'
    = mkResponse 200 "获取成功" (Some (DayRecord date (tradingPlans before) text (Some true))) /\
    (reflection = None -> text = "").
Proof.
  intros reqs now user date reflection Hd st before text st'.
  pose proof (runDaily_good reqs _ emptyDaily_good) as GS. fold st in GS.
  destruct (findOrNewDaily_good now user date st GS (isDateFormat_nonEmpty date Hd))
    as (G & K & D). fold before in G, K, D.
  set (r := setReflection (trim (orString reflection "")) before).
  assert (Gr : goodRecord r) by now apply setReflection_good.
  assert (E : putReflection now user date reflection st
              = (mkResponse 200 "保存成功" (Some (Reflection text)),
                 DailyRecordModel.mkStore
                   (<[(user, date) := DailyRecordModel.stamped now r]>
                      (DailyRecordModel.docs st)) (DailyRecordModel.nextId st))).
  { unfold putReflection. rewrite Hd. cbn [negb]. cbv zeta. fold before. fold r.
    rewrite (save_key now r _ st user date Gr K D).
    unfold r, text. cbn [DailyRecordModel.stamped setReflection DailyRecordModel.reflection].
    now rewrite trim_idempotent. }
  split; [now rewrite E |].
  split.
  - unfold st'. rewrite E. cbn [snd]. unfold getDaily, DailyRecordModel.findOne.
    rewrite Hd. cbn [negb DailyRecordModel.docs]. rewrite lookup_insert_eq.
    unfold r, text.
    cbn [DailyRecordModel.stamped setReflection DailyRecordModel.reflection
         DailyRecordModel.date DailyRecordModel.tradingPlans].
    now rewrite trim_idempotent, D.
  - intros ->. reflexivity.
Qed.

(** X16 on a day that has a plan. *)
Lemma reflection_saved_witness :
  isDateFormat "2024-01-12" = true /\
  getDaily 1%nat "2024-01-12"
    (snd (putReflection 9 1%nat "2024-01-12" (Some "  今天没有手欠 ")
            (DailyRoutes.run [PostPlan 5 1%nat "2024-01-12" (Some "买点") None]
               DailyRecordModel.empty)))
  = mkResponse 200 "获取成功"
      (Some (DayRecord "2024-01-12" [mkItem 0%nat "买点" ""] "今天没有手欠" (Some true))).
Proof.
  split; [reflexivity |].
  destruct (reflection_saved [PostPlan 5 1%nat "2024-01-12" (Some "买点") None] 9 1%nat
              "2024-01-12" (Some "  今天没有手欠 ") eq_refl) as (_ & R & _).
  rewrite R. vm_compute. reflexivity.
Defined.

(** X17.  Adding a plan to a day, with a well-formed date and a title that
    is not blank, on a reachable store, answers 200 with the new plan and
    the new list: the new plan, title and content trimmed, stands at the end
    of the plans the day had (none for a new day, which the request
    creates); the reflection of the day is as it was. *)
Theorem daily_plan_appended :
  forall (reqs : list DailyRoutes.Request) (now : Z) (user : ObjectId) (date : string)
         (title content : option string),
    isDateFormat date = true ->
    SettingsRoutes.blankTitle title = false ->
    let st := DailyRoutes.run reqs DailyRecordModel.empty in
    let before := DailyRoutes.findOrNew now user date st in
    let item := mkItem (DailyRecordModel.nextId st)
                  (trim (orString title "")) (trim (orString content "")) in
    fst (postPlan now user date title content st)
    = mkResponse 200 "添加成功"
        (Some (ItemAndList (Some item) (tradingPlans before ++ [item])%list)) /\
    getDaily user date (snd (postPlan now user date title content st))
    = mkResponse 200 "获取成功"
        (Some (DayRecord date (tradingPlans before ++ [item])%list
                 (DailyRecordModel.reflection before) (Some true))).
Proof.
  intros reqs now user date title content Hd Hblank st before item.
  pose proof (runDaily_good reqs _ emptyDaily_good) as GS. fold st in GS.
  destruct (findOrNewDaily_good now user date st GS (isDateFormat_nonEmpty date Hd))
    as (G & K & D). fold before in G, K, D.
  assert (I : goodItem item).
  { unfold item, goodItem. cbn [UserSettingsModel.title UserSettingsModel.content].
    pose proof (SettingsFacts.blankTitle_false title Hblank) as B.
    rewrite trim_idempotent in B.
    repeat split; [exact B | apply trim_idempotent | apply trim_idempotent]. }
  set (r := setPlans (tradingPlans before ++ [item])%list before).
  assert (Gr : goodRecord r).
  { apply setPlans_good; [exact G |]. apply Forall_app. split; [apply G | now constructor]. }
  assert (E : postPlan now user date title content st
              = (mkResponse 200 "添加成功"
                   (Some (ItemAndList (Some item) (tradingPlans before ++ [item])%list)),
                 DailyRecordModel.mkStore
                   (<[(user, date) := DailyRecordModel.stamped now r]>
                      (DailyRecordModel.docs st)) (S (DailyRecordModel.nextId st)))).
  { unfold postPlan. rewrite Hd, Hblank. cbn [negb]. cbv zeta. fold before.
    unfold castItem. cbn [plainTitle plainContent]. rewrite trim_idempotent.
    fold item. fold r. rewrite (save_key now r _ st user date Gr K D).
    cbn [DailyRecordModel.stamped r setPlans DailyRecordModel.tradingPlans].
    unfold r. cbn [setPlans DailyRecordModel.tradingPlans]. now rewrite last_snoc. }
  split; [now rewrite E |].
  rewrite E. cbn [snd]. unfold getDaily, DailyRecordModel.findOne.
  rewrite Hd. cbn [negb DailyRecordModel.docs]. rewrite lookup_insert_eq.
  unfold r.
  cbn [DailyRecordModel.stamped setPlans DailyRecordModel.reflection
       DailyRecordModel.date DailyRecordModel.tradingPlans].
  now rewrite D.
Qed.

(** X17 on a new day. *)
Lemma daily_plan_appended_witness :
  isDateFormat "2024-01-12" = true /\
  SettingsRoutes.blankTitle (Some " 买点 ") = false /\
  getDaily 1%nat "2024-01-12"
    (snd (postPlan 5 1%nat "2024-01-12" (Some " 买点 ") (Some " 回踩五日线 ")
            (DailyRoutes.run [] DailyRecordModel.empty)))
  = mkResponse 200 "获取成功"
      (Some (DayRecord "2024-01-12" [mkItem 0%nat "买点" "回踩五日线"] "" (Some true))).
Proof.
  assert (B : SettingsRoutes.blankTitle (Some " 买点 ") = false) by (vm_compute; reflexivity).
  split; [reflexivity |]. split; [exact B |].
  destruct (daily_plan_appended [] 5 1%nat "2024-01-12" (Some " 买点 ") (Some " 回踩五日线 ")
              eq_refl B) as (_ & R).
  rewrite R. vm_compute. reflexivity.
Defined.

(** X18.  Updating a plan that exists in the record of a day, with a title
    that is not blank, on a reachable store, answers 200 with the updated
    plan and list: the list keeps its length, order and ObjectIds, the plan
    with the given id carries the trimmed title and content, every other
    plan is unchanged; the reflection is as it was. *)
Theorem daily_plan_updated :
  forall (reqs : list DailyRoutes.Request) (now : Z) (user : ObjectId) (date : string)
         (id : ObjectId) (title content : option string) (existing : DailyRecord)
         (old : PlanItem),
    let st := DailyRoutes.run reqs DailyRecordModel.empty in
    SettingsRoutes.blankTitle title = false ->
    DailyRecordModel.findOne user date st = Some existing ->
    findItem id (tradingPlans existing) = Some old ->
    let item := mkItem id (trim (orString title "")) (trim (orString content "")) in
    exists r : DailyRecord,
      fst (putPlan now user date id title content st)
      = mkResponse 200 "更新成功" (Some (ItemAndList (Some item) (tradingPlans r))) /\
      DailyRecordModel.findOne user date (snd (putPlan now user date id title content st))
      = Some r /\
      List.map _id (tradingPlans r) = List.map _id (tradingPlans existing) /\
      Forall2 (fun i i' => if Nat.eqb (_id i) id then i' = item else i' = i)
        (tradingPlans existing) (tradingPlans r) /\
      findItem id (tradingPlans r) = Some item /\
      DailyRecordModel.reflection r = DailyRecordModel.reflection existing.
Proof.
  intros reqs now user date id title content existing old st Hblank Hdoc Hitem item.
  pose proof (runDaily_good reqs _ emptyDaily_good) as GS. fold st in GS.
  destruct (GS _ existing Hdoc) as [K G]. injection K as U D.
  pose proof (SettingsFacts.blankTitle_false title Hblank) as B.
  set (items := setItem id (trim (orString title "")) (orString content "")
                  (tradingPlans existing)).
  set (r := setPlans items existing).
  assert (Gr : goodRecord r).
  { apply setPlans_good; [exact G |]. apply setItem_good; [exact B | apply G]. }
  assert (T : trim (trim (orString title "")) = trim (orString title ""))
    by apply trim_idempotent.
  assert (FI : findItem id items = Some item).
  { pose proof (findItem_setItem id (trim (orString title "")) (orString content "")
                  (tradingPlans existing) old Hitem) as FF.
    rewrite T in FF. exact FF. }
  assert (E : putPlan now user date id title content st
              = (mkResponse 200 "更新成功" (Some (ItemAndList (Some item) items)),
                 DailyRecordModel.mkStore
                   (<[(user, date) := DailyRecordModel.stamped now r]>
                      (DailyRecordModel.docs st)) (DailyRecordModel.nextId st))).
  { unfold putPlan. rewrite Hblank, Hdoc, Hitem. fold items. fold r.
    rewrite (save_key now r _ st user date Gr U D).
    cbn [DailyRecordModel.stamped DailyRecordModel.tradingPlans].
    unfold r. cbn [setPlans DailyRecordModel.tradingPlans]. now rewrite FI. }
  exists (DailyRecordModel.stamped now r). rewrite E. cbn [fst snd].
  split; [reflexivity |]. split; [apply lookup_insert_eq |].
  split; [apply setItem_ids |].
  split.
  { pose proof (setItem_Forall2 id (trim (orString title "")) (orString content "")
                  (tradingPlans existing)) as FF.
    rewrite T in FF. exact FF. }
  split; [exact FI | reflexivity].
Qed.

(** X18 on the plan of a day. *)
Lemma daily_plan_updated_witness :
  SettingsRoutes.blankTitle (Some "卖点") = false /\
  exists r : DailyRecord,
    DailyRecordModel.findOne 1%nat "2024-01-12"
      (snd (putPlan 9 1%nat "2024-01-12" 0%nat (Some "卖点") None
              (DailyRoutes.run [PostPlan 5 1%nat "2024-01-12" (Some "买点") (Some "x")]
                 DailyRecordModel.empty))) = Some r /\
    findItem 0%nat (tradingPlans r) = Some (mkItem 0%nat "卖点" "").
Proof.
  assert (B : SettingsRoutes.blankTitle (Some "卖点") = false) by (vm_compute; reflexivity).
  split; [exact B |].
  destruct (daily_plan_updated [PostPlan 5 1%nat "2024-01-12" (Some "买点") (Some "x")]
              9 1%nat "2024-01-12" 0%nat (Some "卖点") None
              (mkDaily 1%nat "2024-01-12" [mkItem 0%nat "买点" "x"] "" 5 5)
              (mkItem 0%nat "买点" "x") B eq_refl eq_refl)
    as (r & _ & F & _ & _ & I & _).
  exists r. split; [exact F | exact I].
Defined.

(** X19.  Deleting a plan that exists in the record of a day, on a
    reachable store, answers 200 with the remaining plans: the plans with
    another id, in their order, and at least one plan fewer; the record
    stays (also when it is left without plans) and its reflection is as it
    was.  Afterwards a second delete, or an update with a proper title, of
    that id is answered 404 and changes nothing. *)
Theorem daily_plan_deleted :
  forall (reqs : list DailyRoutes.Request) (now : Z) (user : ObjectId) (date : string)
         (id : ObjectId) (existing : DailyRecord) (old : PlanItem),
    let st := DailyRoutes.run reqs DailyRecordModel.empty in
    DailyRecordModel.findOne user date st = Some existing ->
    findItem id (tradingPlans existing) = Some old ->
    let st' := snd (deletePlan now user date id st) in
    let remaining := List.filter (fun i => negb (Nat.eqb (_id i) id)) (tradingPlans existing) in
    exists r : DailyRecord,
      fst (deletePlan now user date id st)
      = mkResponse 200 "删除成功" (Some (ItemList remaining)) /\
      DailyRecordModel.findOne user date st' = Some r /\
      tradingPlans r = remaining /\
      (List.length remaining < List.length (tradingPlans existing))%nat /\
      DailyRecordModel.reflection r = DailyRecordModel.reflection existing /\
      (forall now2 : Z,
          deletePlan now2 user date id st' = (mkResponse 404 "计划不存在" None, st')) /\
      (forall (now2 : Z) (title content : option string),
          SettingsRoutes.blankTitle title = false ->
          putPlan now2 user date id title content st'
          = (mkResponse 404 "计划不存在" None, st')).
Proof.
  intros reqs now user date id existing old st Hdoc Hitem st' remaining.
  pose proof (runDaily_good reqs _ emptyDaily_good) as GS. fold st in GS.
  destruct (GS _ existing Hdoc) as [K G]. injection K as U D.
  set (r := setPlans (pullItem id (tradingPlans existing)) existing).
  assert (Gr : goodRecord r).
  { apply setPlans_good; [exact G |]. apply pullItem_good, G. }
  assert (E : deletePlan now user date id st
              = (mkResponse 200 "删除成功" (Some (ItemList remaining)),
                 DailyRecordModel.mkStore
                   (<[(user, date) := DailyRecordModel.stamped now r]>
                      (DailyRecordModel.docs st)) (DailyRecordModel.nextId st))).
  { unfold deletePlan. rewrite Hdoc, Hitem. fold r.
    rewrite (save_key now r _ st user date Gr U D). reflexivity. }
  assert (F' : DailyRecordModel.findOne user date st' = Some (DailyRecordModel.stamped now r)).
  { unfold st'. rewrite E. apply lookup_insert_eq. }
  exists (DailyRecordModel.stamped now r).
  split; [now rewrite E |]. split; [exact F' |]. split; [reflexivity |].
  split; [now apply (pullItem_shorter _ _ old) |]. split; [reflexivity |].
  split.
  - intros now2. unfold deletePlan. rewrite F'.
    cbn [DailyRecordModel.stamped r setPlans DailyRecordModel.tradingPlans].
    unfold r. cbn [setPlans DailyRecordModel.tradingPlans].
    now rewrite findItem_pullItem.
  - intros now2 title content Hblank. unfold putPlan. rewrite Hblank, F'.
    unfold r. cbn [DailyRecordModel.stamped setPlans DailyRecordModel.tradingPlans].
    now rewrite findItem_pullItem.
Qed.

(** X19 on the only plan of a day. *)
Lemma daily_plan_deleted_witness :
  exists r : DailyRecord,
    DailyRecordModel.findOne 1%nat "2024-01-12"
      (snd (deletePlan 9 1%nat "2024-01-12" 0%nat
              (DailyRoutes.run [PostPlan 5 1%nat "2024-01-12" (Some "买点") (Some "x")]
                 DailyRecordModel.empty))) = Some r /\
    tradingPlans r = [].
Proof.
  destruct (daily_plan_deleted [PostPlan 5 1%nat "2024-01-12" (Some "买点") (Some "x")]
              9 1%nat "2024-01-12" 0%nat
              (mkDaily 1%nat "2024-01-12" [mkItem 0%nat "买点" "x"] "" 5 5)
              (mkItem 0%nat "买点" "x") eq_refl eq_refl)
    as (r & _ & F & L & _).
  exists r. split; [exact F | exact L].
Defined.

(** X20.  A request to the daily routes reads and writes the record of its
    own user and date only: on a reachable store, the record of every other
    (user, date) pair is the same after the request as before. *)
Theorem daily_request_touches_one_day :
  forall (reqs : list DailyRoutes.Request) (req : DailyRoutes.Request)
         (user : ObjectId) (date : string),
    (user, date) <> requestKey req ->
    let st := DailyRoutes.run reqs DailyRecordModel.empty in
    DailyRecordModel.findOne user date (snd (DailyRoutes.handle req st))
    = DailyRecordModel.findOne user date st.
Proof.
  intros reqs req user date Hne st.
  pose proof (runDaily_good reqs _ emptyDaily_good) as GS. fold st in GS.
  destruct (handle_writes req st GS) as [-> | [(w & E & _) _]]; [reflexivity |].
  unfold DailyRecordModel.findOne. rewrite E. apply lookup_insert_ne. congruence.
Qed.

(** X20 for two days of one user. *)
Lemma daily_request_touches_one_day_witness :
  (1%nat, "2024-01-11") <> requestKey (PutReflection 9 1%nat "2024-01-12" None) /\
  DailyRecordModel.findOne 1%nat "2024-01-11"
    (snd (DailyRoutes.handle (PutReflection 9 1%nat "2024-01-12" None)
            (DailyRoutes.run [PutReflection 5 1%nat "2024-01-11" (Some "稳")]
               DailyRecordModel.empty)))
  = DailyRecordModel.findOne 1%nat "2024-01-11"
      (DailyRoutes.run [PutReflection 5 1%nat "2024-01-11" (Some "稳")]
         DailyRecordModel.empty).
Proof.
  assert (H : (1%nat, "2024-01-11") <> requestKey (PutReflection 9 1%nat "2024-01-12" None))
    by discriminate.
  split; [exact H |].
  exact (daily_request_touches_one_day [PutReflection 5 1%nat "2024-01-11" (Some "稳")]
           (PutReflection 9 1%nat "2024-01-12" None) 1%nat "2024-01-11" H).
Defined.

End DailyProperties.
(* ===================================================================== *)
(** ** utils/sms.js, routes/user.js, middleware/auth.js: further
       properties of the verification codes and of the login token *)
(* ===================================================================== *)

Section SmsProperties.
Import Sms.

(** X21.  A verification with a wrong code, while the stored code has not
    expired, fails with the wrong-code message and leaves every entry as it
    is: the number of attempts is not limited, and the stored code still
    verifies afterwards (until it expires).  A verification for a phone
    without an entry changes nothing either, and no verification touches
    the entry of another phone. *)
Theorem wrong_code_keeps_entry :
  forall (phone wrong : string) (now : Z) (codes : gmap string StoredCode)
         (stored : StoredCode),
    codes !! phone = Some stored ->
    wrong <> code stored ->
    now <= expireAt stored ->
    verifySmsCode phone wrong now codes = (mkResult false "验证码错误", codes) /\
    (forall now2 : Z,
        now2 <= expireAt stored ->
        fst (verifySmsCode phone (code stored) now2
               (snd (verifySmsCode phone wrong now codes)))
        = mkResult true "验证成功") /\
    (forall (unknown anyCode : string) (now2 : Z),
        codes !! unknown = None ->
        verifySmsCode unknown anyCode now2 codes = (mkResult false "请先获取验证码", codes)) /\
    (forall (other anyCode : string) (now2 : Z),
        other <> phone ->
        snd (verifySmsCode phone anyCode now2 codes) !! other = codes !! other).
Proof.
  intros phone wrong now codes stored Hs Hw Hn.
  assert (E : verifySmsCode phone wrong now codes = (mkResult false "验证码错误", codes)).
  { unfold verifySmsCode. rewrite Hs.
    destruct (Z.ltb_spec (expireAt stored) now) as [G | _]; [lia |].
    destruct (String.eqb_spec (code stored) wrong) as [Q | _]; [congruence |].
    reflexivity. }
  split; [exact E |]. split; [| split].
  - intros now2 Hn2. rewrite E. cbn [snd]. unfold verifySmsCode. rewrite Hs.
    destruct (Z.ltb_spec (expireAt stored) now2) as [G | _]; [lia |].
    now rewrite String.eqb_refl.
  - intros unknown anyCode now2 Hu. unfold verifySmsCode. now rewrite Hu.
  - intros other anyCode now2 Ho. unfold verifySmsCode. rewrite Hs.
    destruct (expireAt stored <? now2); [cbn [snd]; now apply lookup_delete_ne |].
    destruct (String.eqb (code stored) anyCode); cbn [negb snd];
      [now apply lookup_delete_ne | reflexivity].
Qed.

(** X21 with three wrong guesses before the right code. *)
Lemma wrong_code_keeps_entry_witness :
  storeCode "13812345678" "654321" 0 ∅ !! "13812345678" = Some (mkStored "654321" 300000) /\
  fst (verifySmsCode "13812345678" "654321" 300000
         (snd (verifySmsCode "13812345678" "000000" 1000
                 (storeCode "13812345678" "654321" 0 ∅))))
  = mkResult true "验证成功".
Proof.
  assert (L : storeCode "13812345678" "654321" 0 ∅ !! "13812345678"
              = Some (mkStored "654321" 300000)) by apply lookup_insert_eq.
  split; [exact L |].
  assert (W : "000000" <> code (mkStored "654321" 300000)) by discriminate.
  assert (T : 1000 <= expireAt (mkStored "654321" 300000)) by (cbn; lia).
  destruct (wrong_code_keeps_entry "13812345678" "000000" 1000
              (storeCode "13812345678" "654321" 0 ∅) (mkStored "654321" 300000) L W T)
    as (_ & R & _).
  apply (R 300000). cbn. lia.
Defined.

(** X22.  [sendSmsCode] succeeds exactly in mock mode, or when the service
    is configured and the provider answers OK.  A send that fails leaves
    the stored codes as they are.  A send that succeeds replaces the entry
    of the phone (and no other entry) by the code sent, which is 123456 in
    mock mode, with an expiry five minutes after the send: from then on the
    code sent verifies up to the expiry, and a code that was stored for the
    phone before no longer does. *)
Theorem send_code_outcomes :
  forall (mockMode configured : bool) (generated : string) (reply : ProviderReply)
         (phone : string) (now : Z) (codes : gmap string StoredCode),
    let result := sendSmsCode mockMode configured generated reply phone now codes in
    let sent := if mockMode then "123456" else generated in
    (success (fst result) = true <->
     mockMode = true \/ (configured = true /\ reply = ReplyOK)) /\
    (success (fst result) = false -> snd result = codes) /\
    (success (fst result) = true ->
     snd result !! phone = Some (mkStored sent (now + 300000)) /\
     (forall other : string, other <> phone -> snd result !! other = codes !! other) /\
     (forall now2 : Z,
         now2 <= now + 300000 ->
         fst (verifySmsCode phone sent now2 (snd result)) = mkResult true "验证成功") /\
     (forall (earlier : string) (now2 : Z),
         earlier <> sent -> now2 <= now + 300000 ->
         verifySmsCode phone earlier now2 (snd result)
         = (mkResult false "验证码错误", snd result))).
Proof.
  intros mockMode configured generated reply phone now codes result sent.
  assert (S : forall c : string,
             let stored := storeCode phone c now codes in
             stored !! phone = Some (mkStored c (now + 300000)) /\
             (forall other : string, other <> phone -> stored !! other = codes !! other) /\
             (forall now2 : Z,
                 now2 <= now + 300000 ->
                 fst (verifySmsCode phone c now2 stored) = mkResult true "验证成功") /\
             (forall (earlier : string) (now2 : Z),
                 earlier <> c -> now2 <= now + 300000 ->
                 verifySmsCode phone earlier now2 stored
                 = (mkResult false "验证码错误", stored))).
  { intros c stored.
    assert (L : stored !! phone = Some (mkStored c (now + 300000)))
      by apply lookup_insert_eq.
    split; [exact L |]. split; [| split].
    - intros other Ho. unfold stored, storeCode. apply lookup_insert_ne. congruence.
    - intros now2 Hn. unfold verifySmsCode. rewrite L. cbn [expireAt code].
      destruct (Z.ltb_spec (now + 300000) now2) as [G | _]; [lia |].
      now rewrite String.eqb_refl.
    - intros earlier now2 He Hn. unfold verifySmsCode. rewrite L. cbn [expireAt code].
      destruct (Z.ltb_spec (now + 300000) now2) as [G | _]; [lia |].
      destruct (String.eqb_spec c earlier) as [Q | _]; [congruence | reflexivity]. }
  unfold result, sent, sendSmsCode.
  destruct mockMode.
  - cbn [fst snd success]. split; [split; auto |]. split; [discriminate |].
    intros _. apply S.
  - destruct configured; cbn [negb].
    + destruct reply; cbn [fst snd success].
      * split; [split; auto |]. split; [discriminate |]. intros _. apply S.
      * split; [split; [discriminate | intros [H | [_ H]]; discriminate] |].
        split; [reflexivity | discriminate].
      * split; [split; [discriminate | intros [H | [_ H]]; discriminate] |].
        split; [reflexivity | discriminate].
      * split; [split; [discriminate | intros [H | [_ H]]; discriminate] |].
        split; [reflexivity | discriminate].
    + cbn [fst snd success].
      split; [split; [discriminate | intros [H | [H _]]; discriminate] |].
      split; [reflexivity | discriminate].
Qed.

End SmsProperties.

Section TokenProperties.
Import UserModel UserRoutes AuthMiddleware.

(** X23.  A login with a phone under which, once trimmed, the lookup finds
    a registered user, and with a password that [bcrypt.compare] accepts,
    answers 200 with the user and a token; when [jwt.verify] decodes that
    token to the user's id (as it does for a token signed with the same
    secret, within its seven days), the auth middleware lets a request with
    the header "Bearer <token>" pass, as that user.  The user found is a
    stored user whose phone is the submitted phone without the white space
    around it. *)
Theorem login_token_passes_auth :
  forall (bcryptCompare : string -> string -> bool)
         (jwtSign : ObjectId -> string -> Z -> string)
         (jwtVerify : string -> string -> Z -> Verified)
         (JWT_SECRET : string) (now now' : Z) (users : list User)
         (phone password : string) (u : User),
    phone <> "" -> password <> "" ->
    findOne phone users = Some u ->
    comparePassword bcryptCompare u password = true ->
    jwtVerify (jwtSign (_id u) JWT_SECRET now) JWT_SECRET now' = Decoded (Some (_id u)) ->
    let token := jwtSign (_id u) JWT_SECRET now in
    login bcryptCompare jwtSign JWT_SECRET now (Some phone) (Some password) users
    = mkResponse 200 "登录成功"
        (Some (mkLoginData (mkUserView (_id u) (username u) (UserModel.phone u)) token)) /\
    In u users /\ UserModel.phone u = JsString.trim phone /\
    authMiddleware jwtVerify JWT_SECRET now' (Some ("Bearer " ++ token)) = Next (Some (_id u)).
Proof.
  intros cmp sign verify secret now now' users phone password u Hp Hw Hf Hc Hv token.
  assert (T : forall s, s <> "" -> truthy (Some s) = true /\ orString (Some s) "" = s).
  { intros s Hs. unfold truthy, orString.
    destruct (String.eqb_spec s ""); [contradiction | now split]. }
  split; [| split; [| split]].
  - unfold login. destruct (T phone Hp) as [-> ->]. destruct (T password Hw) as [-> ->].
    cbn [negb orb]. rewrite Hf, Hc. reflexivity.
  - unfold findOne in Hf. now apply find_some in Hf.
  - unfold findOne in Hf. apply find_some in Hf. destruct Hf as [_ Hf].
    now apply String.eqb_eq in Hf.
  - unfold authMiddleware.
    destruct (T ("Bearer " ++ token)) as [-> ->]; [discriminate |].
    cbn [negb]. cbv zeta. rewrite startsWith_Bearer, slice7_Bearer. unfold token.
    now rewrite Hv.
Qed.

(** X23 with one registered user, whose phone is submitted with blanks
    around it, a password check that compares strings and a verifier that
    reads the user's id off the token. *)
Lemma login_token_passes_auth_witness :
  let jwtSign := fun (userId : ObjectId) (_ : string) (_ : Z) =>
    JsString.repeatChar "x" userId in
  let jwtVerify := fun (token : string) (_ : string) (_ : Z) =>
    Decoded (Some (String.length token)) in
  login String.eqb jwtSign "s" 0 (Some " 13812345678 ") (Some "pw")
    [mkUser 3%nat "trader" "13812345678" "pw" 0]
  = mkResponse 200 "登录成功"
      (Some (mkLoginData (mkUserView 3%nat "trader" "13812345678") "xxx")) /\
  authMiddleware jwtVerify "s" 5
    (Some ("Bearer " ++ jwtSign 3%nat "s" 0)) = Next (Some 3%nat).
Proof.
  intros jwtSign jwtVerify.
  destruct (login_token_passes_auth String.eqb jwtSign jwtVerify "s" 0 5
              [mkUser 3%nat "trader" "13812345678" "pw" 0]
              " 13812345678 " "pw" (mkUser 3%nat "trader" "13812345678" "pw" 0)
              ltac:(discriminate) ltac:(discriminate) eq_refl eq_refl eq_refl)
    as (L & _ & _ & A).
  split; [exact L | exact A].
Defined.

End TokenProperties.
(* ===================================================================== *)
(** ** models/User.js, routes/user.js: registration, passwords, names *)
(* ===================================================================== *)

Module DecimalDigits.
Import JsString.

Local Abbreviation isDigit := DailyRoutes.isDigit.

(** The characters [String(n)] is written with. *)
Lemma string_of_uint_digits (d : Decimal.uint) :
  Forall (fun c => isDigit c = true) (list_ascii_of_string (NilEmpty.string_of_uint d)) /\
  String.length (NilEmpty.string_of_uint d) = Decimal.nb_digits d.
Proof.
  induction d as [| d [F L] | d [F L] | d [F L] | d [F L] | d [F L] | d [F L]
                  | d [F L] | d [F L] | d [F L] | d [F L]];
    cbn [NilEmpty.string_of_uint list_ascii_of_string String.length Decimal.nb_digits];
    [split; [constructor | reflexivity] | ..];
    (split; [constructor; [reflexivity | exact F] | now rewrite L]).
Qed.

Lemma of_uint_acc_lower (l : Decimal.uint) :
  forall acc : positive,
    (N.pos acc * 10 ^ N.of_nat (Decimal.nb_digits l) <= N.pos (Pos.of_uint_acc l acc))%N.
Proof.
  induction l as [| l IH | l IH | l IH | l IH | l IH | l IH | l IH | l IH | l IH | l IH];
    intros acc; cbn [Pos.of_uint_acc Decimal.nb_digits].
  - cbn. lia.
  - specialize (IH (10 * acc)%positive). rewrite Nat2N.inj_succ, N.pow_succ_r'. nia.
  - specialize (IH (1 + 10 * acc)%positive). rewrite Nat2N.inj_succ, N.pow_succ_r'. nia.
  - specialize (IH (2 + 10 * acc)%positive). rewrite Nat2N.inj_succ, N.pow_succ_r'. nia.
  - specialize (IH (3 + 10 * acc)%positive). rewrite Nat2N.inj_succ, N.pow_succ_r'. nia.
  - specialize (IH (4 + 10 * acc)%positive). rewrite Nat2N.inj_succ, N.pow_succ_r'. nia.
  - specialize (IH (5 + 10 * acc)%positive). rewrite Nat2N.inj_succ, N.pow_succ_r'. nia.
  - specialize (IH (6 + 10 * acc)%positive). rewrite Nat2N.inj_succ, N.pow_succ_r'. nia.
  - specialize (IH (7 + 10 * acc)%positive). rewrite Nat2N.inj_succ, N.pow_succ_r'. nia.
  - specialize (IH (8 + 10 * acc)%positive). rewrite Nat2N.inj_succ, N.pow_succ_r'. nia.
  - specialize (IH (9 + 10 * acc)%positive). rewrite Nat2N.inj_succ, N.pow_succ_r'. nia.
Qed.

Lemma nzhead_not_D0 (d u : Decimal.uint) : Decimal.nzhead d <> Decimal.D0 u.
Proof. induction d; cbn [Decimal.nzhead]; try discriminate. exact IHd. Qed.

(** The decimal writing of a positive number has no leading zero. *)
Lemma to_uint_head (p : positive) (l : Decimal.uint) : Pos.to_uint p <> Decimal.D0 l.
Proof.
  intros E.
  pose proof (DecimalPos.Unsigned.to_of (Pos.to_uint p)) as T.
  rewrite DecimalPos.Unsigned.of_to in T. cbn [N.to_uint] in T.
  rewrite E in T. unfold Decimal.unorm in T. cbn [Decimal.nzhead] in T.
  destruct (Decimal.nzhead l) eqn:Z; try discriminate.
  - injection T as T. subst l. exact (DecimalPos.Unsigned.to_uint_nonzero p E).
  - exact (nzhead_not_D0 l _ Z).
Qed.

Lemma nb_digits_bound (p : positive) (K : nat) :
  (N.pos p < 10 ^ N.of_nat K)%N -> (Decimal.nb_digits (Pos.to_uint p) <= K)%nat.
Proof.
  intros B.
  pose proof (DecimalPos.Unsigned.of_to p) as V.
  pose proof (DecimalPos.Unsigned.to_uint_nonnil p) as NN.
  pose proof (to_uint_head p) as NZ.
  destruct (Pos.to_uint p) as [| l | l | l | l | l | l | l | l | l | l];
    [congruence | exfalso; exact (NZ l eq_refl) | | | | | | | | |];
    cbn [Pos.of_uint] in V; cbn [Decimal.nb_digits];
    match type of V with N.pos (Pos.of_uint_acc _ ?k) = _ =>
      pose proof (of_uint_acc_lower l k) as LB end;
    rewrite V in LB;
    assert (H : (10 ^ N.of_nat (Decimal.nb_digits l) < 10 ^ N.of_nat K)%N) by nia;
    apply N.pow_lt_mono_r_iff in H; lia.
Qed.

(** [String(n)] for a natural number below [10 ^ K]: decimal digits, at
    least one and at most [K]. *)
Lemma ofInteger_digits (n : Z) (K : nat) :
  0 <= n < 10 ^ Z.of_nat K -> (0 < K)%nat ->
  Forall (fun c => isDigit c = true) (list_ascii_of_string (ofInteger n)) /\
  (1 <= String.length (ofInteger n) <= K)%nat.
Proof.
  intros [L U] HK. unfold ofInteger.
  destruct n as [| p | p]; [| | lia].
  - cbn. split; [repeat constructor | lia].
  - cbn [Z.to_int NilZero.string_of_int].
    assert (B : (N.pos p < 10 ^ N.of_nat K)%N).
    { apply N2Z.inj_lt. rewrite N2Z.inj_pow. cbn [Z.of_N].
      now rewrite nat_N_Z. }
    pose proof (nb_digits_bound p K B) as D.
    pose proof (DecimalPos.Unsigned.to_uint_nonnil p) as NN.
    destruct (string_of_uint_digits (Pos.to_uint p)) as [F Len].
    unfold NilZero.string_of_uint.
    destruct (Pos.to_uint p) eqn:E; [congruence | | | | | | | | | |];
      (split; [exact F | rewrite Len; cbn [Decimal.nb_digits] in *; lia]).
Qed.

End DecimalDigits.

Module UserFacts.
Import JsString UserModel UserSchema UserRoutes AccountRoutes UserInvariants.

Local Abbreviation isDigit := DailyRoutes.isDigit.

Lemma list_ascii_app (a b : string) :
  list_ascii_of_string (a ++ b) = (list_ascii_of_string a ++ list_ascii_of_string b)%list.
Proof.
  induction a as [| c a IH]; [reflexivity |].
  change (String c a ++ b) with (String c (a ++ b)). cbn [list_ascii_of_string].
  now rewrite IH.
Qed.

Lemma length16_app (a b : string) : length16 (a ++ b) = (length16 a + length16 b)%nat.
Proof.
  induction a as [| c a IH]; [reflexivity |].
  change (String c a ++ b) with (String c (a ++ b)). cbn [length16]. rewrite IH. lia.
Qed.

Lemma digit_range (d : ascii) : isDigit d = true -> (48 <= N_of_ascii d <= 57)%N.
Proof.
  unfold DailyRoutes.isDigit. cbv zeta. intros H. apply andb_true_iff in H as [A B].
  apply N.leb_le in A, B. lia.
Qed.

Lemma length16_digits (s : string) :
  Forall (fun c => isDigit c = true) (list_ascii_of_string s) ->
  length16 s = String.length s.
Proof.
  induction s as [| c s IH]; cbn [list_ascii_of_string length16 String.length];
    [reflexivity |].
  intros F. inversion F as [| ? ? Hc Hs]; subst. rewrite (IH Hs).
  apply digit_range in Hc. unfold utf16Units. cbv zeta.
  destruct (N.ltb_spec (N_of_ascii c) 128) as [_ | G]; [reflexivity | lia].
Qed.

Lemma length16_nonEmpty (s : string) : (0 < length16 s)%nat -> s <> "".
Proof. intros H ->. cbn in H. lia. Qed.

(** A byte list without white space at its two ends is left by [trim]. *)
Lemma trim_clear (s : string) :
  headClear whiteSpace1 whiteSpace2 whiteSpace3 (list_ascii_of_string s) = true ->
  headClear whiteSpace1 (fun b a => whiteSpace2 a b) (fun c b a => whiteSpace3 a b c)
    (List.rev (list_ascii_of_string s)) = true ->
  trim s = s.
Proof.
  intros H1 H2. unfold trim, trimStartBytes, trimEndBytes.
  rewrite (TrimFacts.headClear_dropLeading _ _ _ _ H1).
  rewrite (TrimFacts.headClear_dropLeading _ _ _ _ H2).
  rewrite rev_involutive. apply string_of_list_ascii_of_string.
Qed.

(** No white space ends with a digit. *)
Lemma digit_endClear (d : ascii) (r : list ascii) :
  isDigit d = true ->
  headClear whiteSpace1 (fun b a => whiteSpace2 a b) (fun c b a => whiteSpace3 a b c)
    (d :: r) = true.
Proof.
  intros Hd. apply digit_range in Hd.
  assert (W1 : whiteSpace1 d = false).
  { unfold whiteSpace1. cbv zeta.
    destruct (N.leb_spec 9 (N_of_ascii d)), (N.leb_spec (N_of_ascii d) 13),
             (N.eqb_spec (N_of_ascii d) 32); cbn; try reflexivity; lia. }
  assert (W2 : forall a, whiteSpace2 a d = false).
  { intros a. unfold whiteSpace2.
    destruct (N.eqb_spec (N_of_ascii d) 160) as [E | _]; [lia |]. apply andb_false_r. }
  assert (W3 : forall a b, whiteSpace3 a b d = false).
  { intros a b. unfold whiteSpace3. cbv zeta.
    destruct (N.eqb_spec (N_of_ascii d) 128) as [E | _]; [lia |].
    destruct (N.leb_spec 128 (N_of_ascii d)) as [E | _]; [lia |].
    destruct (N.eqb_spec (N_of_ascii d) 168) as [E | _]; [lia |].
    destruct (N.eqb_spec (N_of_ascii d) 169) as [E | _]; [lia |].
    destruct (N.eqb_spec (N_of_ascii d) 175) as [E | _]; [lia |].
    destruct (N.eqb_spec (N_of_ascii d) 159) as [E | _]; [lia |].
    destruct (N.eqb_spec (N_of_ascii d) 191) as [E | _]; [lia |].
    cbn [andb orb]. now rewrite !andb_false_r. }
  cbn [headClear]. rewrite W1. cbn [negb andb].
  destruct r as [| b [| c r]]; [reflexivity | |]; rewrite W2; cbn [negb andb];
    [reflexivity |]. now rewrite W3.
Qed.

(** A phone number that matches the pattern has no white space. *)
Lemma phoneRegex_trim (phone : string) :
  phoneRegex phone = true -> trim phone = phone /\ phone <> "".
Proof.
  unfold phoneRegex. intros H.
  destruct (list_ascii_of_string phone)
    as [| c0 [| c1 [| c2 [| c3 [| c4 [| c5 [| c6 [| c7 [| c8 [| c9 [| c10 [| c11 l]]]]]]]]]]]]
    eqn:E; try discriminate.
  apply andb_true_iff in H as [H D]. apply andb_true_iff in H as [H0 _].
  apply Ascii.eqb_eq in H0. subst c0.
  cbn [forallb] in D. rewrite !andb_true_iff in D.
  destruct D as (_ & _ & _ & _ & _ & _ & _ & _ & D10 & _).
  split.
  - apply trim_clear; rewrite E.
    + reflexivity.
    + cbn [List.rev List.app]. now apply digit_endClear.
  - intros ->. discriminate.
Qed.

(** At a phone that matches the pattern, the lookup compares the phone as
    it was submitted. *)
Lemma findOne_exact (phone : string) (users : list User) :
  phoneRegex phone = true ->
  findOne phone users = List.find (fun u => String.eqb (UserModel.phone u) phone) users.
Proof.
  intros H. unfold findOne. now destruct (phoneRegex_trim phone H) as [-> _].
Qed.

(** A generated name has no white space at its ends and 3 to 20
    characters. *)
Lemma generated_name (randomNum : Z) :
  0 <= randomNum < 10 ^ 18 ->
  validName (generateRandomUsername randomNum).
Proof.
  intros R. unfold validName, generateRandomUsername.
  destruct (DecimalDigits.ofInteger_digits randomNum 18 R) as [F [L1 L2]]; [lia |].
  split.
  - apply trim_clear; rewrite list_ascii_app.
    + reflexivity.
    + rewrite rev_app_distr.
      destruct (list_ascii_of_string (ofInteger randomNum)) as [| c l] eqn:E using rev_ind.
      { exfalso. assert (Z0 : String.length (ofInteger randomNum) = 0%nat).
        { rewrite <- (string_of_list_ascii_of_string (ofInteger randomNum)), E. reflexivity. }
        lia. }
      rewrite rev_app_distr. cbn [List.rev List.app].
      apply digit_endClear. apply Forall_app in F as [_ F]. now inversion F.
  - rewrite length16_app, (length16_digits _ F).
    change (length16 "用户") with 2%nat. lia.
Qed.

Lemma existsb_or_false {A : Type} (f g : A -> bool) (l : list A) :
  List.find f l = None -> List.find g l = None ->
  existsb (fun x => f x || g x) l = false.
Proof.
  intros Hf Hg. induction l as [| x l IH]; cbn in *; [reflexivity |].
  destruct (f x); [discriminate |]. destruct (g x); [discriminate |]. now apply IH.
Qed.

Lemma truthy_Some (s : string) : s <> "" -> truthy (Some s) = true /\ orString (Some s) "" = s.
Proof.
  intros Hs. unfold truthy, orString.
  destruct (String.eqb_spec s ""); [contradiction | now split].
Qed.

Section Hash.

Variable bcryptHash : string -> string -> string.

(** The document [create] inserts. *)
Lemma create_inserts (now : Z) (salt username phone password : string) (st : Users) :
  (2 <= length16 (trim username) <= 20)%nat ->
  phoneRegex phone = true ->
  (6 <= length16 password)%nat ->
  findByUsername username st = None ->
  findOne phone (docs st) = None ->
  create bcryptHash now salt username phone password st
  = inr (mkUser (nextId st) (trim username) phone (bcryptHash password salt) now,
         mkUsers (docs st ++ [mkUser (nextId st) (trim username) phone
                                (bcryptHash password salt) now])
           (S (nextId st))).
Proof.
  intros [N1 N2] HP HW FU FP.
  destruct (phoneRegex_trim phone HP) as [TP NP].
  unfold create. cbv zeta. rewrite TP.
  assert (V : validUser (trim username) phone password = true).
  { unfold validUser. rewrite HP.
    replace (nonEmpty (trim username)) with true
      by (symmetry; apply TrimFacts.nonEmpty_true, length16_nonEmpty; lia).
    replace (nonEmpty phone) with true by (symmetry; now apply TrimFacts.nonEmpty_true).
    replace (nonEmpty password) with true
      by (symmetry; apply TrimFacts.nonEmpty_true, length16_nonEmpty; lia).
    cbn [andb].
    destruct (Nat.leb_spec 2 (length16 (trim username))); [| lia].
    destruct (Nat.leb_spec (length16 (trim username)) 20); [| lia].
    destruct (Nat.leb_spec 6 (length16 password)); [reflexivity | lia]. }
  rewrite V. cbn [negb].
  unfold findByUsername, findOne in *. rewrite TP in FP.
  now rewrite (existsb_or_false _ _ _ FU FP).
Qed.

(** What [create] returns: an error, or the collection with one more
    document, which is valid and collides with no stored one. *)
Lemma create_cases (now : Z) (salt username phone password : string) (st : Users) :
  match create bcryptHash now salt username phone password st with
  | inl _ => True
  | inr (user, st') =>
      st' = mkUsers (docs st ++ [user]) (S (nextId st)) /\
      _id user = nextId st /\
      phoneRegex (UserModel.phone user) = true /\
      validName (UserModel.username user) /\
      ~ In (UserModel.phone user) (map UserModel.phone (docs st)) /\
      ~ In (UserModel.username user) (map UserModel.username (docs st))
  end.
Proof.
  unfold create. cbv zeta.
  destruct (validUser (trim username) (trim phone) password) eqn:V; cbn [negb]; [| exact I].
  destruct (existsb _ (docs st)) eqn:E; [exact I |].
  unfold validUser in V. rewrite !andb_true_iff in V.
  destruct V as ((((((_ & L1) & L2) & _) & HP) & _) & _).
  apply Nat.leb_le in L1, L2.
  cbn [_id UserModel.phone UserModel.username].
  split; [reflexivity |]. split; [reflexivity |]. split; [exact HP |].
  split; [split; [apply TrimFacts.trim_idempotent | lia] |].
  assert (X : forall v, In v (docs st) ->
                        UserModel.username v <> trim username /\
                        UserModel.phone v <> trim phone).
  { intros v Hv.
    assert (F : (String.eqb (UserModel.username v) (trim username) ||
                 String.eqb (UserModel.phone v) (trim phone)) = false).
    { destruct (_ || _) eqn:B; [| reflexivity].
      assert (T : existsb (fun v => String.eqb (UserModel.username v) (trim username) ||
                                    String.eqb (UserModel.phone v) (trim phone)) (docs st)
                  = true) by (apply existsb_exists; eauto).
      congruence. }
    apply orb_false_iff in F as [F1 F2]. now apply String.eqb_neq in F1, F2. }
  split; intros H; apply in_map_iff in H; destruct H as (v & Ev & Hv);
    destruct (X v Hv); congruence.
Qed.

End Hash.

Lemma sendSmsCode_success (mockMode configured : bool) (generated : string)
    (reply : Sms.ProviderReply) (phone : string) (now : Z)
    (codes : gmap string Sms.StoredCode) :
  Sms.success (fst (Sms.sendSmsCode mockMode configured generated reply phone now codes)) = true ->
  snd (Sms.sendSmsCode mockMode configured generated reply phone now codes)
  = Sms.storeCode phone (if mockMode then "123456" else generated) now codes.
Proof.
  unfold Sms.sendSmsCode. destruct mockMode; [reflexivity |].
  destruct configured; cbn [negb]; [| discriminate].
  destruct reply; cbn [fst snd Sms.success]; try discriminate. reflexivity.
Qed.

Lemma verify_stored (phone code : string) (now : Z) (codes : gmap string Sms.StoredCode)
    (stored : Sms.StoredCode) :
  codes !! phone = Some stored -> Sms.code stored = code -> now <= Sms.expireAt stored ->
  Sms.verifySmsCode phone code now codes = (Sms.mkResult true "验证成功", delete phone codes).
Proof.
  intros L C T. unfold Sms.verifySmsCode. rewrite L.
  destruct (Z.ltb_spec (Sms.expireAt stored) now) as [G | _]; [lia |].
  rewrite C, String.eqb_refl. reflexivity.
Qed.

(** The loop ends on the first free name. *)
Lemma freshUsername_some (draws : list Z) (st : Users) (randomNum : Z) :
  In randomNum draws ->
  findByUsername (generateRandomUsername randomNum) st = None ->
  exists free : Z,
    In free draws /\
    freshUsername draws st = Some (generateRandomUsername free) /\
    findByUsername (generateRandomUsername free) st = None.
Proof.
  induction draws as [| n draws IH]; [intros [] |].
  intros Hin Hfree. cbn [freshUsername].
  destruct (findByUsername (generateRandomUsername n) st) as [u |] eqn:F.
  - destruct Hin as [-> | Hin]; [congruence |].
    destruct (IH Hin Hfree) as (free & I & E & N).
    exists free. split; [now right |]. now split.
  - exists n. split; [now left |]. now split.
Qed.

Lemma find_map_fields {A : Type} (f : A -> A) (p : A -> bool) (l : list A) :
  (forall x, In x l -> p (f x) = p x) ->
  List.find p (List.map f l) = option_map f (List.find p l).
Proof.
  induction l as [| x l IH]; intros H; cbn [List.map List.find option_map]; [reflexivity |].
  rewrite (H x (or_introl eq_refl)). destruct (p x); [reflexivity |].
  apply IH. intros y Hy. apply H. now right.
Qed.

Lemma find_unique {A B : Type} (key : A -> B) (eqb : B -> B -> bool) (l : list A) (x : A) :
  (forall a b, eqb a b = true <-> a = b) ->
  List.NoDup (List.map key l) -> In x l ->
  List.find (fun y => eqb (key y) (key x)) l = Some x.
Proof.
  intros Heq N Hx.
  destruct (List.find (fun y => eqb (key y) (key x)) l) as [y |] eqn:F.
  - apply find_some in F. destruct F as [Hy E]. apply Heq in E.
    f_equal. exact (CheckInStoreFacts.NoDup_map_eq key l y x N Hy Hx E).
  - exfalso. apply (find_none _ _ F) in Hx.
    assert (T : eqb (key x) (key x) = true) by now apply Heq.
    congruence.
Qed.

(** Replacing the document of one id by a document with the same id, name
    and phone keeps the three lists of keys. *)
Lemma replace_keeps_keys (user user' : User) (st : Users) :
  List.NoDup (map _id (docs st)) -> In user (docs st) ->
  _id user' = _id user -> username user' = username user -> phone user' = phone user ->
  let docs' := List.map (fun v => if Nat.eqb (_id v) (_id user) then user' else v) (docs st) in
  List.map phone docs' = List.map phone (docs st) /\
  List.map username docs' = List.map username (docs st) /\
  List.map _id docs' = List.map _id (docs st) /\
  (forall v', In v' docs' ->
      exists v, In v (docs st) /\ _id v' = _id v /\ username v' = username v /\
                phone v' = phone v /\ (_id v <> _id user -> v' = v)).
Proof.
  intros N Hu I1 I2 I3 docs'.
  assert (K : forall v, In v (docs st) ->
                        let v' := if Nat.eqb (_id v) (_id user) then user' else v in
                        _id v' = _id v /\ username v' = username v /\ phone v' = phone v /\
                        (_id v <> _id user -> v' = v)).
  { intros v Hv. cbv zeta. destruct (Nat.eqb_spec (_id v) (_id user)) as [E | NE].
    - assert (v = user) as -> by exact (CheckInStoreFacts.NoDup_map_eq _id _ v user N Hv Hu E).
      repeat split; try assumption. intros C. now contradiction C.
    - repeat split. }
  unfold docs'. rewrite !List.map_map.
  split; [apply List.map_ext_in; intros v Hv; apply (K v Hv) |].
  split; [apply List.map_ext_in; intros v Hv; apply (K v Hv) |].
  split; [apply List.map_ext_in; intros v Hv; apply (K v Hv) |].
  intros v' Hv'. apply in_map_iff in Hv'. destruct Hv' as (v & <- & Hv).
  exists v. split; [exact Hv |]. apply (K v Hv).
Qed.

Lemma findById_In (uid : ObjectId) (st : Users) (u : User) :
  findById (Some uid) st = Some u -> In u (docs st) /\ _id u = uid.
Proof.
  unfold findById. intros F. apply find_some in F. destruct F as [H E].
  now apply Nat.eqb_eq in E.
Qed.

Lemma length16_list_app (a b : list ascii) :
  length16 (string_of_list_ascii (a ++ b))
  = (length16 (string_of_list_ascii a) + length16 (string_of_list_ascii b))%nat.
Proof.
  induction a as [| c a IH]; [reflexivity |].
  cbn [List.app string_of_list_ascii length16]. rewrite IH. lia.
Qed.

(** Trimming does not lengthen a string. *)
Lemma length16_trim_le (s : string) : (length16 (trim s) <= length16 s)%nat.
Proof.
  unfold trim.
  remember (list_ascii_of_string s) as l eqn:El.
  destruct (TrimFacts.dropLeading_suffix whiteSpace1 whiteSpace2 whiteSpace3 l) as (pre & E).
  fold (trimStartBytes l) in E.
  destruct (TrimFacts.trimEndBytes_prefix (trimStartBytes l)) as (post & E').
  assert (Ls : length16 s = length16 (string_of_list_ascii l))
    by (rewrite El; now rewrite string_of_list_ascii_of_string).
  rewrite Ls. rewrite E at 2. rewrite E' at 2. rewrite !length16_list_app. lia.
Qed.

Lemma storedName_valid (name : string) : validName name -> storedName name.
Proof. intros [T L]. split; [exact T | lia]. Qed.

(** What the name change stores is a stored name. *)
Lemma storedName_trim (name : string) :
  (length16 name <= 20)%nat -> storedName (trim name).
Proof.
  intros L. split; [apply TrimFacts.trim_idempotent |].
  pose proof (length16_trim_le name). lia.
Qed.

(** Renaming the document of one id to a name that no other document has
    keeps the names distinct. *)
Lemma rename_keeps_names (user user' : User) (st : Users) :
  List.NoDup (map username (docs st)) -> List.NoDup (map _id (docs st)) ->
  In user (docs st) ->
  (forall v : User, In v (docs st) -> username v = username user' -> _id v = _id user) ->
  List.NoDup
    (map username
       (List.map (fun v => if Nat.eqb (_id v) (_id user) then user' else v) (docs st))).
Proof.
  intros NU NI Hu Hfree.
  assert (Same : forall v, In v (docs st) -> _id v = _id user -> v = user).
  { intros v Hv E. exact (CheckInStoreFacts.NoDup_map_eq _id _ v user NI Hv Hu E). }
  rewrite List.map_map.
  apply StreakFacts.NoDup_map_inj_in.
  - intros x y Hx Hy E.
    destruct (Nat.eqb_spec (_id x) (_id user)) as [Ex | Nx],
             (Nat.eqb_spec (_id y) (_id user)) as [Ey | Ny].
    + rewrite (Same x Hx Ex), (Same y Hy Ey). reflexivity.
    + symmetry in E. apply (Hfree y Hy) in E. congruence.
    + apply (Hfree x Hx) in E. congruence.
    + exact (CheckInStoreFacts.NoDup_map_eq username _ x y NU Hx Hy E).
  - clear -NI. induction (docs st) as [| x l IH]; [constructor |].
    inversion NI as [| ? ? Hn N']; subst. constructor; [| now apply IH].
    intros H. apply Hn. now apply in_map.
Qed.

Section Router.

Variable bcryptHash : string -> string -> string.
Variable bcryptCompare : string -> string -> bool.
Variable jwtSign : ObjectId -> string -> Z -> string.
Variable errorMessage : SaveError -> string.

Section Keyed.

Variable nameOk : string -> Prop.
Hypothesis valid_ok : forall name : string, validName name -> nameOk name.

Lemma keyed_create (now : Z) (salt username phone password : string) (st : Users) :
  keyedBy nameOk st ->
  match create bcryptHash now salt username phone password st with
  | inl _ => True
  | inr (_, st') => keyedBy nameOk st'
  end.
Proof.
  intros (NP & NU & NI & V).
  pose proof (create_cases bcryptHash now salt username phone password st) as C.
  destruct (create bcryptHash now salt username phone password st) as [e | [user st']];
    [exact I |].
  destruct C as (-> & Hid & HP & HN & FP & FU).
  unfold keyedBy. cbn [docs nextId]. rewrite !map_app. cbn [map].
  split; [now apply CheckInStoreFacts.NoDup_snoc |].
  split; [now apply CheckInStoreFacts.NoDup_snoc |].
  split.
  { apply CheckInStoreFacts.NoDup_snoc; [exact NI |].
    intros H. apply in_map_iff in H. destruct H as (v & Ev & Hv).
    apply V in Hv. lia. }
  intros u Hu. apply in_app_or in Hu. destruct Hu as [Hu | [<- | []]].
  - destruct (V u Hu) as (B & P & Nm). split; [lia |]. split; [exact P | exact Nm].
  - split; [lia |]. split; [exact HP | now apply valid_ok].
Qed.

Lemma keyed_savePassword (salt : string) (user : User) (newPassword : string)
    (st : Users) :
  keyedBy nameOk st -> In user (docs st) ->
  match savePassword bcryptHash salt user newPassword st with
  | inl _ => True
  | inr st' => keyedBy nameOk st'
  end.
Proof.
  intros W Hu. unfold savePassword. cbv zeta.
  destruct (validUser _ _ _); cbn [negb]; [| exact I].
  destruct (negb (String.eqb newPassword (password user))); [| exact W].
  destruct W as (NP & NU & NI & V).
  destruct (replace_keeps_keys user
              (mkUser (_id user) (username user) (phone user)
                 (bcryptHash newPassword salt) (createdAt user)) st NI Hu
              eq_refl eq_refl eq_refl) as (EP & EU & EI & K).
  unfold keyedBy. cbn [docs nextId]. rewrite EP, EU, EI.
  split; [exact NP |]. split; [exact NU |]. split; [exact NI |].
  intros v' Hv'. destruct (K v' Hv') as (v & Hv & -> & -> & -> & _). now apply V.
Qed.

Lemma keyed_step (req : Request) (st : Users) :
  keyedBy nameOk st ->
  keyedBy nameOk (step bcryptHash bcryptCompare jwtSign errorMessage req st).
Proof.
  intros W.
  destruct req as [secret now salt username phone password
                  | secret now salt draws phone code codes
                  | salt uid old new]; cbn [step].
  - unfold register.
    destruct (_ || _); [exact W |]. destruct (negb _); [exact W |].
    destruct (findByUsername _ st); [exact W |]. destruct (findOne _ (docs st)); [exact W |].
    pose proof (keyed_create now salt (orString username "") (orString phone "")
                  (orString password "") st W) as C.
    destruct (create _ _ _ _ _ _ st) as [e | [user st']]; [exact W | exact C].
  - unfold registerWithCode.
    destruct (_ || _); [exact W |]. destruct (negb (phoneRegex _)); [exact W |].
    destruct (Sms.verifySmsCode _ _ _ _) as [verifyResult codes'].
    destruct (negb _); [exact W |].
    destruct (findOne _ (docs st)); [exact W |].
    destruct (freshUsername draws st) as [name |]; [| exact W].
    pose proof (keyed_create now salt name (orString phone "") "123456" st W) as C.
    destruct (create _ _ _ _ _ _ st) as [e | [user st']]; [exact W | exact C].
  - unfold changePassword.
    destruct (_ || _); [exact W |]. destruct (_ <? _)%nat; [exact W |].
    destruct (findById uid st) as [user |] eqn:F; [| exact W].
    destruct (negb _); [exact W |].
    assert (Hu : In user (docs st)).
    { destruct uid as [i |]; [| discriminate]. now apply (findById_In i). }
    pose proof (keyed_savePassword salt user (orString new "") st W Hu) as C.
    destruct (savePassword _ _ _ _ st) as [e | st']; [exact W | exact C].
Qed.

Lemma keyed_registerVerified (secret : string) (now : Z) (salt : string)
    (username phone password code : option string) (codes : gmap string Sms.StoredCode)
    (st : Users) :
  keyedBy nameOk st ->
  keyedBy nameOk
    (snd (registerVerified bcryptHash jwtSign errorMessage secret now salt
            username phone password code codes st)).
Proof.
  intros W. unfold registerVerified.
  destruct (_ || _); [exact W |]. destruct (negb (phoneRegex _)); [exact W |].
  destruct (Sms.verifySmsCode _ _ _ _) as [verifyResult codes'].
  destruct (negb _); [exact W |].
  destruct (findByUsername _ st); [exact W |]. destruct (findOne _ (docs st)); [exact W |].
  pose proof (keyed_create now salt (orString username "") (orString phone "")
                (orString password "") st W) as C.
  destruct (create _ _ _ _ _ _ st) as [e | [user st']]; [exact W | exact C].
Qed.

End Keyed.

Lemma step_wellFormed (req : Request) (st : Users) :
  wellFormed st -> wellFormed (step bcryptHash bcryptCompare jwtSign errorMessage req st).
Proof. exact (keyed_step validName (fun _ H => H) req st). Qed.

Lemma run_wellFormed (reqs : list Request) (st : Users) :
  wellFormed st -> wellFormed (run bcryptHash bcryptCompare jwtSign errorMessage reqs st).
Proof.
  revert st. induction reqs as [| req reqs IH]; intros st W; [exact W |].
  cbn [run List.fold_left]. apply IH. now apply step_wellFormed.
Qed.

(** The name change keeps the collection consistent. *)
Lemma consistent_changeUsername (nullMessage : string) (userId : option ObjectId)
    (username : option string) (st : Users) :
  consistent st -> consistent (snd (changeUsername nullMessage userId username st)).
Proof.
  intros W. unfold changeUsername.
  destruct (negb (truthy username)); [exact W |]. cbv zeta.
  set (name := orString username "").
  destruct (_ || _) eqn:G; [exact W |].
  destruct (List.find _ (docs st)) as [taken |] eqn:Q; [exact W |].
  destruct (findById userId st) as [user |] eqn:F; [| exact W].
  destruct userId as [uid |]; [| discriminate].
  destruct (findById_In uid st user F) as [Hu Hid].
  destruct W as (NP & NU & NI & V).
  apply orb_false_iff in G as [_ G]. apply Nat.ltb_ge in G.
  set (user' := mkUser (_id user) (trim name) (phone user) (password user) (createdAt user)).
  assert (Hfree : forall v : User,
             In v (docs st) -> UserModel.username v = UserModel.username user' ->
             _id v = _id user).
  { intros v Hv E. pose proof (find_none _ _ Q v Hv) as B. cbv beta in B.
    cbn [UserModel.username user'] in E. rewrite E, String.eqb_refl in B.
    cbn [andb] in B. apply negb_false_iff, Nat.eqb_eq in B. congruence. }
  assert (K : forall v, In v (docs st) ->
                        let v' := if Nat.eqb (_id v) (_id user) then user' else v in
                        _id v' = _id v /\ phone v' = phone v /\
                        (v' = user' \/ v' = v)).
  { intros v Hv. cbv zeta. destruct (Nat.eqb_spec (_id v) (_id user)) as [E | NE].
    - assert (v = user) as -> by exact (CheckInStoreFacts.NoDup_map_eq _id _ v user NI Hv Hu E).
      split; [reflexivity |]. split; [reflexivity | now left].
    - split; [reflexivity |]. split; [reflexivity | now right]. }
  unfold consistent, keyedBy. cbn [snd docs nextId].
  split.
  { rewrite List.map_map. erewrite List.map_ext_in; [exact NP |].
    intros v Hv. apply (K v Hv). }
  split; [exact (rename_keeps_names user user' st NU NI Hu Hfree) |].
  split.
  { rewrite List.map_map. erewrite List.map_ext_in; [exact NI |].
    intros v Hv. apply (K v Hv). }
  intros v' Hv'. apply in_map_iff in Hv'. destruct Hv' as (v & <- & Hv).
  destruct (K v Hv) as (E1 & E2 & [E3 | E3]); cbv zeta in E1, E2, E3.
  - rewrite E1, E2, E3. destruct (V v Hv) as (B & P & _).
    split; [exact B |]. split; [exact P |]. cbn [UserModel.username user'].
    now apply storedName_trim.
  - rewrite E3. destruct (V v Hv) as (B & P & N).
    split; [exact B |]. split; [exact P | exact N].
Qed.

Lemma write_consistent (req : Write) (st : Users) :
  consistent st -> consistent (write bcryptHash bcryptCompare jwtSign errorMessage req st).
Proof.
  intros W. destruct req as [req | secret now salt username phone password code codes
                            | nullMessage uid username]; cbn [write].
  - exact (keyed_step storedName storedName_valid req st W).
  - exact (keyed_registerVerified storedName storedName_valid secret now salt
             username phone password code codes st W).
  - now apply consistent_changeUsername.
Qed.

Lemma writes_consistent (reqs : list Write) (st : Users) :
  consistent st -> consistent (writes bcryptHash bcryptCompare jwtSign errorMessage reqs st).
Proof.
  revert st. induction reqs as [| req reqs IH]; intros st W; [exact W |].
  cbn [writes List.fold_left]. apply IH. now apply write_consistent.
Qed.

End Router.

Lemma empty_wellFormed : wellFormed UserSchema.empty.
Proof.
  unfold wellFormed. cbn [docs nextId UserSchema.empty map].
  split; [constructor |]. split; [constructor |]. split; [constructor |]. intros u [].
Qed.

Lemma empty_consistent : consistent UserSchema.empty.
Proof.
  unfold consistent, keyedBy. cbn [docs nextId UserSchema.empty map].
  split; [constructor |]. split; [constructor |]. split; [constructor |]. intros u [].
Qed.

End UserFacts.

Section AccountProperties.
Import JsString UserModel UserSchema UserRoutes AccountRoutes UserInvariants UserFacts.

(** X24.  Registration followed by login.  A registration with a name of 2
    to 20 characters (after trimming), a phone that matches the pattern and
    a password of at least 6 characters, when neither the name nor the phone
    is taken, answers 200 with the new user and a token, and appends one
    user: the name trimmed, the password replaced by its bcrypt hash.  A
    login with the same phone and password (which [bcrypt.compare] accepts
    against its own hash) then answers 200 with that user. *)
Theorem register_then_login :
  forall (bcryptHash : string -> string -> string) (bcryptCompare : string -> string -> bool)
         (jwtSign : ObjectId -> string -> Z -> string) (errorMessage : SaveError -> string)
         (JWT_SECRET : string) (now now' : Z) (salt username phone password : string)
         (st : Users),
    bcryptCompare password (bcryptHash password salt) = true ->
    (2 <= length16 (trim username) <= 20)%nat ->
    phoneRegex phone = true ->
    (6 <= length16 password)%nat ->
    findByUsername username st = None ->
    findOne phone (docs st) = None ->
    let user := mkUser (nextId st) (trim username) phone (bcryptHash password salt) now in
    let view := mkUserView (nextId st) (trim username) phone in
    let result := register bcryptHash jwtSign errorMessage JWT_SECRET now salt
                    (Some username) (Some phone) (Some password) st in
    fst result
    = mkResponse 200 "注册成功"
        (Some (mkLoginData view (jwtSign (nextId st) JWT_SECRET now))) /\
    docs (snd result) = (docs st ++ [user])%list /\
    login bcryptCompare jwtSign JWT_SECRET now' (Some phone) (Some password) (docs (snd result))
    = mkResponse 200 "登录成功"
        (Some (mkLoginData view (jwtSign (nextId st) JWT_SECRET now'))).
Proof.
  intros hash cmp sign msg secret now now' salt username phone password st
         Hcmp Hname Hphone Hpw FU FP user view result.
  destruct (phoneRegex_trim phone Hphone) as [_ NP].
  assert (NW : password <> "") by (apply length16_nonEmpty; lia).
  assert (NU : username <> "").
  { intros ->. cbn in Hname. lia. }
  destruct (truthy_Some username NU) as [T1 O1].
  destruct (truthy_Some phone NP) as [T2 O2].
  destruct (truthy_Some password NW) as [T3 O3].
  assert (R : result = (registered sign secret now user,
                        mkUsers (docs st ++ [user]) (S (nextId st)))).
  { unfold result, register. rewrite T1, T2, T3, O1, O2, O3. cbn [negb orb].
    rewrite Hphone. cbn [negb]. rewrite FU, FP.
    now rewrite (create_inserts hash now salt username phone password st Hname Hphone Hpw FU FP). }
  rewrite R. cbn [fst snd docs]. split; [reflexivity |]. split; [reflexivity |].
  unfold login. rewrite T2, T3, O2, O3. cbn [negb orb].
  assert (F : findOne phone (docs st ++ [user]) = Some user).
  { rewrite findOne_exact in * by exact Hphone.
    rewrite (CheckInStoreFacts.find_app_none _ _ user FP).
    cbn [UserModel.phone user]. now rewrite String.eqb_refl. }
  rewrite F. unfold comparePassword. cbn [UserModel.password user]. rewrite Hcmp.
  reflexivity.
Qed.

(** X24 on the empty collection, with a hash that marks the password and a
    comparison that checks the mark. *)
Lemma register_then_login_witness :
  let bcryptHash := fun (password salt : string) => "$" ++ password in
  let bcryptCompare := fun (input stored : string) => String.eqb ("$" ++ input) stored in
  let jwtSign := fun (_ : ObjectId) (_ : string) (_ : Z) => "t" in
  login bcryptCompare jwtSign "s" 9 (Some "13812345678") (Some "secret1")
    (docs (snd (register bcryptHash jwtSign (fun _ => "") "s" 0 "salt"
                  (Some " 张三 ") (Some "13812345678") (Some "secret1") UserSchema.empty)))
  = mkResponse 200 "登录成功"
      (Some (mkLoginData (mkUserView 0%nat "张三" "13812345678") "t")).
Proof.
  intros bcryptHash bcryptCompare jwtSign.
  refine (proj2 (proj2 (register_then_login bcryptHash bcryptCompare jwtSign (fun _ => "")
                          "s" 0 9 "salt" " 张三 " "13812345678" "secret1" UserSchema.empty
                          eq_refl _ eq_refl _ eq_refl eq_refl)));
    vm_compute; lia.
Defined.

(** X25.  A registration with a phone that is registered, or with a name
    that (trimmed) is the name of a user, is answered 400 without data and
    leaves the collection as it is; when the three fields are present and
    the phone matches the pattern, the message names the name if it is
    taken, and the phone otherwise. *)
Theorem register_conflict_refused :
  forall (bcryptHash : string -> string -> string)
         (jwtSign : ObjectId -> string -> Z -> string) (errorMessage : SaveError -> string)
         (JWT_SECRET : string) (now : Z) (salt : string)
         (username phone password : option string) (st : Users),
    (exists u : User, findOne (orString phone "") (docs st) = Some u) \/
    (exists u : User, findByUsername (orString username "") st = Some u) ->
    let result := register bcryptHash jwtSign errorMessage JWT_SECRET now salt
                    username phone password st in
    code (fst result) = 400 /\ data (fst result) = None /\ snd result = st /\
    (truthy username = true -> truthy phone = true -> truthy password = true ->
     phoneRegex (orString phone "") = true ->
     message (fst result)
     = match findByUsername (orString username "") st with
       | Some _ => "用户名已被使用，请换一个"
       | None => "该手机号已注册，请直接登录"
       end).
Proof.
  intros hash sign msg secret now salt username phone password st H result.
  unfold result, register.
  destruct (truthy username), (truthy phone), (truthy password); cbn [negb orb];
    try (repeat split; intros; discriminate).
  destruct (phoneRegex (orString phone "")); cbn [negb];
    [| repeat split; intros; discriminate].
  destruct (findByUsername (orString username "") st) as [v |] eqn:FU;
    [repeat split |].
  destruct H as [(u & FP) | (u & FU')]; [| discriminate].
  rewrite FP. repeat split.
Qed.

(** X25 at a second registration with the phone of the first. *)
Lemma register_conflict_refused_witness :
  let st := mkUsers [mkUser 0%nat "张三" "13812345678" "$secret1" 0] 1%nat in
  register (fun password _ => "$" ++ password) (fun _ _ _ => "t") (fun _ => "") "s" 5 "salt"
    (Some "李四") (Some "13812345678") (Some "secret2") st
  = (mkResponse 400 "该手机号已注册，请直接登录" None, st).
Proof.
  intros st.
  assert (H : (exists u : User, findOne (orString (Some "13812345678") "") (docs st) = Some u) \/
              (exists u : User, findByUsername (orString (Some "李四") "") st = Some u)).
  { left. eexists. reflexivity. }
  destruct (register_conflict_refused (fun password _ => "$" ++ password) (fun _ _ _ => "t")
              (fun _ => "") "s" 5 "salt" (Some "李四") (Some "13812345678") (Some "secret2")
              st H) as (C & D & S & M).
  specialize (M eq_refl eq_refl eq_refl eq_refl).
  destruct (register _ _ _ _ _ _ _ _ _ st) as [[c m d] st'].
  cbn [fst snd code data message] in *. subst. reflexivity.
Defined.

(** X26.  Registration by verification code.  When [sendCode] answers 200
    for a phone that matches the pattern, a registration of that phone with
    the code sent (123456 in mock mode), within five minutes, for a phone
    that is not registered, succeeds as soon as one of the numbers drawn
    gives a name that is free: it answers 200, appends one user with a
    generated name ("用户" and the number drawn) and the bcrypt hash of the
    password 123456, and removes the code.  A login with the phone and the
    password 123456 then answers 200 with that user. *)
Theorem code_registration_then_login :
  forall (bcryptHash : string -> string -> string) (bcryptCompare : string -> string -> bool)
         (jwtSign : ObjectId -> string -> Z -> string) (errorMessage : SaveError -> string)
         (mockMode configured : bool) (generated : string) (reply : Sms.ProviderReply)
         (JWT_SECRET : string) (sentAt now now' : Z) (salt : string) (draws : list Z)
         (randomNum : Z) (phone : string) (codes : gmap string Sms.StoredCode) (st : Users),
    phoneRegex phone = true ->
    code (fst (sendCode mockMode configured generated reply sentAt (Some phone) codes)) = 200 ->
    let codes' := snd (sendCode mockMode configured generated reply sentAt (Some phone) codes) in
    let sent := if mockMode then "123456" else generated in
    sent <> "" ->
    now <= sentAt + 300000 ->
    findOne phone (docs st) = None ->
    Forall (fun n => 10000000 <= n < 100000000) draws ->
    In randomNum draws ->
    findByUsername (generateRandomUsername randomNum) st = None ->
    bcryptCompare "123456" (bcryptHash "123456" salt) = true ->
    exists free : Z,
      In free draws /\
      let user := mkUser (nextId st) (generateRandomUsername free) phone
                    (bcryptHash "123456" salt) now in
      let view := mkUserView (nextId st) (generateRandomUsername free) phone in
      registerWithCode bcryptHash jwtSign errorMessage JWT_SECRET now salt draws
        (Some phone) (Some sent) codes' st
      = Some (mkResponse 200 "注册成功"
                (Some (mkLoginData view (jwtSign (nextId st) JWT_SECRET now))),
              delete phone codes',
              mkUsers (docs st ++ [user])%list (S (nextId st))) /\
      login bcryptCompare jwtSign JWT_SECRET now' (Some phone) (Some "123456")
        (docs st ++ [user])%list
      = mkResponse 200 "登录成功"
          (Some (mkLoginData view (jwtSign (nextId st) JWT_SECRET now'))).
Proof.
  intros hash cmp sign msg mockMode configured generated reply secret sentAt now now' salt
         draws randomNum phone codes st Hphone Hsent codes' sent Hne Hnow FP Hdraws Hin Hfree
         Hcmp.
  destruct (phoneRegex_trim phone Hphone) as [_ NP].
  destruct (truthy_Some phone NP) as [T2 O2].
  destruct (truthy_Some sent Hne) as [T3 O3].
  assert (C : codes' = Sms.storeCode phone sent sentAt codes).
  { unfold codes', sent in *. unfold sendCode in *. rewrite T2, O2 in *. cbn [negb] in *.
    rewrite Hphone in *. cbn [negb] in *.
    pose proof (sendSmsCode_success mockMode configured generated reply phone sentAt codes) as S.
    destruct (Sms.sendSmsCode mockMode configured generated reply phone sentAt codes)
      as [result stored].
    cbn [fst snd code] in *. destruct (Sms.success result); [now apply S | discriminate]. }
  assert (V : Sms.verifySmsCode phone sent now codes'
              = (Sms.mkResult true "验证成功", delete phone codes')).
  { apply (verify_stored phone sent now codes' (Sms.mkStored sent (sentAt + 5 * 60 * 1000))).
    - rewrite C. apply lookup_insert_eq.
    - reflexivity.
    - cbn [Sms.expireAt]. lia. }
  destruct (freshUsername_some draws st randomNum Hin Hfree) as (free & If & Ef & Nf).
  assert (R : 0 <= free < 10 ^ 18).
  { rewrite List.Forall_forall in Hdraws. specialize (Hdraws free If). lia. }
  destruct (generated_name free R) as [Tn Ln].
  exists free. split; [exact If |]. cbv zeta.
  assert (W : (6 <= length16 "123456")%nat) by (vm_compute; lia).
  assert (Ln' : (2 <= length16 (trim (generateRandomUsername free)) <= 20)%nat)
    by now rewrite Tn.
  pose proof (create_inserts hash now salt (generateRandomUsername free) phone "123456" st
                Ln' Hphone W Nf FP) as Cr.
  rewrite Tn in Cr.
  split.
  - unfold registerWithCode. rewrite T2, T3, O2, O3. cbn [negb orb].
    rewrite Hphone. cbn [negb]. rewrite V. cbn [Sms.success negb]. rewrite FP, Ef, Cr.
    reflexivity.
  - unfold login. rewrite T2, O2. cbn [truthy orString String.eqb Ascii.eqb negb orb].
    set (user := mkUser (nextId st) (generateRandomUsername free) phone
                   (hash "123456" salt) now).
    assert (F : findOne phone (docs st ++ [user]) = Some user).
    { rewrite findOne_exact in * by exact Hphone.
      rewrite (CheckInStoreFacts.find_app_none _ _ user FP).
      cbn [UserModel.phone user]. now rewrite String.eqb_refl. }
    rewrite F. unfold comparePassword. cbn [UserModel.password user]. rewrite Hcmp.
    reflexivity.
Qed.

(** X26 in mock mode on the empty collection. *)
Lemma code_registration_then_login_witness :
  let bcryptHash := fun (password salt : string) => "$" ++ password in
  let bcryptCompare := fun (input stored : string) => String.eqb ("$" ++ input) stored in
  let jwtSign := fun (_ : ObjectId) (_ : string) (_ : Z) => "t" in
  exists free : Z,
    In free [12345678] /\
    login bcryptCompare jwtSign "s" 9 (Some "13812345678") (Some "123456")
      (docs UserSchema.empty ++
       [mkUser (nextId UserSchema.empty) (generateRandomUsername free) "13812345678"
          (bcryptHash "123456" "salt") 1000])%list
    = mkResponse 200 "登录成功"
        (Some (mkLoginData
                 (mkUserView (nextId UserSchema.empty) (generateRandomUsername free)
                    "13812345678") "t")).
Proof.
  intros bcryptHash bcryptCompare jwtSign.
  assert (D : Forall (fun n => 10000000 <= n < 100000000) [12345678])
    by (constructor; [lia | constructor]).
  assert (N : "123456" <> "") by discriminate.
  assert (T : 1000 <= 0 + 300000) by lia.
  destruct (code_registration_then_login bcryptHash bcryptCompare jwtSign (fun _ => "")
              true false "" Sms.NetworkError "s" 0 1000 9 "salt" [12345678] 12345678
              "13812345678" ∅ UserSchema.empty eq_refl eq_refl N T eq_refl D
              (or_introl eq_refl) eq_refl eq_refl) as (free & I & _ & L).
  exists free. split; [exact I | exact L].
Defined.

(** X27.  A registration by code for a phone that is already registered
    is refused with 400 after the code was verified: the code is used up
    (its entry is removed) although no user is created, and a second attempt
    with the same code is told to request a code first. *)
Theorem refused_registration_uses_code :
  forall (bcryptHash : string -> string -> string)
         (jwtSign : ObjectId -> string -> Z -> string) (errorMessage : SaveError -> string)
         (JWT_SECRET : string) (now now2 : Z) (salt : string) (draws : list Z)
         (phone sent : string) (codes : gmap string Sms.StoredCode) (st : Users)
         (stored : Sms.StoredCode) (u : User),
    phoneRegex phone = true ->
    sent <> "" ->
    codes !! phone = Some stored ->
    Sms.code stored = sent ->
    now <= Sms.expireAt stored ->
    findOne phone (docs st) = Some u ->
    registerWithCode bcryptHash jwtSign errorMessage JWT_SECRET now salt draws
      (Some phone) (Some sent) codes st
    = Some (mkResponse 400 "该手机号已注册，请直接登录" None, delete phone codes, st) /\
    registerWithCode bcryptHash jwtSign errorMessage JWT_SECRET now2 salt draws
      (Some phone) (Some sent) (delete phone codes) st
    = Some (mkResponse 400 "请先获取验证码" None, delete phone codes, st).
Proof.
  intros hash sign msg secret now now2 salt draws phone sent codes st stored u
         Hphone Hne L C T FP.
  destruct (phoneRegex_trim phone Hphone) as [_ NP].
  destruct (truthy_Some phone NP) as [T2 O2].
  destruct (truthy_Some sent Hne) as [T3 O3].
  split.
  - unfold registerWithCode. rewrite T2, T3, O2, O3. cbn [negb orb].
    rewrite Hphone. cbn [negb]. rewrite (verify_stored phone sent now codes stored L C T).
    cbn [Sms.success negb]. now rewrite FP.
  - unfold registerWithCode. rewrite T2, T3, O2, O3. cbn [negb orb].
    rewrite Hphone. cbn [negb]. unfold Sms.verifySmsCode. rewrite lookup_delete_eq.
    reflexivity.
Qed.

(** X27 with one registered user. *)
Lemma refused_registration_uses_code_witness :
  let st := mkUsers [mkUser 0%nat "用户12345678" "13812345678" "$123456" 0] 1%nat in
  let codes := Sms.storeCode "13812345678" "123456" 0 ∅ in
  registerWithCode (fun password _ => "$" ++ password) (fun _ _ _ => "t") (fun _ => "")
    "s" 1000 "salt" [12345678] (Some "13812345678") (Some "123456") codes st
  = Some (mkResponse 400 "该手机号已注册，请直接登录" None, delete "13812345678" codes, st).
Proof.
  intros st codes.
  assert (N : "123456" <> "") by discriminate.
  assert (L : codes !! "13812345678" = Some (Sms.mkStored "123456" 300000))
    by apply lookup_insert_eq.
  assert (T : 1000 <= Sms.expireAt (Sms.mkStored "123456" 300000)) by (cbn; lia).
  exact (proj1 (refused_registration_uses_code (fun password _ => "$" ++ password)
                  (fun _ _ _ => "t") (fun _ => "") "s" 1000 2000 "salt" [12345678]
                  "13812345678" "123456" codes st (Sms.mkStored "123456" 300000)
                  (mkUser 0%nat "用户12345678" "13812345678" "$123456" 0)
                  eq_refl N L eq_refl T eq_refl)).
Defined.

(** X28.  In every collection of users reached from the empty one by
    registrations (of both kinds) and password changes, no two users share a
    phone, a name or an ObjectId, every phone matches the pattern, and every
    name is stored trimmed with 2 to 20 characters; so a login finds a user
    by the phone, and [findById] by the id, of that very user, and [GET /info]
    with the id answers 200 with the id, name, phone and creation time of
    the user. *)
Theorem users_stay_unique :
  forall (bcryptHash : string -> string -> string) (bcryptCompare : string -> string -> bool)
         (jwtSign : ObjectId -> string -> Z -> string) (errorMessage : SaveError -> string)
         (reqs : list Request),
    let st := run bcryptHash bcryptCompare jwtSign errorMessage reqs UserSchema.empty in
    List.NoDup (map phone (docs st)) /\
    List.NoDup (map username (docs st)) /\
    List.NoDup (map _id (docs st)) /\
    (forall u : User,
        In u (docs st) ->
        phoneRegex (phone u) = true /\
        trim (username u) = username u /\
        (2 <= length16 (username u) <= 20)%nat /\
        findOne (phone u) (docs st) = Some u /\
        findById (Some (_id u)) st = Some u /\
        info (Some (_id u)) st
        = mkResponse 200 "获取成功"
            (Some (mkInfoView (_id u) (username u) (phone u) (createdAt u)))).
Proof.
  intros hash cmp sign msg reqs st.
  destruct (run_wellFormed hash cmp sign msg reqs _ empty_wellFormed) as (NP & NU & NI & V).
  fold st in NP, NU, NI, V.
  split; [exact NP |]. split; [exact NU |]. split; [exact NI |].
  intros u Hu. destruct (V u Hu) as (_ & P & T & L).
  split; [exact P |]. split; [exact T |]. split; [exact L |].
  assert (Fi : findById (Some (_id u)) st = Some u).
  { unfold findById. apply (find_unique _id Nat.eqb); [apply Nat.eqb_eq | |]; assumption. }
  split; [| split; [exact Fi |]].
  - rewrite findOne_exact by exact P.
    apply (find_unique phone String.eqb); [apply String.eqb_eq | |]; assumption.
  - unfold info. now rewrite Fi.
Qed.

(** X29.  Changing the password.  For a user of a collection reached from
    the empty one by any writes (registrations, password changes, name
    changes), an old password that [bcrypt.compare] accepts and a new
    password of at least 6 characters (other than the stored hash itself):
    when the stored name of the user has at least 2 characters, the change
    answers 200 and stores the hash of the new password for that user
    (phones, names and ids are as they were, every other user is
    unchanged), and a login with the phone and the new password answers 200
    with the user; when the stored name is shorter (a name change checks
    the length of the name before it is trimmed), the save fails on the
    validation of the name, the answer is 500 and nothing changes.  With an
    old password that [bcrypt.compare] rejects the answer is 400 and
    nothing changes. *)
Theorem password_change_then_login :
  forall (bcryptHash : string -> string -> string) (bcryptCompare : string -> string -> bool)
         (jwtSign : ObjectId -> string -> Z -> string) (errorMessage : SaveError -> string)
         (reqs : list Write) (JWT_SECRET : string) (now : Z) (salt : string)
         (uid : ObjectId) (oldPassword newPassword : string) (u : User),
    let st := writes bcryptHash bcryptCompare jwtSign errorMessage reqs UserSchema.empty in
    findById (Some uid) st = Some u ->
    oldPassword <> "" ->
    (6 <= length16 newPassword)%nat ->
    newPassword <> password u ->
    bcryptCompare newPassword (bcryptHash newPassword salt) = true ->
    let result := changePassword bcryptHash bcryptCompare errorMessage salt (Some uid)
                    (Some oldPassword) (Some newPassword) st in
    (comparePassword bcryptCompare u oldPassword = false ->
     result = (mkResponse 400 "旧密码错误" None, st)) /\
    (comparePassword bcryptCompare u oldPassword = true ->
     (2 <= length16 (username u))%nat ->
     fst result = mkResponse 200 "密码修改成功" None /\
     findById (Some uid) (snd result)
     = Some (mkUser uid (username u) (phone u) (bcryptHash newPassword salt) (createdAt u)) /\
     (forall v : User, In v (docs st) -> _id v <> uid -> In v (docs (snd result))) /\
     List.length (docs (snd result)) = List.length (docs st) /\
     login bcryptCompare jwtSign JWT_SECRET now (Some (phone u)) (Some newPassword)
       (docs (snd result))
     = mkResponse 200 "登录成功"
         (Some (mkLoginData (mkUserView uid (username u) (phone u))
                  (jwtSign uid JWT_SECRET now)))) /\
    (comparePassword bcryptCompare u oldPassword = true ->
     (length16 (username u) < 2)%nat ->
     result = (mkResponse 500 ("修改失败: " ++ errorMessage ValidationError) None, st)).
Proof.
  intros hash cmp sign msg reqs secret now salt uid old new u st F Hold Hnew Hdiff Hcmp result.
  destruct (writes_consistent hash cmp sign msg reqs _ empty_consistent) as (NP & NU & NI & V).
  fold st in NP, NU, NI, V.
  destruct (findById_In uid st u F) as [Hu Hid].
  destruct (V u Hu) as (_ & P & Tn & Ln).
  destruct (phoneRegex_trim (phone u) P) as [_ NPh].
  assert (NW : new <> "") by (apply length16_nonEmpty; lia).
  destruct (truthy_Some old Hold) as [T1 O1].
  destruct (truthy_Some new NW) as [T2 O2].
  destruct (truthy_Some (phone u) NPh) as [T3 O3].
  assert (G : (length16 new <? 6)%nat = false) by (apply Nat.ltb_ge; lia).
  split; [| split].
  - intros Hc. unfold result, changePassword. rewrite T1, T2, O1, O2. cbn [negb orb].
    rewrite G, F, Hc. reflexivity.
  - intros Hc Hname.
    set (u' := mkUser (_id u) (username u) (phone u) (hash new salt) (createdAt u)).
    set (docs' := List.map (fun v => if Nat.eqb (_id v) (_id u) then u' else v) (docs st)).
    assert (R : result = (mkResponse 200 "密码修改成功" None, mkUsers docs' (nextId st))).
    { unfold result, changePassword. rewrite T1, T2, O1, O2. cbn [negb orb].
      rewrite G, F, Hc. cbn [negb]. unfold savePassword. cbv zeta.
      assert (Vd : validUser (username u) (phone u) new = true).
      { unfold validUser. rewrite P.
        replace (nonEmpty (username u)) with true
          by (symmetry; apply TrimFacts.nonEmpty_true, length16_nonEmpty; lia).
        replace (nonEmpty (phone u)) with true by (symmetry; now apply TrimFacts.nonEmpty_true).
        replace (nonEmpty new) with true by (symmetry; now apply TrimFacts.nonEmpty_true).
        cbn [andb].
        destruct (Nat.leb_spec 2 (length16 (username u))); [| lia].
        destruct (Nat.leb_spec (length16 (username u)) 20); [| lia].
        destruct (Nat.leb_spec 6 (length16 new)); [reflexivity | lia]. }
      rewrite Vd. cbn [negb].
      replace (String.eqb new (password u)) with false
        by (symmetry; now apply String.eqb_neq).
      reflexivity. }
    destruct (replace_keeps_keys u u' st NI Hu eq_refl eq_refl eq_refl) as (EP & EU & EI & K).
    fold docs' in EP, EU, EI, K.
    assert (Fp : List.find (fun v => String.eqb (phone v) (phone u)) docs' = Some u').
    { unfold docs'. rewrite find_map_fields.
      - rewrite (find_unique phone String.eqb (docs st) u String.eqb_eq NP Hu).
        cbn [option_map]. now rewrite Nat.eqb_refl.
      - intros v Hv. destruct (Nat.eqb_spec (_id v) (_id u)) as [E | _]; [| reflexivity].
        assert (v = u) as -> by exact (CheckInStoreFacts.NoDup_map_eq _id _ v u NI Hv Hu E).
        reflexivity. }
    assert (Fi : List.find (fun v => Nat.eqb (_id v) uid) docs' = Some u').
    { unfold docs'. rewrite find_map_fields.
      - unfold findById in F. rewrite F. cbn [option_map]. now rewrite Nat.eqb_refl.
      - intros v Hv. destruct (Nat.eqb_spec (_id v) (_id u)) as [E | _]; [| reflexivity].
        cbn [_id u']. now rewrite E. }
    rewrite R. cbn [fst snd docs]. split; [reflexivity |].
    split; [unfold findById; cbn [docs]; rewrite Fi; unfold u'; now rewrite Hid |].
    split.
    { intros v Hv Hne. unfold docs'. apply in_map_iff. exists v. split; [| exact Hv].
      destruct (Nat.eqb_spec (_id v) (_id u)) as [E | _]; [congruence | reflexivity]. }
    split; [unfold docs'; apply List.length_map |].
    unfold login. rewrite T3, T2, O3, O2. cbn [negb orb].
    rewrite findOne_exact by exact P. rewrite Fp.
    unfold comparePassword. cbn [password u']. rewrite Hcmp. cbn [negb].
    unfold u'. cbn [_id username phone]. now rewrite Hid.
  - intros Hc Hname. unfold result, changePassword. rewrite T1, T2, O1, O2. cbn [negb orb].
    rewrite G, F, Hc. cbn [negb]. unfold savePassword. cbv zeta.
    assert (Vd : validUser (username u) (phone u) new = false).
    { unfold validUser.
      replace (2 <=? length16 (username u))%nat with false
        by (symmetry; apply Nat.leb_gt; lia).
      now rewrite andb_false_r. }
    rewrite Vd. reflexivity.
Qed.

(** X29 for a user who registered and then changed the name. *)
Lemma password_change_then_login_witness :
  let bcryptHash := fun (password salt : string) => "$" ++ password in
  let bcryptCompare := fun (input stored : string) => String.eqb ("$" ++ input) stored in
  let jwtSign := fun (_ : ObjectId) (_ : string) (_ : Z) => "t" in
  let st := writes bcryptHash bcryptCompare jwtSign (fun _ => "")
              [Earlier (Register "s" 0 "salt" (Some "张三") (Some "13812345678")
                          (Some "secret1"));
               ChangeUsername "null" (Some 0%nat) (Some " 李四 ")]
              UserSchema.empty in
  login bcryptCompare jwtSign "s" 9 (Some "13812345678") (Some "secret2")
    (docs (snd (changePassword bcryptHash bcryptCompare (fun _ => "") "salt" (Some 0%nat)
                  (Some "secret1") (Some "secret2") st)))
  = mkResponse 200 "登录成功"
      (Some (mkLoginData (mkUserView 0%nat "李四" "13812345678") "t")).
Proof.
  intros bcryptHash bcryptCompare jwtSign st.
  assert (N : "secret1" <> "") by discriminate.
  assert (L : (6 <= length16 "secret2")%nat) by (vm_compute; lia).
  assert (D : "secret2" <> password (mkUser 0%nat "李四" "13812345678" "$secret1" 0))
    by discriminate.
  assert (M : (2 <= length16 (username (mkUser 0%nat "李四" "13812345678" "$secret1" 0)))%nat)
    by (vm_compute; lia).
  exact (proj2 (proj2 (proj2 (proj2
           (proj1 (proj2 (password_change_then_login bcryptHash bcryptCompare jwtSign
                            (fun _ => "")
                            [Earlier (Register "s" 0 "salt" (Some "张三") (Some "13812345678")
                                        (Some "secret1"));
                             ChangeUsername "null" (Some 0%nat) (Some " 李四 ")]
                            "s" 9 "salt" 0%nat "secret1" "secret2"
                            (mkUser 0%nat "李四" "13812345678" "$secret1" 0)
                            eq_refl N L D eq_refl)) eq_refl M))))).
Defined.

(** After a change of the name to a blank and one letter, stored as the
    letter, the password can no longer be changed. *)
Example password_change_after_short_name :
  let bcryptHash := fun (password salt : string) => "$" ++ password in
  let bcryptCompare := fun (input stored : string) => String.eqb ("$" ++ input) stored in
  let st := writes bcryptHash bcryptCompare (fun _ _ _ => "t") (fun _ => "validation")
              [Earlier (Register "s" 0 "salt" (Some "张三") (Some "13812345678")
                          (Some "secret1"));
               ChangeUsername "null" (Some 0%nat) (Some " a")]
              UserSchema.empty in
  docs st = [mkUser 0%nat "a" "13812345678" "$secret1" 0] /\
  changePassword bcryptHash bcryptCompare (fun _ => "validation") "salt" (Some 0%nat)
    (Some "secret1") (Some "secret2") st
  = (mkResponse 500 "修改失败: validation" None, st).
Proof. vm_compute. split; reflexivity. Qed.

(** X30.  Changing the name.  The length of 2 to 20 characters is checked
    on the name as submitted, the name stored is the trimmed one.  For a
    user of a collection reached from the empty one by any writes
    (registrations, password changes, earlier name changes) and a submitted
    name of 2 to 20 characters: when the name, trimmed, is the name of no
    other user, the change answers 200 with the user under the trimmed name
    and stores it (the phone, the password and the id of the user, and every
    other user, are as they were, and no two users share a name
    afterwards); when another user has it, the answer is 400 and nothing
    changes. *)
Theorem username_change_stores_trimmed :
  forall (bcryptHash : string -> string -> string) (bcryptCompare : string -> string -> bool)
         (jwtSign : ObjectId -> string -> Z -> string) (errorMessage : SaveError -> string)
         (reqs : list Write) (nullMessage : string) (uid : ObjectId) (name : string)
         (u : User),
    let st := writes bcryptHash bcryptCompare jwtSign errorMessage reqs UserSchema.empty in
    findById (Some uid) st = Some u ->
    (2 <= length16 name <= 20)%nat ->
    let result := changeUsername nullMessage (Some uid) (Some name) st in
    ((forall v : User, In v (docs st) -> username v = trim name -> _id v = uid) ->
     fst result
     = mkResponse 200 "用户名修改成功" (Some (mkUserView uid (trim name) (phone u))) /\
     findById (Some uid) (snd result)
     = Some (mkUser uid (trim name) (phone u) (password u) (createdAt u)) /\
     (forall v : User, In v (docs st) -> _id v <> uid -> In v (docs (snd result))) /\
     List.length (docs (snd result)) = List.length (docs st) /\
     List.NoDup (map username (docs (snd result)))) /\
    (forall other : User,
        In other (docs st) -> username other = trim name -> _id other <> uid ->
        result = (mkResponse 400 "该用户名已被使用" None, st)).
Proof.
  intros hash cmp sign msg reqs nullMessage uid name u st F Hlen result.
  destruct (writes_consistent hash cmp sign msg reqs _ empty_consistent) as (NP & NU & NI & V).
  fold st in NP, NU, NI, V.
  destruct (findById_In uid st u F) as [Hu Hid].
  assert (NN : name <> "") by (apply length16_nonEmpty; lia).
  destruct (truthy_Some name NN) as [T1 O1].
  assert (G : ((length16 name <? 2)%nat || (20 <? length16 name)%nat) = false).
  { apply orb_false_iff. split; apply Nat.ltb_ge; lia. }
  split.
  - intros Hfree.
    set (u' := mkUser (_id u) (trim name) (phone u) (password u) (createdAt u)).
    set (f := fun v : User => if Nat.eqb (_id v) (_id u) then u' else v).
    assert (Q : List.find (fun v => String.eqb (username v) (trim name) &&
                                    negb (Nat.eqb (_id v) uid)) (docs st) = None).
    { destruct (List.find _ (docs st)) as [v |] eqn:E; [| reflexivity].
      apply find_some in E. destruct E as [Hv B]. apply andb_true_iff in B as [B1 B2].
      apply String.eqb_eq in B1. apply negb_true_iff, Nat.eqb_neq in B2.
      exfalso. apply B2. now apply Hfree. }
    assert (R : result = (mkResponse 200 "用户名修改成功"
                            (Some (mkUserView uid (trim name) (phone u))),
                          mkUsers (List.map f (docs st)) (nextId st))).
    { unfold result, changeUsername. rewrite T1, O1. cbn [negb]. cbv zeta.
      rewrite G, Q, F. unfold f, u'. cbn [_id username phone]. now rewrite Hid. }
    assert (Fi : List.find (fun v => Nat.eqb (_id v) uid) (List.map f (docs st)) = Some u').
    { rewrite find_map_fields.
      - unfold findById in F. rewrite F. cbn [option_map]. unfold f. now rewrite Nat.eqb_refl.
      - intros v Hv. unfold f.
        destruct (Nat.eqb_spec (_id v) (_id u)) as [E | _]; [| reflexivity].
        cbn [_id u']. now rewrite E. }
    rewrite R. cbn [fst snd docs]. split; [reflexivity |].
    split; [unfold findById; cbn [docs]; rewrite Fi; unfold u'; now rewrite Hid |].
    split.
    { intros v Hv Hne. apply in_map_iff. exists v. split; [| exact Hv].
      unfold f. destruct (Nat.eqb_spec (_id v) (_id u)) as [E | _]; [congruence | reflexivity]. }
    split; [apply List.length_map |].
    apply (rename_keeps_names u u' st NU NI Hu).
    intros v Hv E. cbn [username u'] in E. rewrite Hid. now apply Hfree.
  - intros other Ho En Hne. unfold result, changeUsername. rewrite T1, O1. cbn [negb]. cbv zeta.
    rewrite G.
    destruct (List.find _ (docs st)) as [v |] eqn:E; [reflexivity |].
    exfalso. pose proof (find_none _ _ E other Ho) as B. cbv beta in B.
    rewrite En, String.eqb_refl in B. cbn [andb] in B.
    apply negb_false_iff, Nat.eqb_eq in B. contradiction.
Qed.

(** X30 for a second change of the name, to two blanks, which are stored
    as the empty name. *)
Lemma username_change_stores_trimmed_witness :
  let st := writes (fun password _ => "$" ++ password)
              (fun input stored => String.eqb ("$" ++ input) stored) (fun _ _ _ => "t")
              (fun _ => "")
              [Earlier (Register "s" 0 "salt" (Some "张三") (Some "13812345678")
                          (Some "secret1"));
               ChangeUsername "null" (Some 0%nat) (Some " 李四 ")]
              UserSchema.empty in
  fst (changeUsername "null" (Some 0%nat) (Some "  ") st)
  = mkResponse 200 "用户名修改成功" (Some (mkUserView 0%nat "" "13812345678")).
Proof.
  intros st.
  assert (L : (2 <= length16 "  " <= 20)%nat) by (vm_compute; lia).
  assert (H : forall v : User, In v (docs st) -> username v = trim "  " -> _id v = 0%nat).
  { intros v [<- | []] _. reflexivity. }
  exact (proj1 (proj1 (username_change_stores_trimmed (fun password _ => "$" ++ password)
                  (fun input stored => String.eqb ("$" ++ input) stored) (fun _ _ _ => "t")
                  (fun _ => "")
                  [Earlier (Register "s" 0 "salt" (Some "张三") (Some "13812345678")
                              (Some "secret1"));
                   ChangeUsername "null" (Some 0%nat) (Some " 李四 ")]
                  "null" 0%nat "  " (mkUser 0%nat "李四" "13812345678" "$secret1" 0)
                  eq_refl L) H)).
Defined.

End AccountProperties.
